(** * Monitoring dashboard: state aggregation and fan-out core

    A shallow embedding of the two programs of the repository,

    - [src/comprehensive-monitor.js] (class [ComprehensiveMonitor], the
      terminal monitor), module [Monitor] below, and
    - the dashboard WebSocket server (class [DashboardServer]), modules
      [Dashboard] and [Demo] below,

    together with the properties of the snapshot store, the reconciler,
    the fan-out dispatcher, the cold-start replay and the degraded-mode
    generator.

    Modelling conventions.
    - A JS [Map] is an insertion-ordered list of entries whose keys are
      compared with SameValueZero (module [JsMap]).
    - JS numbers are embedded as exact rationals [Q]; IEEE rounding, NaN
      and the infinities are not represented.  Integer-valued fields of
      the demo data are embedded as [Z].
    - A method body runs in the monad [M]: it threads the object state,
      may throw, and appends to a trace of console lines and of calls to
      [broadcast].  State written before a throw stays written, as in JS.
    - What the JS runtime provides ([JSON.parse], [JSON.stringify], the
      clock, [Math.random], numeric coercion of strings and objects) is
      the interface [Runtime]. *)

From Stdlib Require Import List String Ascii Bool Arith ZArith QArith Lia.
From Stdlib Require Import DecimalString Qminmax Qround Lqa.
Import ListNotations.

Local Open Scope string_scope.
Local Open Scope list_scope.
Local Open Scope Z_scope.

Set Implicit Arguments.
Set Warnings "-register-all".

(** ** JS values *)

Inductive jsval : Type :=
| VUndefined
| VNull
| VBool (b : bool)
| VNum (q : Q)
| VStr (s : string)
| VDate (t : Z)
| VArr (items : list jsval)
| VObj (props : list (string * jsval)).

(** The own enumerable properties of an object, in order.  The names of
    one object are pairwise distinct. *)
Definition jsobj : Type := list (string * jsval).

(** [o[name]] on an object: [undefined] when the property is absent. *)
Fixpoint obj_get (name : string) (o : jsobj) : jsval :=
  match o with
  | [] => VUndefined
  | (n, v) :: rest => if String.eqb name n then v else obj_get name rest
  end.

(** [o[name] = v]: an existing property keeps its place, a new one goes
    last. *)
Fixpoint obj_set (name : string) (v : jsval) (o : jsobj) : jsobj :=
  match o with
  | [] => [(name, v)]
  | (n, v') :: rest =>
      if String.eqb name n then (n, v) :: rest
      else (n, v') :: obj_set name v rest
  end.

Definition index_name (i : nat) : string :=
  NilEmpty.string_of_uint (Nat.to_uint i).

Fixpoint indexed (i : nat) (items : list jsval) : jsobj :=
  match items with
  | [] => []
  | v :: rest => (index_name i, v) :: indexed (S i) rest
  end.

Fixpoint chars (s : string) : list jsval :=
  match s with
  | EmptyString => []
  | String c rest => VStr (String c EmptyString) :: chars rest
  end.

(** The properties copied by the spread [{...v}]: those of an object, the
    indices of an array or of a string, none for the other values. *)
Definition spread (v : jsval) : jsobj :=
  match v with
  | VObj props => props
  | VArr items => indexed 0 items
  | VStr s => indexed 0 (chars s)
  | _ => []
  end.

Inductive exn : Type :=
| SyntaxError
| TypeError (what : string)
| SendError.

(** [v.name] for a name that is not an array index, [length] or another
    built-in: reading a property of [null] or [undefined] throws. *)
Definition get_prop (v : jsval) (name : string) : exn + jsval :=
  match v with
  | VUndefined | VNull => inl (TypeError name)
  | VObj props => inr (obj_get name props)
  | _ => inr VUndefined
  end.

(** [v === s] for a string literal [s]. *)
Definition strict_eq_str (v : jsval) (s : string) : bool :=
  match v with
  | VStr s' => String.eqb s' s
  | _ => false
  end.

(** ToPrimitive throws a [TypeError] on the value, whether a string or a
    number is asked for.  A property read from JSON is never a function,
    so an object with an own [toString] finds no method to call:
    [valueOf] of [Object.prototype] returns the object itself, and an
    own [valueOf] is no function either.  An array is converted by
    [join], which converts its items. *)
Fixpoint unconvertible (v : jsval) : bool :=
  match v with
  | VObj props => existsb (fun p => String.eqb (fst p) "toString") props
  | VArr items => existsb unconvertible items
  | _ => false
  end.

Definition conversion_error : exn :=
  TypeError "Cannot convert object to primitive value".

(** SameValueZero, the comparison of [Map] keys.  Objects, arrays and
    dates are compared by reference; each one reaching a map as a key
    was allocated by its own [JSON.parse], so it equals no stored key. *)
Definition same_value_zero (a b : jsval) : bool :=
  match a, b with
  | VUndefined, VUndefined => true
  | VNull, VNull => true
  | VBool x, VBool y => Bool.eqb x y
  | VNum x, VNum y => Qeq_bool x y
  | VStr x, VStr y => String.eqb x y
  | _, _ => false
  end.

(** ToBoolean: what a condition makes of a value. *)
Definition truthy (v : jsval) : bool :=
  match v with
  | VUndefined | VNull => false
  | VBool b => b
  | VNum q => negb (Qeq_bool q 0)
  | VStr s => negb (String.eqb s EmptyString)
  | VDate _ | VArr _ | VObj _ => true
  end.

(** [Math.round]: the nearest integer, a half going up. *)
Definition Math_round (x : Q) : Z := Qfloor (x + (1 # 2)).

(** ** Insertion-ordered maps (JS [Map]) *)

Module JsMap.
Section Ops.
Context {K V : Type} (keq : K -> K -> bool).

Fixpoint has (k : K) (m : list (K * V)) : bool :=
  match m with
  | [] => false
  | (k', _) :: rest => if keq k k' then true else has k rest
  end.

Fixpoint get (k : K) (m : list (K * V)) : option V :=
  match m with
  | [] => None
  | (k', v) :: rest => if keq k k' then Some v else get k rest
  end.

(** [m.set(k, v)]: the entry of an existing key keeps its place (and
    its key), a new key is appended. *)
Fixpoint set (k : K) (v : V) (m : list (K * V)) : list (K * V) :=
  match m with
  | [] => [(k, v)]
  | (k', v') :: rest =>
      if keq k k' then (k', v) :: rest else (k', v') :: set k v rest
  end.

(** [m.delete(k)]: removes the entry of [k], if any. *)
Fixpoint delete (k : K) (m : list (K * V)) : list (K * V) :=
  match m with
  | [] => []
  | (k', v') :: rest =>
      if keq k k' then rest else (k', v') :: delete k rest
  end.

(** No two entries have the same key. *)
Fixpoint uniq (m : list (K * V)) : Prop :=
  match m with
  | [] => True
  | (k, _) :: rest => has k rest = false /\ uniq rest
  end.

(** [f] applied to the value stored under [k]. *)
Fixpoint alter (f : V -> V) (k : K) (m : list (K * V)) : list (K * V) :=
  match m with
  | [] => []
  | (k', v') :: rest =>
      if keq k k' then (k', f v') :: rest else (k', v') :: alter f k rest
  end.

(** A key that only matches itself. *)
Definition exact_key (k : K) : Prop :=
  forall k', keq k k' = true -> k' = k.

Fixpoint uniqb (m : list (K * V)) : bool :=
  match m with
  | [] => true
  | (k, _) :: rest => negb (has k rest) && uniqb rest
  end.
End Ops.
End JsMap.

(** ** Effects of a method body *)

(** What a method leaves behind besides its state: console lines and the
    calls it made to [broadcast], in order. *)
Inductive effect : Type :=
| ConsoleLog (line : string) (args : list jsval)
| ConsoleError (line : string) (e : exn)
| Fanout (data : jsval).

Inductive outcome (A : Type) : Type :=
| Ret (a : A)
| Throw (e : exn).
Arguments Ret {A} a.
Arguments Throw {A} e.

Definition M (S A : Type) : Type := S -> outcome A * S * list effect.

Definition ret {S A : Type} (a : A) : M S A := fun s => (Ret a, s, []).

Definition bind {S A B : Type} (c : M S A) (k : A -> M S B) : M S B :=
  fun s =>
    match c s with
    | (Ret a, s1, t1) =>
        match k a s1 with
        | (r, s2, t2) => (r, s2, t1 ++ t2)
        end
    | (Throw e, s1, t1) => (Throw e, s1, t1)
    end.

Definition throw {S A : Type} (e : exn) : M S A := fun s => (Throw e, s, []).

(** [try { body } catch (e) { handler }]: the handler starts from the
    state the body had reached. *)
Definition try_catch {S A : Type} (body : M S A) (handler : exn -> M S A)
  : M S A :=
  fun s =>
    match body s with
    | (Ret a, s1, t1) => (Ret a, s1, t1)
    | (Throw e, s1, t1) =>
        match handler e s1 with
        | (r, s2, t2) => (r, s2, t1 ++ t2)
        end
    end.

Definition get_state {S : Type} : M S S := fun s => (Ret s, s, []).
Definition modify {S : Type} (f : S -> S) : M S unit :=
  fun s => (Ret tt, f s, []).
Definition emit {S : Type} (e : effect) : M S unit :=
  fun s => (Ret tt, s, [e]).
Definition lift {S A : Type} (r : exn + A) : M S A :=
  match r with
  | inl e => throw e
  | inr a => ret a
  end.

(** The rest of a statement that has thrown is skipped. *)
Definition raise_if {S : Type} (thrown : option exn) : M S unit :=
  match thrown with
  | Some e => throw e
  | None => ret tt
  end.

Definition console_log {S : Type} (line : string) (args : list jsval)
  : M S unit :=
  emit (ConsoleLog line args).
Definition console_error {S : Type} (line : string) (e : exn) : M S unit :=
  emit (ConsoleError line e).

Declare Scope js_scope.
Delimit Scope js_scope with js.
Notation "x <- c ;; k" := (bind c (fun x => k))
  (at level 100, c at next level, right associativity) : js_scope.
Notation "c ;; k" := (bind c (fun _ => k))
  (at level 100, right associativity) : js_scope.

(** [for (const x of xs) body(x)] over a list fixed at loop entry. *)
Fixpoint for_each {S A : Type} (xs : list A) (body : A -> M S unit)
  : M S unit :=
  match xs with
  | [] => ret tt
  | x :: rest => bind (body x) (fun _ => for_each rest body)
  end.

Definition state_of {S A : Type} (r : outcome A * S * list effect) : S :=
  snd (fst r).
Definition trace_of {S A : Type} (r : outcome A * S * list effect)
  : list effect := snd r.
Definition result_of {S A : Type} (r : outcome A * S * list effect)
  : outcome A := fst (fst r).

Definition is_error (e : effect) : bool :=
  match e with
  | ConsoleError _ _ => true
  | _ => false
  end.

Definition fanouts (t : list effect) : list jsval :=
  flat_map (fun e => match e with Fanout d => [d] | _ => [] end) t.

(** ** The JS runtime *)

Class Runtime : Type := {
  (** [JSON.parse]: [None] when it throws a [SyntaxError]. *)
  JSON_parse : string -> option jsval;
  JSON_stringify : jsval -> string;
  (** [Date.prototype.toISOString], on milliseconds since the epoch. *)
  toISOString : Z -> string;
  (** ToNumber of a string and of an object or array; [None] is NaN. *)
  StringToNumber : string -> option Q;
  ObjectToNumber : jsval -> option Q;
  (** The clock: the reading that follows a reading of [t]. *)
  elapse : Z -> Z;
  elapse_mono : forall t, t <= elapse t;
  (** [Math.random()]: the n-th draw of the process. *)
  Math_random : nat -> Q;
  Math_random_range : forall n, (0 <= Math_random n /\ Math_random n < 1)%Q
}.

Definition ToNumber `{Runtime} (v : jsval) : option Q :=
  match v with
  | VUndefined => None
  | VNull => Some 0%Q
  | VBool b => Some (if b then 1%Q else 0%Q)
  | VNum q => Some q
  | VStr s => StringToNumber s
  | VDate t => Some (inject_Z t)
  | VArr _ | VObj _ => ObjectToNumber v
  end.

(** [v > 0]: the value is converted to a primitive first, which throws
    for an [unconvertible] one. *)
Definition js_gt0 `{Runtime} (v : jsval) : exn + bool :=
  if unconvertible v then inl conversion_error
  else inr match ToNumber v with
           | Some q => negb (Qle_bool q 0)
           | None => false
           end.

(** The test [v > 0] returns [true]. *)
Definition positive `{Runtime} (v : jsval) : bool :=
  match js_gt0 v with
  | inr b => b
  | inl _ => false
  end.

(** [channel.split(':')]. *)
Fixpoint split_colon (s : string) : list string :=
  match s with
  | EmptyString => [EmptyString]
  | String c rest =>
      if Ascii.eqb c ":"%char then EmptyString :: split_colon rest
      else match split_colon rest with
           | [] => [String c EmptyString]
           | seg :: segs => String c seg :: segs
           end
  end.

(** The kinds of bus message, by channel: the two patterns [metrics:*]
    and [market_status:*] and the two fixed channels. *)
Inductive topic : Type :=
| HealthTopic (nodeId : string)
| OrderbookTopic
| StatusTopic (eventId : string)
| DiscoveryTopic
| Unrecognized.

Definition second_segment (channel : string) : string :=
  nth 1 (split_colon channel) EmptyString.

Definition topic_of (channel : string) : topic :=
  if String.prefix "metrics:" channel then HealthTopic (second_segment channel)
  else if String.eqb channel "orderbooks" then OrderbookTopic
  else if String.prefix "market_status:" channel
       then StatusTopic (second_segment channel)
  else if String.eqb channel "market_discovery" then DiscoveryTopic
  else Unrecognized.

(** [JSON.parse(message)] inside a method body. *)
Definition parse `{Runtime} {S : Type} (message : string) : M S jsval :=
  match JSON_parse message with
  | Some v => ret v
  | None => throw SyntaxError
  end.

(** The order books of all nodes: node id to (event id to order book). *)
Definition books (O : Type) : Type := list (jsval * list (jsval * O)).

(** The loop [for (const [nodeId, nodeOrderbooks] of this.orderbooksByNode)]
    of [handleMarketStatusUpdate]: the sub-maps when the loop ends, the
    lines it has logged, and the error that ended it, if any.  The line
    logged after a [delete] has [nodeId] in a template, which converts it
    to a string: for an [unconvertible] key the conversion throws, after
    the [delete], and the loop stops there. *)
Fixpoint remove_from_all {O : Type} (eventId : string) (nodes : books O)
  : books O * list effect * option exn :=
  match nodes with
  | [] => ([], [], None)
  | (nodeId, nodeOrderbooks) :: rest =>
      if JsMap.has same_value_zero (VStr eventId) nodeOrderbooks then
        let removed :=
          (nodeId, JsMap.delete same_value_zero (VStr eventId) nodeOrderbooks)
        in
        if unconvertible nodeId then
          (removed :: rest, [], Some conversion_error)
        else
          let '(rest', lines, thrown) := remove_from_all eventId rest in
          (removed :: rest',
           ConsoleLog "Removed from node" [VStr eventId; nodeId] :: lines,
           thrown)
      else
        let '(rest', lines, thrown) := remove_from_all eventId rest in
        ((nodeId, nodeOrderbooks) :: rest', lines, thrown)
  end.

(** The two statements of [handleOrderbookUpdate] that cache an order
    book: a node without a sub-map gets a new one, appended; then the
    record is set in the node's sub-map.  [get] returns the sub-map just
    added also for a key compared by reference. *)
Definition cache_orderbook {O : Type} (nodeId eventId : jsval) (record : O)
    (nodes : books O) : books O :=
  if JsMap.has same_value_zero nodeId nodes
  then JsMap.alter same_value_zero
         (JsMap.set same_value_zero eventId record) nodeId nodes
  else nodes ++ [(nodeId, JsMap.set same_value_zero eventId record [])].

Definition is_terminal (status : jsval) : bool :=
  strict_eq_str status "CLOSED" || strict_eq_str status "CLEARED".

(** ** The terminal monitor ([ComprehensiveMonitor]) *)

Module Monitor.

Record State : Type := {
  healthData : list (string * jsobj);
  orderbooksByNode : books jsobj;
  marketStatus : list (string * jsobj);
  totalMarkets : jsval;
  lastUpdateTime : Z;
  (** the wall clock, as last read *)
  now : Z
}.

Definition with_healthData (h : list (string * jsobj)) (s : State) : State :=
  {| healthData := h; orderbooksByNode := orderbooksByNode s;
     marketStatus := marketStatus s; totalMarkets := totalMarkets s;
     lastUpdateTime := lastUpdateTime s; now := now s |}.
Definition with_orderbooksByNode (b : books jsobj) (s : State) : State :=
  {| healthData := healthData s; orderbooksByNode := b;
     marketStatus := marketStatus s; totalMarkets := totalMarkets s;
     lastUpdateTime := lastUpdateTime s; now := now s |}.
Definition with_marketStatus (m : list (string * jsobj)) (s : State) : State :=
  {| healthData := healthData s; orderbooksByNode := orderbooksByNode s;
     marketStatus := m; totalMarkets := totalMarkets s;
     lastUpdateTime := lastUpdateTime s; now := now s |}.
Definition with_totalMarkets (v : jsval) (s : State) : State :=
  {| healthData := healthData s; orderbooksByNode := orderbooksByNode s;
     marketStatus := marketStatus s; totalMarkets := v;
     lastUpdateTime := lastUpdateTime s; now := now s |}.
Definition with_lastUpdateTime (t : Z) (s : State) : State :=
  {| healthData := healthData s; orderbooksByNode := orderbooksByNode s;
     marketStatus := marketStatus s; totalMarkets := totalMarkets s;
     lastUpdateTime := t; now := now s |}.
Definition with_now (t : Z) (s : State) : State :=
  {| healthData := healthData s; orderbooksByNode := orderbooksByNode s;
     marketStatus := marketStatus s; totalMarkets := totalMarkets s;
     lastUpdateTime := lastUpdateTime s; now := t |}.

(** The constructor, started at clock reading [t0]. *)
Definition init (t0 : Z) : State :=
  {| healthData := []; orderbooksByNode := []; marketStatus := [];
     totalMarkets := VUndefined; lastUpdateTime := t0; now := t0 |}.

Section Methods.
Context `{Runtime}.
Local Open Scope js_scope.

(** [new Date()]. *)
Definition new_Date : M State Z :=
  fun s => let t := elapse (now s) in (Ret t, with_now t s, []).

Definition handleHealthUpdate (nodeId message : string) : M State unit :=
  try_catch
    (healthData <- parse message ;;
     d <- new_Date ;;
     modify (fun s =>
       with_healthData
         (JsMap.set String.eqb nodeId
            (obj_set "lastUpdate" (VDate d) (spread healthData))
            (Monitor.healthData s)) s) ;;
     d' <- new_Date ;;
     modify (with_lastUpdateTime d'))
    (fun e =>
       console_error ("Error processing health update from " ++ nodeId) e).

Definition handleOrderbookUpdate (message : string) : M State unit :=
  try_catch
    (data <- parse message ;;
     type <- lift (get_prop data "type") ;;
     if negb (strict_eq_str type "orderbook_update") then ret tt
     else
       eventId <- lift (get_prop data "eventId") ;;
       nodeId <- lift (get_prop data "nodeId") ;;
       d <- new_Date ;;
       modify (fun s =>
         with_orderbooksByNode
           (cache_orderbook nodeId eventId
              (obj_set "lastUpdate" (VDate d) (spread data))
              (orderbooksByNode s)) s) ;;
       d' <- new_Date ;;
       modify (with_lastUpdateTime d'))
    (fun e => console_error "Error processing orderbook update" e).

Definition handleMarketStatusUpdate (eventId message : string)
  : M State unit :=
  try_catch
    (statusData <- parse message ;;
     d <- new_Date ;;
     modify (fun s =>
       with_marketStatus
         (JsMap.set String.eqb eventId
            (obj_set "lastUpdate" (VDate d) (spread statusData))
            (marketStatus s)) s) ;;
     status <- lift (get_prop statusData "status") ;;
     (if is_terminal status then
        console_log "Removing market" [VStr eventId; status] ;;
        s <- get_state ;;
        let '(nodes, lines, thrown) :=
          remove_from_all eventId (orderbooksByNode s) in
        modify (with_orderbooksByNode nodes) ;;
        for_each lines emit ;;
        raise_if thrown
      else ret tt) ;;
     d' <- new_Date ;;
     modify (with_lastUpdateTime d'))
    (fun e =>
       console_error ("Error processing market status for " ++ eventId) e).

Definition handleMarketDiscovery (message : string) : M State unit :=
  try_catch
    (discoveryData <- parse message ;;
     total <- lift (get_prop discoveryData "totalMarkets") ;;
     modify (with_totalMarkets total) ;;
     d <- new_Date ;;
     modify (with_lastUpdateTime d))
    (fun e => console_error "Error processing market discovery" e).

(** The subscriptions of [setupSubscriptions]: what a message published
    on [channel] runs. *)
Definition on_message (channel message : string) : M State unit :=
  match topic_of channel with
  | HealthTopic nodeId => handleHealthUpdate nodeId message
  | OrderbookTopic => handleOrderbookUpdate message
  | StatusTopic eventId => handleMarketStatusUpdate eventId message
  | DiscoveryTopic => handleMarketDiscovery message
  | Unrecognized => ret tt
  end.

(** A message that arrives when the clock shows [t]. *)
Definition deliver (t : Z) (channel message : string) (s : State) : State :=
  state_of (on_message channel message (with_now (Z.max (now s) t) s)).

Fixpoint run (events : list (Z * string * string)) (s : State) : State :=
  match events with
  | [] => s
  | (t, channel, message) :: rest => run rest (deliver t channel message s)
  end.

(** [(now - health.lastUpdate) / 1000] for a clock reading [now]; [None]
    is NaN. *)
Definition age_of (now : Z) (health : jsobj) : option Q :=
  match ToNumber (obj_get "lastUpdate" health) with
  | Some u => Some ((inject_Z now - u) / 1000)%Q
  | None => None
  end.

(** The test of [displayHealthStatus] that shows a node as HEALTHY:
    [Math.round(age) < 60 && health.isHealthy]. *)
Definition shown_healthy (now : Z) (health : jsobj) : bool :=
  match age_of now health with
  | Some age =>
      if Math_round age <? 60 then truthy (obj_get "isHealthy" health)
      else false
  | None => false
  end.

(** The callback of the [filter] of [displaySystemSummary], which reads
    the clock itself: [age < 60 && h.isHealthy]. *)
Definition counted_healthy (h : jsobj) : M State bool :=
  d <- new_Date ;;
  ret (match age_of d h with
       | Some age =>
           if negb (Qle_bool 60 age) then truthy (obj_get "isHealthy" h)
           else false
       | None => false
       end).



End Methods.

End Monitor.

(** ** The dashboard server ([DashboardServer]) *)

Module Dashboard.

Inductive ready_state : Type := CONNECTING | OPEN | CLOSING | CLOSED.

Definition is_open (r : ready_state) : bool :=
  match r with
  | OPEN => true
  | _ => false
  end.

(** A WebSocket of the [ws] library, seen from the server: its state,
    the messages [send] has accepted, and how many more calls of [send]
    return before one throws ([None]: none throws). *)
Record Socket : Type := {
  readyState : ready_state;
  sends_left : option nat;
  received : list string
}.

(** [send] would throw / would accept a message, for a socket that
    [broadcast] finds [OPEN]. *)
Definition exhausted (k : Socket) : bool :=
  match sends_left k with
  | Some 0%nat => true
  | _ => false
  end.
Definition fails (k : Socket) : bool :=
  is_open (readyState k) && exhausted k.
Definition delivers (k : Socket) : bool :=
  is_open (readyState k) && negb (exhausted k).

(** How a cached record shows in an outbound event. *)
Class Payload (H O : Type) : Type := {
  health_js : H -> jsval;
  marketA_js : O -> jsval;
  marketB_js : O -> jsval
}.

#[global] Instance jsobj_payload : Payload jsobj jsobj := {
  health_js := VObj;
  marketA_js := obj_get "marketA";
  marketB_js := obj_get "marketB"
}.

(** The server object, with the sockets it refers to.  [H] and [O] are
    the types of the cached health and order-book records: [jsobj] for
    records built from bus messages, the typed records of [Demo] for the
    seeded ones. *)
Record World (H O : Type) : Type := {
  (** [this.clients], a [Set] of sockets, in insertion order *)
  clients : list nat;
  sockets : nat -> Socket;
  healthData : list (string * H);
  orderbooksByNode : books O;
  totalMarkets : jsval;
  (** the wall clock, as last read *)
  now : Z;
  (** how many times [Math.random] was called *)
  draws : nat
}.
Arguments clients {H O} w.
Arguments sockets {H O} w.
Arguments healthData {H O} w.
Arguments orderbooksByNode {H O} w.
Arguments totalMarkets {H O} w.
Arguments now {H O} w.
Arguments draws {H O} w.

Section Generic.
Context {H O : Type}.
Local Abbreviation World := (World H O).

Definition with_clients (c : list nat) (w : World) : World :=
  {| clients := c; sockets := sockets w; healthData := healthData w;
     orderbooksByNode := orderbooksByNode w;
     totalMarkets := totalMarkets w; now := now w; draws := draws w |}.
Definition with_sockets (k : nat -> Socket) (w : World) : World :=
  {| clients := clients w; sockets := k; healthData := healthData w;
     orderbooksByNode := orderbooksByNode w;
     totalMarkets := totalMarkets w; now := now w; draws := draws w |}.
Definition with_healthData (h : list (string * H)) (w : World) : World :=
  {| clients := clients w; sockets := sockets w; healthData := h;
     orderbooksByNode := orderbooksByNode w;
     totalMarkets := totalMarkets w; now := now w; draws := draws w |}.
Definition with_orderbooksByNode (b : books O) (w : World) : World :=
  {| clients := clients w; sockets := sockets w; healthData := healthData w;
     orderbooksByNode := b;
     totalMarkets := totalMarkets w; now := now w; draws := draws w |}.
Definition with_totalMarkets (v : jsval) (w : World) : World :=
  {| clients := clients w; sockets := sockets w; healthData := healthData w;
     orderbooksByNode := orderbooksByNode w;
     totalMarkets := v; now := now w; draws := draws w |}.
Definition with_now (t : Z) (w : World) : World :=
  {| clients := clients w; sockets := sockets w; healthData := healthData w;
     orderbooksByNode := orderbooksByNode w;
     totalMarkets := totalMarkets w; now := t; draws := draws w |}.
Definition with_draws (n : nat) (w : World) : World :=
  {| clients := clients w; sockets := sockets w; healthData := healthData w;
     orderbooksByNode := orderbooksByNode w;
     totalMarkets := totalMarkets w; now := now w; draws := n |}.

(** The constructor: no client, empty caches, [totalMarkets = 0]. *)
Definition init (socks : nat -> Socket) (t0 : Z) : World :=
  {| clients := []; sockets := socks; healthData := [];
     orderbooksByNode := []; totalMarkets := VNum 0; now := t0;
     draws := 0 |}.

Context `{Runtime} `{Payload H O}.
Local Open Scope js_scope.

Definition new_Date : M World Z :=
  fun w => let t := elapse (now w) in (Ret t, with_now t w, []).

Definition random : M World Q :=
  fun w => (Ret (Math_random (draws w)), with_draws (S (draws w)) w, []).

(** The outbound event kinds. *)
Definition health_update (nodeId : string) (health : jsval) (t : Z) : jsval :=
  VObj [("type", VStr "health_update"); ("nodeId", VStr nodeId);
        ("health", health); ("timestamp", VStr (toISOString t))].
Definition orderbook_update (eventId nodeId marketA marketB : jsval) (t : Z)
  : jsval :=
  VObj [("type", VStr "orderbook_update"); ("eventId", eventId);
        ("nodeId", nodeId); ("marketA", marketA); ("marketB", marketB);
        ("timestamp", VStr (toISOString t))].
Definition market_removed (eventId : string) (status : jsval) (t : Z)
  : jsval :=
  VObj [("type", VStr "market_removed"); ("eventId", VStr eventId);
        ("status", status); ("timestamp", VStr (toISOString t))].
Definition market_discovery (total : jsval) (t : Z) : jsval :=
  VObj [("type", VStr "market_discovery"); ("totalMarkets", total);
        ("timestamp", VStr (toISOString t))].

Definition accept (message : string) (k : Socket) : Socket :=
  {| readyState := readyState k;
     sends_left := option_map Nat.pred (sends_left k);
     received := received k ++ [message] |}.

(** [client.send(message)]. *)
Definition send (client : nat) (message : string) : M World unit :=
  fun w =>
    match sends_left (sockets w client) with
    | Some 0%nat => (Throw SendError, w, [])
    | _ =>
        (Ret tt,
         with_sockets
           (fun c => if Nat.eqb c client then accept message (sockets w c)
                     else sockets w c) w,
         [])
    end.

(** The body of the [forEach] of [broadcast]. *)
Definition deliver_to (message : string) (client : nat) : M World unit :=
  w <- get_state ;;
  if is_open (readyState (sockets w client)) then
    try_catch (send client message)
      (fun e =>
         console_error "Error sending message to client" e ;;
         modify (fun w => with_clients (remove Nat.eq_dec client (clients w)) w))
  else ret tt.

Definition broadcast (data : jsval) : M World unit :=
  emit (Fanout data) ;;
  let message := JSON_stringify data in
  w <- get_state ;;
  for_each (clients w) (deliver_to message).

Definition sendCachedDataToClient (client : nat) : M World unit :=
  try_catch
    (w <- get_state ;;
     for_each (healthData w) (fun '(nodeId, healthData) =>
       d <- new_Date ;;
       send client
         (JSON_stringify (health_update nodeId (health_js healthData) d))) ;;
     for_each (orderbooksByNode w) (fun '(nodeId, nodeOrderbooks) =>
       for_each nodeOrderbooks (fun '(eventId, orderbookData) =>
         d <- new_Date ;;
         send client
           (JSON_stringify
              (orderbook_update eventId nodeId (marketA_js orderbookData)
                 (marketB_js orderbookData) d)))) ;;
     known <- lift (js_gt0 (totalMarkets w)) ;;
     (if known then
        d <- new_Date ;;
        send client (JSON_stringify (market_discovery (totalMarkets w) d))
      else ret tt) ;;
     console_log "Sent cached data to new client" [])
    (fun e => console_error "Error sending cached data to client" e).

(** The callback of [wss.on('connection')] and the two callbacks it
    registers on the socket. *)
Definition on_connection (ws : nat) : M World unit :=
  console_log "New client connected" [] ;;
  modify (fun w =>
    with_clients
      (if in_dec Nat.eq_dec ws (clients w) then clients w
       else clients w ++ [ws]) w) ;;
  sendCachedDataToClient ws.

Definition on_close (ws : nat) : M World unit :=
  console_log "Client disconnected" [] ;;
  modify (fun w => with_clients (remove Nat.eq_dec ws (clients w)) w).

Definition on_error (ws : nat) (error : exn) : M World unit :=
  console_error "WebSocket error" error ;;
  modify (fun w => with_clients (remove Nat.eq_dec ws (clients w)) w).
End Generic.

Section Live.
Context `{Runtime}.
Local Open Scope js_scope.
Local Abbreviation World := (World jsobj jsobj).

Definition handleHealthUpdate (nodeId message : string) : M World unit :=
  try_catch
    (healthData <- parse message ;;
     d <- new_Date ;;
     modify (fun w =>
       with_healthData
         (JsMap.set String.eqb nodeId
            (obj_set "lastUpdate" (VDate d) (spread healthData))
            (Dashboard.healthData w)) w) ;;
     d' <- new_Date ;;
     broadcast (health_update nodeId healthData d'))
    (fun e =>
       console_error ("Error processing health update from " ++ nodeId) e).

Definition handleOrderbookUpdate (message : string) : M World unit :=
  try_catch
    (data <- parse message ;;
     type <- lift (get_prop data "type") ;;
     if negb (strict_eq_str type "orderbook_update") then ret tt
     else
       eventId <- lift (get_prop data "eventId") ;;
       nodeId <- lift (get_prop data "nodeId") ;;
       d <- new_Date ;;
       modify (fun w =>
         with_orderbooksByNode
           (cache_orderbook nodeId eventId
              (obj_set "lastUpdate" (VDate d) (spread data))
              (orderbooksByNode w)) w) ;;
       marketA <- lift (get_prop data "marketA") ;;
       marketB <- lift (get_prop data "marketB") ;;
       d' <- new_Date ;;
       broadcast (orderbook_update eventId nodeId marketA marketB d'))
    (fun e => console_error "Error processing orderbook update" e).

Definition handleMarketStatusUpdate (eventId message : string)
  : M World unit :=
  try_catch
    (statusData <- parse message ;;
     status <- lift (get_prop statusData "status") ;;
     if is_terminal status then
       console_log "Removing market" [VStr eventId; status] ;;
       w <- get_state ;;
       let '(nodes, lines, thrown) :=
         remove_from_all eventId (orderbooksByNode w) in
       modify (with_orderbooksByNode nodes) ;;
       for_each lines emit ;;
       raise_if thrown ;;
       d <- new_Date ;;
       broadcast (market_removed eventId status d)
     else ret tt)
    (fun e =>
       console_error ("Error processing market status for " ++ eventId) e).

Definition handleMarketDiscovery (message : string) : M World unit :=
  try_catch
    (discoveryData <- parse message ;;
     total <- lift (get_prop discoveryData "totalMarkets") ;;
     modify (with_totalMarkets total) ;;
     d <- new_Date ;;
     broadcast (market_discovery total d))
    (fun e => console_error "Error processing market discovery" e).

(** The subscriptions of [setupRedisSubscriptions]. *)
Definition on_message (channel message : string) : M World unit :=
  match topic_of channel with
  | HealthTopic nodeId => handleHealthUpdate nodeId message
  | OrderbookTopic => handleOrderbookUpdate message
  | StatusTopic eventId => handleMarketStatusUpdate eventId message
  | DiscoveryTopic => handleMarketDiscovery message
  | Unrecognized => ret tt
  end.

(** A message that arrives when the clock shows [t]. *)
Definition deliver (t : Z) (channel message : string) (w : World) : World :=
  state_of (on_message channel message (with_now (Z.max (now w) t) w)).

Fixpoint run (events : list (Z * string * string)) (w : World) : World :=
  match events with
  | [] => w
  | (t, channel, message) :: rest => run rest (deliver t channel message w)
  end.
End Live.

End Dashboard.


(** ** Demo mode of the dashboard server *)

Module Demo.
Import Dashboard.

(** The records seeded by [startDemoMode]. *)
Record Health : Type := {
  cpuUsage : Q;
  memoryUsage : Q;
  activeMarkets : Z;
  cpuCores : Z;
  loadAverage : Q;
  freeDiskSpaceMB : Z;
  isHealthy : bool;
  lastUpdate : Z
}.

Record Level : Type := { price : Z; quantity : Z; count : Z }.

Record Side : Type := {
  marketId : string;
  bids : list Level;
  asks : list Level;
  bestBid : Z;
  bestAsk : Z;
  totalOrders : Z
}.

Record Orderbook : Type := {
  eventId : string;
  nodeId : string;
  marketA : Side;
  marketB : Side;
  ob_lastUpdate : Z
}.

Definition num (z : Z) : jsval := VNum (inject_Z z).

Definition Health_js (h : Health) : jsval :=
  VObj [("cpuUsage", VNum (cpuUsage h)); ("memoryUsage", VNum (memoryUsage h));
        ("activeMarkets", num (activeMarkets h));
        ("cpuCores", num (cpuCores h));
        ("loadAverage", VNum (loadAverage h));
        ("freeDiskSpaceMB", num (freeDiskSpaceMB h));
        ("isHealthy", VBool (isHealthy h));
        ("lastUpdate", VDate (lastUpdate h))].

Definition Level_js (l : Level) : jsval :=
  VObj [("price", num (price l)); ("quantity", num (quantity l));
        ("count", num (count l))].

Definition Side_js (s : Side) : jsval :=
  VObj [("marketId", VStr (marketId s));
        ("bids", VArr (map Level_js (bids s)));
        ("asks", VArr (map Level_js (asks s)));
        ("bestBid", num (bestBid s)); ("bestAsk", num (bestAsk s));
        ("totalOrders", num (totalOrders s))].

#[global] Instance demo_payload : Payload Health Orderbook := {
  health_js := Health_js;
  marketA_js := fun o => Side_js (marketA o);
  marketB_js := fun o => Side_js (marketB o)
}.

Definition sampleOrderbook (t : Z) : Orderbook :=
  {| eventId := "DEMO_EVENT_001"; nodeId := "100.70.127.124";
     marketA :=
       {| marketId := "YES";
          bids := [ {| price := 45; quantity := 1000; count := 3 |};
                    {| price := 44; quantity := 1500; count := 5 |};
                    {| price := 43; quantity := 800; count := 2 |} ];
          asks := [ {| price := 47; quantity := 800; count := 2 |};
                    {| price := 48; quantity := 1200; count := 4 |};
                    {| price := 49; quantity := 600; count := 1 |} ];
          bestBid := 45; bestAsk := 47; totalOrders := 14 |};
     marketB :=
       {| marketId := "NO";
          bids := [ {| price := 52; quantity := 900; count := 2 |};
                    {| price := 51; quantity := 1100; count := 3 |};
                    {| price := 50; quantity := 700; count := 2 |} ];
          asks := [ {| price := 54; quantity := 700; count := 2 |};
                    {| price := 55; quantity := 1000; count := 3 |};
                    {| price := 56; quantity := 500; count := 1 |} ];
          bestBid := 52; bestAsk := 54; totalOrders := 10 |};
     ob_lastUpdate := t |}.

Definition sampleOrderbook2 (t : Z) : Orderbook :=
  {| eventId := "DEMO_EVENT_002"; nodeId := "100.70.127.125";
     marketA :=
       {| marketId := "YES";
          bids := [ {| price := 62; quantity := 750; count := 2 |};
                    {| price := 61; quantity := 900; count := 4 |} ];
          asks := [ {| price := 64; quantity := 650; count := 3 |};
                    {| price := 65; quantity := 800; count := 2 |} ];
          bestBid := 62; bestAsk := 64; totalOrders := 11 |};
     marketB :=
       {| marketId := "NO";
          bids := [ {| price := 35; quantity := 1200; count := 3 |};
                    {| price := 34; quantity := 800; count := 2 |} ];
          asks := [ {| price := 37; quantity := 900; count := 2 |};
                    {| price := 38; quantity := 1100; count := 4 |} ];
          bestBid := 35; bestAsk := 37; totalOrders := 11 |};
     ob_lastUpdate := t |}.

(** [Math.max(0, Math.min(100, x))]. *)
Definition clamp_percent (x : Q) : Q := Qmax 0 (Qmin 100 x).

(** [a < b] on numbers. *)
Definition Qltb (a b : Q) : bool := negb (Qle_bool b a).

(** [Math.random() > 0.5 ? 1 : -1]. *)
Definition unit_step (r : Q) : Z := if Qltb 0.5 r then 1 else -1.

Definition reprice (p : Z) (l : Level) : Level :=
  {| price := p; quantity := quantity l; count := count l |}.

Section Methods.
Context `{Runtime}.
Local Open Scope js_scope.
Local Abbreviation World := (World Health Orderbook).

Fixpoint map_m {A B : Type} (f : A -> M World B) (xs : list A)
  : M World (list B) :=
  match xs with
  | [] => ret []
  | x :: rest => y <- f x ;; ys <- map_m f rest ;; ret (y :: ys)
  end.

Definition startDemoMode : M World unit :=
  console_log "Starting demo mode with simulated data..." [] ;;
  d1 <- new_Date ;;
  modify (fun w => with_healthData
    (JsMap.set String.eqb "100.70.127.124"
       {| cpuUsage := 45.2; memoryUsage := 67.8; activeMarkets := 12;
          cpuCores := 8; loadAverage := 2.34; freeDiskSpaceMB := 45000;
          isHealthy := true; lastUpdate := d1 |} (healthData w)) w) ;;
  d2 <- new_Date ;;
  modify (fun w => with_healthData
    (JsMap.set String.eqb "100.70.127.125"
       {| cpuUsage := 32.1; memoryUsage := 54.3; activeMarkets := 8;
          cpuCores := 4; loadAverage := 1.87; freeDiskSpaceMB := 32000;
          isHealthy := true; lastUpdate := d2 |} (healthData w)) w) ;;
  d3 <- new_Date ;;
  modify (fun w => with_healthData
    (JsMap.set String.eqb "192.168.1.100"
       {| cpuUsage := 28.5; memoryUsage := 42.1; activeMarkets := 6;
          cpuCores := 4; loadAverage := 1.22; freeDiskSpaceMB := 28000;
          isHealthy := true; lastUpdate := d3 |} (healthData w)) w) ;;
  d4 <- new_Date ;;
  d5 <- new_Date ;;
  modify (fun w => with_orderbooksByNode
    (JsMap.set same_value_zero (VStr "100.70.127.124")
       [(VStr "DEMO_EVENT_001", sampleOrderbook d4)]
       (orderbooksByNode w)) w) ;;
  modify (fun w => with_orderbooksByNode
    (JsMap.set same_value_zero (VStr "100.70.127.125")
       [(VStr "DEMO_EVENT_002", sampleOrderbook2 d5)]
       (orderbooksByNode w)) w) ;;
  modify (with_totalMarkets (VNum 25)) ;;
  console_log "Demo mode ready with sample data" [].

(** One turn of the loop over [this.healthData] in [updateDemoData]. *)
Definition perturb_health (entry : string * Health) : M World (string * Health) :=
  let (nodeId, health) := entry in
  r <- random ;;
  let cpu := clamp_percent (cpuUsage health + (r - 0.5) * 10) in
  r' <- random ;;
  let memory := clamp_percent (memoryUsage health + (r' - 0.5) * 5) in
  d <- new_Date ;;
  let health' :=
    {| cpuUsage := cpu; memoryUsage := memory;
       activeMarkets := activeMarkets health; cpuCores := cpuCores health;
       loadAverage := loadAverage health;
       freeDiskSpaceMB := freeDiskSpaceMB health;
       isHealthy := isHealthy health; lastUpdate := d |} in
  d' <- new_Date ;;
  broadcast (health_update nodeId (health_js health') d') ;;
  ret (nodeId, health').

(** The two [if] statements on [orderbook.marketA]. *)
Definition perturb_bids (a : Side) : M World Side :=
  match bids a with
  | top :: rest =>
      r <- random ;;
      let p := price top + unit_step r in
      ret {| marketId := marketId a; bids := reprice p top :: rest;
             asks := asks a; bestBid := p; bestAsk := bestAsk a;
             totalOrders := totalOrders a |}
  | [] => ret a
  end.

Definition perturb_asks (a : Side) : M World Side :=
  match asks a with
  | top :: rest =>
      r <- random ;;
      let p := price top + unit_step r in
      ret {| marketId := marketId a; bids := bids a;
             asks := reprice p top :: rest; bestBid := bestBid a;
             bestAsk := p; totalOrders := totalOrders a |}
  | [] => ret a
  end.

(** One turn of the inner loop over a node's order books. *)
Definition perturb_orderbook (nodeId : jsval) (entry : jsval * Orderbook)
  : M World (jsval * Orderbook) :=
  let (eventId, orderbook) := entry in
  a <- perturb_bids (marketA orderbook) ;;
  a' <- perturb_asks a ;;
  d <- new_Date ;;
  let orderbook' :=
    {| Demo.eventId := Demo.eventId orderbook;
       Demo.nodeId := Demo.nodeId orderbook;
       marketA := a'; marketB := marketB orderbook; ob_lastUpdate := d |} in
  d' <- new_Date ;;
  broadcast (orderbook_update eventId nodeId (marketA_js orderbook')
               (marketB_js orderbook') d') ;;
  ret (eventId, orderbook').

Definition perturb_node (entry : jsval * list (jsval * Orderbook))
  : M World (jsval * list (jsval * Orderbook)) :=
  let (nodeId, nodeOrderbooks) := entry in
  nodeOrderbooks' <- map_m (perturb_orderbook nodeId) nodeOrderbooks ;;
  ret (nodeId, nodeOrderbooks').

(** The timer callback.  The records are mutated in place by the source;
    here each map is written back when its loop is over, which no
    statement of the loop reads. *)
Definition updateDemoData : M World unit :=
  w <- get_state ;;
  healthData' <- map_m perturb_health (healthData w) ;;
  modify (with_healthData healthData') ;;
  r <- random ;;
  if Qltb r 0.3 then
    w <- get_state ;;
    nodes <- map_m perturb_node (orderbooksByNode w) ;;
    modify (with_orderbooksByNode nodes)
  else ret tt.

End Methods.

End Demo.

(** ** A reference runtime

    A small runtime on which the model can be run: a parser for the JSON
    subset without escapes and exponents, a printer, a clock that ticks
    once per reading and a fixed cycle of random draws.  The theorems
    below hold for every runtime. *)

Module Sample.

Definition is_space (c : ascii) : bool :=
  (Ascii.eqb c " " || Ascii.eqb c (ascii_of_nat 10)
   || Ascii.eqb c (ascii_of_nat 13) || Ascii.eqb c (ascii_of_nat 9))%bool.

Definition digit_of (c : ascii) : option Z :=
  let n := Z.of_nat (nat_of_ascii c) in
  if (48 <=? n) && (n <=? 57) then Some (n - 48) else None.

Definition quote : ascii := ascii_of_nat 34.

Fixpoint skip_space (s : string) : string :=
  match s with
  | String c rest => if is_space c then skip_space rest else s
  | EmptyString => s
  end.

(** The characters up to the closing quote, and what follows it. *)
Fixpoint read_string (s : string) : option (string * string) :=
  match s with
  | EmptyString => None
  | String c rest =>
      if Ascii.eqb c quote then Some (EmptyString, rest)
      else match read_string rest with
           | Some (body, rest') => Some (String c body, rest')
           | None => None
           end
  end.

(** Digits read so far as [acc], their number as [n]. *)
Fixpoint read_digits (acc : Z) (n : nat) (s : string) : Z * nat * string :=
  match s with
  | String c rest =>
      match digit_of c with
      | Some d => read_digits (10 * acc + d) (S n) rest
      | None => (acc, n, s)
      end
  | EmptyString => (acc, n, s)
  end.

Definition read_number (s : string) : option (Q * string) :=
  let (neg, s1) :=
    match s with
    | String "-" rest => (true, rest)
    | _ => (false, s)
    end in
  match read_digits 0 0 s1 with
  | (_, O, _) => None
  | (int, _, String "." rest) =>
      match read_digits int 0 rest with
      | (_, O, _) => None
      | (all, k, rest') =>
          let q := (all # Pos.of_nat (10 ^ k))%Q in
          Some (if neg then Qopp q else q, rest')
      end
  | (int, _, rest) =>
      let q := inject_Z int in Some (if neg then Qopp q else q, rest)
  end.

(** A member in front of the members that follow it; of two members
    with one name the later one stays. *)
Definition add_member (name : string) (v : jsval) (ms : jsobj) : jsobj :=
  if existsb (fun p => String.eqb name (fst p)) ms then ms
  else (name, v) :: ms.

Definition strip (lit : string) (s : string) : option string :=
  if String.prefix lit s
  then Some (String.substring (String.length lit)
               (String.length s - String.length lit) s)
  else None.

Fixpoint read_value (fuel : nat) (s : string) : option (jsval * string) :=
  match fuel with
  | O => None
  | S fuel' =>
      let fix read_items (n : nat) (s : string) {struct n}
        : option (list jsval * string) :=
        match n with
        | O => None
        | S n' =>
            match read_value fuel' s with
            | Some (v, rest) =>
                match skip_space rest with
                | String "," rest' =>
                    match read_items n' rest' with
                    | Some (vs, rest'') => Some (v :: vs, rest'')
                    | None => None
                    end
                | String "]" rest' => Some ([v], rest')
                | _ => None
                end
            | None => None
            end
        end in
      let fix read_members (n : nat) (s : string) {struct n}
        : option (list (string * jsval) * string) :=
        match n with
        | O => None
        | S n' =>
            match skip_space s with
            | String c rest =>
                if Ascii.eqb c quote then
                  match read_string rest with
                  | Some (name, rest1) =>
                      match skip_space rest1 with
                      | String ":" rest2 =>
                          match read_value fuel' rest2 with
                          | Some (v, rest3) =>
                              match skip_space rest3 with
                              | String "," rest4 =>
                                  match read_members n' rest4 with
                                  | Some (ms, rest5) =>
                                      Some (add_member name v ms, rest5)
                                  | None => None
                                  end
                              | String "}" rest4 => Some ([(name, v)], rest4)
                              | _ => None
                              end
                          | None => None
                          end
                      | _ => None
                      end
                  | None => None
                  end
                else None
            | EmptyString => None
            end
        end in
      match skip_space s with
      | String "{" rest =>
          match skip_space rest with
          | String "}" rest' => Some (VObj [], rest')
          | _ =>
              match read_members (String.length rest) rest with
              | Some (ms, rest') => Some (VObj ms, rest')
              | None => None
              end
          end
      | String "[" rest =>
          match skip_space rest with
          | String "]" rest' => Some (VArr [], rest')
          | _ =>
              match read_items (String.length rest) rest with
              | Some (vs, rest') => Some (VArr vs, rest')
              | None => None
              end
          end
      | String c rest as s' =>
          if Ascii.eqb c quote then
            match read_string rest with
            | Some (body, rest') => Some (VStr body, rest')
            | None => None
            end
          else
            match strip "true" s', strip "false" s', strip "null" s' with
            | Some rest', _, _ => Some (VBool true, rest')
            | _, Some rest', _ => Some (VBool false, rest')
            | _, _, Some rest' => Some (VNull, rest')
            | _, _, _ =>
                match read_number s' with
                | Some (q, rest') => Some (VNum q, rest')
                | None => None
                end
            end
      | EmptyString => None
      end
  end.

Definition parse_json (s : string) : option jsval :=
  match read_value (S (String.length s)) s with
  | Some (v, rest) =>
      match skip_space rest with
      | EmptyString => Some v
      | _ => None
      end
  | None => None
  end.

Definition show_Z (z : Z) : string := NilEmpty.string_of_int (Z.to_int z).

Definition show_Q (q : Q) : string :=
  let r := Qred q in
  match Qden r with
  | 1%positive => show_Z (Qnum r)
  | d => (show_Z (Qnum r) ++ "/" ++ show_Z (Zpos d))%string
  end.

Definition quoted (s : string) : string :=
  String quote (s ++ String quote EmptyString)%string.

Fixpoint join (sep : string) (parts : list string) : string :=
  match parts with
  | [] => EmptyString
  | [p] => p
  | p :: rest => (p ++ sep ++ join sep rest)%string
  end.

Fixpoint show (v : jsval) : string :=
  match v with
  | VUndefined | VNull => "null"
  | VBool true => "true"
  | VBool false => "false"
  | VNum q => show_Q q
  | VStr s => quoted s
  | VDate t => quoted (show_Z t)
  | VArr items => ("[" ++ join "," (map show items) ++ "]")%string
  | VObj props =>
      ("{" ++ join ","
                (map (fun p => quoted (fst p) ++ ":" ++ show (snd p)) props)
           ++ "}")%string
  end.

(** The draws cycle through 0.25, 0.75. *)
Definition draw (n : nat) : Q := if Nat.even n then 0.25%Q else 0.75%Q.

#[export] Instance runtime : Runtime := {
  JSON_parse := parse_json;
  JSON_stringify := show;
  toISOString := show_Z;
  StringToNumber := fun s =>
    match read_number s with
    | Some (q, EmptyString) => Some q
    | _ => None
    end;
  ObjectToNumber := fun _ => None;
  elapse := Z.succ;
  elapse_mono := Z.le_succ_diag_r;
  Math_random := draw;
  Math_random_range := fun n =>
    ltac:(unfold draw; destruct (Nat.even n); split;
          reflexivity || discriminate)
}.

(** A message written with apostrophes for the JSON quotes. *)
Fixpoint js (s : string) : string :=
  match s with
  | EmptyString => EmptyString
  | String c rest => String (if Ascii.eqb c "'" then quote else c) (js rest)
  end.

(** Sockets and servers to run the model on. *)
Definition socket (state : Dashboard.ready_state) (left : option nat)
  : Dashboard.Socket :=
  {| Dashboard.readyState := state; Dashboard.sends_left := left;
     Dashboard.received := [] |}.

Definition all_open (c : nat) : Dashboard.Socket := socket Dashboard.OPEN None.

Definition server : Dashboard.World jsobj jsobj := Dashboard.init all_open 0.

(** Three attached clients: the first one OPEN with a [send] that throws,
    the second one CLOSING, the third one OPEN and working. *)
Definition crowd_sockets (c : nat) : Dashboard.Socket :=
  match c with
  | 1%nat => socket Dashboard.OPEN (Some 0%nat)
  | 2%nat => socket Dashboard.CLOSING None
  | _ => socket Dashboard.OPEN None
  end.

Definition crowd : Dashboard.World jsobj jsobj :=
  Dashboard.with_clients [1%nat; 2%nat; 3%nat] (Dashboard.init crowd_sockets 0).

(** Socket 7 lets one [send] return and makes the next one throw. *)
Definition flaky_sockets (c : nat) : Dashboard.Socket :=
  match c with
  | 7%nat => socket Dashboard.OPEN (Some 1%nat)
  | _ => socket Dashboard.OPEN None
  end.

Definition health_message : string := js "{'cpuUsage':50,'isHealthy':true}".
Definition orderbook_message : string :=
  js "{'type':'orderbook_update','eventId':'E1','nodeId':'10.0.0.1','marketA':{'marketId':'YES'},'marketB':{'marketId':'NO'}}".
Definition status_message (status : string) : string :=
  js ("{'status':'" ++ status ++ "'}").

(** A server that has cached one health record and one order book. *)
Definition cached : Dashboard.World jsobj jsobj :=
  Dashboard.run [(1, "metrics:10.0.0.1", health_message);
                 (2, "orderbooks", orderbook_message)]
    (Dashboard.init flaky_sockets 0).

(** What [orderbook_message] and [health_message] parse to. *)
Definition orderbook_props : jsobj :=
  [("type", VStr "orderbook_update"); ("eventId", VStr "E1");
   ("nodeId", VStr "10.0.0.1");
   ("marketA", VObj [("marketId", VStr "YES")]);
   ("marketB", VObj [("marketId", VStr "NO")])].
Definition health_props : jsobj :=
  [("cpuUsage", VNum 50); ("isHealthy", VBool true)].

(** A discovery message that reports no market at all. *)
Definition zero_total_message : string := js "{'totalMarkets':0}".

(** A server that has cached one health record and was told that the
    total is 0. *)
Definition told_zero : Dashboard.World jsobj jsobj :=
  Dashboard.run [(1, "metrics:10.0.0.1", health_message);
                 (2, "market_discovery", zero_total_message)]
    (Dashboard.init all_open 0).

(** A discovery message whose total is an object with a property named
    [toString], and a server that has cached one health record and that
    total. *)
Definition odd_total_message : string :=
  js "{'totalMarkets':{'toString':1}}".
Definition told_odd : Dashboard.World jsobj jsobj :=
  Dashboard.run [(1, "metrics:10.0.0.1", health_message);
                 (2, "market_discovery", odd_total_message)]
    (Dashboard.init all_open 0).

(** An order-book message whose node id is an object with a property
    named [toString], and one of a second node for the same market. *)
Definition odd_node_message : string :=
  js "{'type':'orderbook_update','eventId':'E1','nodeId':{'toString':1}}".
Definition second_node_message : string :=
  js "{'type':'orderbook_update','eventId':'E1','nodeId':'n2'}".
Definition odd_store : Dashboard.World jsobj jsobj :=
  Dashboard.run [(1, "orderbooks", odd_node_message);
                 (2, "orderbooks", second_node_message)]
    (Dashboard.init all_open 0).

End Sample.

(** * Vocabulary of the properties *)

(** Whether a parsed status payload asks for an eviction. *)
Definition terminal_payload (v : jsval) : bool :=
  match get_prop v "status" with
  | inr status => is_terminal status
  | inl _ => false
  end.

(** A way to read, from the state of the dashboard server alone, the
    status last reported for each market. *)
Definition recalls_status `{Runtime}
    (lookup : Dashboard.World jsobj jsobj -> string -> option jsval) : Prop :=
  forall (eventId message : string) (v status : jsval)
         (w : Dashboard.World jsobj jsobj),
    JSON_parse message = Some v ->
    get_prop v "status" = inr status ->
    lookup (state_of (Dashboard.handleMarketStatusUpdate eventId message w))
      eventId = Some status.

Section ReconcilerVocabulary.
Context {O : Type}.

(** Every sub-map after [m.delete(eventId)]. *)
Definition evicted (eventId : string) (nodes : books O) : books O :=
  map (fun entry =>
         (fst entry, JsMap.delete same_value_zero (VStr eventId) (snd entry)))
    nodes.

(** No node holds the market. *)
Definition held_by_none (eventId : string) (nodes : books O) : Prop :=
  forall nodeId sub,
    In (nodeId, sub) nodes ->
    JsMap.has same_value_zero (VStr eventId) sub = false.

(** The sub-maps when the eviction loop ends, whether or not it was cut
    short. *)
Definition after_removal (eventId : string) (nodes : books O) : books O :=
  fst (fst (remove_from_all eventId nodes)).

(** Every node that holds the market has a key that converts to a
    string, as every string, number and boolean does. *)
Definition printable_holders (eventId : string) (nodes : books O) : Prop :=
  forall nodeId sub,
    In (nodeId, sub) nodes ->
    JsMap.has same_value_zero (VStr eventId) sub = true ->
    unconvertible nodeId = false.

(** A sub-map is as it was or has lost the market. *)
Definition thinned (eventId : string)
    (old new : jsval * list (jsval * O)) : Prop :=
  fst new = fst old /\
  (snd new = snd old \/
   snd new = JsMap.delete same_value_zero (VStr eventId) (snd old)).

Definition uniq_books (nodes : books O) : Prop :=
  JsMap.uniq same_value_zero nodes /\
  forall nodeId sub, In (nodeId, sub) nodes -> JsMap.uniq same_value_zero sub.

End ReconcilerVocabulary.

(** No two elements of a list are the same, for a given notion of same. *)
Fixpoint all_distinct {A : Type} (same : A -> A -> bool) (l : list A) : Prop :=
  match l with
  | [] => True
  | a :: rest => (forall b, In b rest -> same a b = false) /\
                 all_distinct same rest
  end.

(** What the snapshot store holds: a health record of a node, an order
    book of a node and a market, the total market count. *)
Inductive entity : Type :=
| HealthOf (nodeId : string) (health : jsval)
| BookOf (nodeId eventId marketA marketB : jsval)
| TotalsOf (total : jsval).

Definition same_entity (a b : entity) : bool :=
  match a, b with
  | HealthOf n _, HealthOf n' _ => String.eqb n n'
  | BookOf n e _ _, BookOf n' e' _ _ =>
      same_value_zero n n' && same_value_zero e e'
  | TotalsOf _, TotalsOf _ => true
  | _, _ => false
  end.

Section ReplayVocabulary.
Context {R : Runtime} {H O : Type} {P : Dashboard.Payload H O}.
Import Dashboard.

Definition node_entities (node : jsval * list (jsval * O)) : list entity :=
  map (fun e => BookOf (fst node) (fst e) (marketA_js (snd e))
                  (marketB_js (snd e)))
    (snd node).

(** The entities of the store in the order of the replay: the health
    records, the order books node by node, and the total when the test
    [totalMarkets > 0] of the replay returns [true]. *)
Definition snapshot (w : World H O) : list entity :=
  map (fun e => HealthOf (fst e) (health_js (snd e))) (healthData w)
  ++ flat_map node_entities (orderbooksByNode w)
  ++ (if positive (totalMarkets w) then [TotalsOf (totalMarkets w)] else []).

Definition entity_count (w : World H O) : nat :=
  (List.length (healthData w)
   + list_sum (map (fun node => List.length (snd node)) (orderbooksByNode w))
   + (if positive (totalMarkets w) then 1 else 0))%nat.

(** The event that carries an entity at clock reading [t]. *)
Definition event_of (x : entity) (t : Z) : jsval :=
  match x with
  | HealthOf n h => health_update n h t
  | BookOf n e a b => orderbook_update e n a b t
  | TotalsOf total => market_discovery total t
  end.

(** The events of a list of entities, each with the next clock reading. *)
Fixpoint stamped (t : Z) (xs : list entity) : list jsval :=
  match xs with
  | [] => []
  | x :: rest => event_of x (elapse t) :: stamped (elapse t) rest
  end.

(** The socket lets [n] more calls of [send] return. *)
Definition affords (n : nat) (k : Socket) : Prop :=
  match sends_left k with
  | None => True
  | Some m => (n <= m)%nat
  end.
End ReplayVocabulary.

Section FanoutVocabulary.
Context {R : Runtime} {H O : Type} {P : Dashboard.Payload H O}.
Import Dashboard.
Local Abbreviation World := (World H O).

(** The parts of the server that [broadcast] and the replay leave alone. *)
Definition same_cache (w w' : World) : Prop :=
  healthData w' = healthData w /\
  orderbooksByNode w' = orderbooksByNode w /\
  totalMarkets w' = totalMarkets w /\
  draws w' = draws w.

(** What the loop of [broadcast] over [todo] leaves behind. *)
Record delivered (message : string) (todo : list nat) (w : World)
    (r : outcome unit * World * list effect) : Prop := {
  dl_returns : result_of r = Ret tt;
  dl_clients : forall c,
    In c (clients (state_of r)) <->
    In c (clients w) /\ ~ (In c todo /\ fails (sockets w c) = true);
  dl_accepted : forall c,
    In c todo -> delivers (sockets w c) = true ->
    sockets (state_of r) c = accept message (sockets w c);
  dl_untouched : forall c,
    ~ (In c todo /\ delivers (sockets w c) = true) ->
    sockets (state_of r) c = sockets w c;
  dl_cache : same_cache w (state_of r);
  dl_now : now (state_of r) = now w;
  dl_quiet : fanouts (trace_of r) = [];
  dl_nodup : NoDup (clients w) -> NoDup (clients (state_of r))
}.

(** [broadcast] returns to its caller, records one fan-out event and
    treats each client by its own socket. *)
Record broadcasted (data : jsval) (w : World)
    (r : outcome unit * World * list effect) : Prop := {
  bc_returns : result_of r = Ret tt;
  bc_clients : forall c,
    In c (clients (state_of r)) <->
    In c (clients w) /\ fails (sockets w c) = false;
  bc_accepted : forall c,
    In c (clients w) -> delivers (sockets w c) = true ->
    sockets (state_of r) c = accept (JSON_stringify data) (sockets w c);
  bc_untouched : forall c,
    ~ (In c (clients w) /\ delivers (sockets w c) = true) ->
    sockets (state_of r) c = sockets w c;
  bc_cache : same_cache w (state_of r);
  bc_now : now (state_of r) = now w;
  bc_fanout : fanouts (trace_of r) = [data];
  bc_nodup : NoDup (clients w) -> NoDup (clients (state_of r))
}.

(** A method body that leaves [this.clients] as it is. *)
Definition keeps_clients {A : Type} (c : M World A) : Prop :=
  forall w, clients (state_of (c w)) = clients w.

(** A stretch of the replay to socket [ws]: it returned, left [trace],
    handed the events of [ents] to the socket and read the clock once
    per event. *)
Record replayed (ws : nat) (ents : list entity) (trace : list effect)
    (w : World) (r : outcome unit * World * list effect) : Prop := {
  rp_returns : result_of r = Ret tt;
  rp_trace : trace_of r = trace;
  rp_received :
    received (sockets (state_of r) ws) =
    received (sockets w ws) ++ map JSON_stringify (stamped (now w) ents);
  rp_now : now (state_of r) = Nat.iter (List.length ents) elapse (now w);
  rp_budget : forall m,
    affords (List.length ents + m) (sockets w ws) ->
    affords m (sockets (state_of r) ws);
  rp_others : forall c, c <> ws -> sockets (state_of r) c = sockets w c;
  rp_clients : clients (state_of r) = clients w;
  rp_cache : same_cache w (state_of r)
}.

End FanoutVocabulary.

(** A percentage. *)
Definition percent (x : Q) : Prop := (0 <= x /\ x <= 100)%Q.

(** One tick on a health record: [cpuUsage] moves by a step in [-5, 5),
    [memoryUsage] by a step in [-2.5, 2.5), both are clamped, and the
    other measurements stay. *)
Definition health_step (old new : Demo.Health) : Prop :=
  (exists d d' : Q,
     (-5 <= d /\ d < 5)%Q /\ (-(5 # 2) <= d' /\ d' < 5 # 2)%Q /\
     Demo.cpuUsage new = Demo.clamp_percent (Demo.cpuUsage old + d) /\
     Demo.memoryUsage new = Demo.clamp_percent (Demo.memoryUsage old + d')) /\
  percent (Demo.cpuUsage new) /\ percent (Demo.memoryUsage new) /\
  Demo.activeMarkets new = Demo.activeMarkets old /\
  Demo.cpuCores new = Demo.cpuCores old /\
  Demo.loadAverage new = Demo.loadAverage old /\
  Demo.freeDiskSpaceMB new = Demo.freeDiskSpaceMB old /\
  Demo.isHealthy new = Demo.isHealthy old.

(** One tick on the bids or on the asks of a market: the first level, if
    there is one, moves by one up or down and becomes the best price;
    the other levels stay. *)
Definition levels_step (old new : list Demo.Level) (best best' : Z) : Prop :=
  match old with
  | [] => new = [] /\ best' = best
  | top :: rest =>
      exists top',
        new = top' :: rest /\
        (Demo.price top' = Demo.price top + 1 \/
         Demo.price top' = Demo.price top - 1) /\
        Demo.quantity top' = Demo.quantity top /\
        Demo.count top' = Demo.count top /\
        best' = Demo.price top'
  end.

Definition book_step (old new : Demo.Orderbook) : Prop :=
  Demo.marketB new = Demo.marketB old /\
  Demo.eventId new = Demo.eventId old /\
  Demo.nodeId new = Demo.nodeId old /\
  Demo.marketId (Demo.marketA new) = Demo.marketId (Demo.marketA old) /\
  Demo.totalOrders (Demo.marketA new) = Demo.totalOrders (Demo.marketA old) /\
  levels_step (Demo.bids (Demo.marketA old)) (Demo.bids (Demo.marketA new))
    (Demo.bestBid (Demo.marketA old)) (Demo.bestBid (Demo.marketA new)) /\
  levels_step (Demo.asks (Demo.marketA old)) (Demo.asks (Demo.marketA new))
    (Demo.bestAsk (Demo.marketA old)) (Demo.bestAsk (Demo.marketA new)).

(** Two maps with the same keys in the same order and related values. *)
Definition entrywise {K A B : Type} (rel : A -> B -> Prop)
    (m : list (K * A)) (m' : list (K * B)) : Prop :=
  Forall2 (fun e e' => fst e' = fst e /\ rel (snd e) (snd e')) m m'.

(** The entries of two lists related in order, each pair at a draw of
    [Math.random]: the first pair at draw [k], the next one [cost x]
    draws later when [x] is the first entry, and so on. *)
Fixpoint threaded {A B : Type} (cost : A -> nat)
    (rel : nat -> A -> B -> Prop) (k : nat) (xs : list A) (ys : list B)
  : Prop :=
  match xs, ys with
  | [], [] => True
  | x :: xs', y :: ys' =>
      rel k x y /\ threaded cost rel (k + cost x)%nat xs' ys'
  | _, _ => False
  end.

(** The draws that one side of a market takes: one when it has a level. *)
Definition drawn (levels : list Demo.Level) : nat :=
  match levels with
  | [] => 0%nat
  | _ :: _ => 1%nat
  end.

(** The draws that one order book takes. *)
Definition book_draws (e : jsval * Demo.Orderbook) : nat :=
  (drawn (Demo.bids (Demo.marketA (snd e))) +
   drawn (Demo.asks (Demo.marketA (snd e))))%nat.

(** The draws that the order books of one node take. *)
Definition node_draws (n : jsval * list (jsval * Demo.Orderbook)) : nat :=
  list_sum (map book_draws (snd n)).

Section DemoVocabulary.
Context `{Runtime}.
Import Dashboard Demo.
Local Abbreviation World := (World Health Orderbook).

(** A loop body that returns a value related to its input by [rel] and
    does not write the two maps. *)
Definition yields {A B : Type} (rel : A -> B -> Prop) (f : A -> M World B)
  : Prop :=
  forall x w, exists y w' trace,
    f x w = (Ret y, w', trace) /\ rel x y /\
    healthData w' = healthData w /\ orderbooksByNode w' = orderbooksByNode w.

(** One tick on the health record of a node when the next draw of
    [Math.random] is the [k]-th: that draw makes the step of [cpuUsage]
    and the one after it the step of [memoryUsage]. *)
Definition health_tick (k : nat) (e e' : string * Health) : Prop :=
  fst e' = fst e /\
  cpuUsage (snd e') =
    clamp_percent (cpuUsage (snd e) + (Math_random k - 0.5) * 10) /\
  memoryUsage (snd e') =
    clamp_percent (memoryUsage (snd e) + (Math_random (S k) - 0.5) * 5) /\
  health_step (snd e) (snd e').

(** One tick on the bids or on the asks of a market when the next draw
    is the [k]-th: without a level nothing changes and nothing is drawn;
    otherwise the price of the first level moves up by one when the draw
    is above 0.5 and down by one when it is not, and becomes the best
    price. *)
Definition levels_tick (k : nat) (old new : list Level) (best best' : Z)
  : Prop :=
  match old with
  | [] => new = [] /\ best' = best
  | top :: rest =>
      let p := (price top + unit_step (Math_random k))%Z in
      new = reprice p top :: rest /\ best' = p
  end.

(** One tick on an order book: the bids of [marketA] first, then its
    asks at the draw that the bids leave. *)
Definition book_tick (k : nat) (e e' : jsval * Orderbook) : Prop :=
  fst e' = fst e /\
  levels_tick k
    (bids (marketA (snd e))) (bids (marketA (snd e')))
    (bestBid (marketA (snd e))) (bestBid (marketA (snd e'))) /\
  levels_tick (k + drawn (bids (marketA (snd e))))%nat
    (asks (marketA (snd e))) (asks (marketA (snd e')))
    (bestAsk (marketA (snd e))) (bestAsk (marketA (snd e'))) /\
  book_step (snd e) (snd e').

(** One tick on the order books of a node, in their order. *)
Definition node_tick (k : nat) (n n' : jsval * list (jsval * Orderbook))
  : Prop :=
  fst n' = fst n /\ threaded book_draws book_tick k (snd n) (snd n').

(** A loop body that returns a value related to its input by [rel] at
    the draw it starts with, takes [cost x] draws, calls [broadcast]
    [count x] times and does not write the two maps. *)
Definition steps {A B : Type} (cost count : A -> nat)
    (rel : nat -> A -> B -> Prop) (f : A -> M World B) : Prop :=
  forall x w, exists y w' trace,
    f x w = (Ret y, w', trace) /\ rel (draws w) x y /\
    draws w' = (draws w + cost x)%nat /\
    List.length (fanouts trace) = count x /\
    healthData w' = healthData w /\ orderbooksByNode w' = orderbooksByNode w.

End DemoVocabulary.

(** * Vocabulary of the further properties *)

(** [orderbooksByNode.get(nodeId)?.get(eventId)]. *)
Definition lookup_book {O : Type} (nodes : books O) (nodeId eventId : jsval)
  : option O :=
  match JsMap.get same_value_zero nodeId nodes with
  | Some sub => JsMap.get same_value_zero eventId sub
  | None => None
  end.

(** The number of order books over all nodes. *)
Definition book_count {O : Type} (nodes : books O) : nat :=
  list_sum (map (fun node => List.length (snd node)) nodes).

(** The number of nodes that hold a market. *)
Definition holders {O : Type} (eventId : string) (nodes : books O) : nat :=
  List.length
    (filter (fun node => JsMap.has same_value_zero (VStr eventId) (snd node))
       nodes).

(** The first segment of a text cut at its colons. *)
Definition first_segment (s : string) : string :=
  hd EmptyString (split_colon s).

Fixpoint has_colon (s : string) : bool :=
  match s with
  | EmptyString => false
  | String c rest => Ascii.eqb c ":"%char || has_colon rest
  end.

Section FurtherReplayVocabulary.
Context {R : Runtime} {H O : Type} {P : Dashboard.Payload H O}.
Import Dashboard.
Local Abbreviation World := (World H O).

(** How many of [n] calls of [send] in a row a socket lets return. *)
Definition quota (n : nat) (k : Socket) : nat :=
  match sends_left k with
  | None => n
  | Some m => Nat.min m n
  end.

(** A stretch of the replay of [ents] to socket [ws], whether or not a
    [send] of it throws: it hands over the events one by one up to the
    first [send] that throws; if none does it ends as [final] says and
    leaves [trace]. *)
Record attempted (ws : nat) (ents : list entity) (final : outcome unit)
    (trace : list effect) (w : World)
    (r : outcome unit * World * list effect) : Prop := {
  at_result :
    result_of r =
    if Nat.eqb (quota (List.length ents) (sockets w ws)) (List.length ents)
    then final else Throw SendError;
  at_trace :
    trace_of r =
    if Nat.eqb (quota (List.length ents) (sockets w ws)) (List.length ents)
    then trace else [];
  at_received :
    received (sockets (state_of r) ws) =
    received (sockets w ws) ++
    map JSON_stringify
      (firstn (quota (List.length ents) (sockets w ws))
         (stamped (now w) ents));
  at_left :
    sends_left (sockets (state_of r) ws) =
    option_map (fun m => m - quota (List.length ents) (sockets w ws))%nat
      (sends_left (sockets w ws));
  at_now :
    quota (List.length ents) (sockets w ws) = List.length ents ->
    now (state_of r) = Nat.iter (List.length ents) elapse (now w);
  at_others : forall c, c <> ws -> sockets (state_of r) c = sockets w c;
  at_clients : clients (state_of r) = clients w;
  at_cache : same_cache w (state_of r)
}.
(** How the replay ends when every [send] has returned: the test of the
    total may throw. *)
Definition replay_end (total : jsval) : outcome unit :=
  match js_gt0 total with
  | inl e => Throw e
  | inr _ => Ret tt
  end.
Definition replay_log (total : jsval) : list effect :=
  match js_gt0 total with
  | inl _ => []
  | inr _ => [ConsoleLog "Sent cached data to new client" []]
  end.
End FurtherReplayVocabulary.

(** The best prices of a market are the prices of its first levels. *)
Definition best_agrees (a : Demo.Side) : Prop :=
  match Demo.bids a with
  | top :: _ => Demo.bestBid a = Demo.price top
  | [] => True
  end /\
  match Demo.asks a with
  | top :: _ => Demo.bestAsk a = Demo.price top
  | [] => True
  end.

Definition books_agree (nodes : books Demo.Orderbook) : Prop :=
  forall nodeId sub eventId book,
    In (nodeId, sub) nodes -> In (eventId, book) sub ->
    best_agrees (Demo.marketA book) /\ best_agrees (Demo.marketB book).

Section FurtherDemoVocabulary.
Context `{Runtime}.
Import Dashboard Demo.
Local Abbreviation World := (World Health Orderbook).
Local Open Scope js_scope.

(** The timer of [startDemoMode] firing [n] times in a row. *)
Fixpoint ticks (n : nat) : M World unit :=
  match n with
  | 0%nat => ret tt
  | S k => updateDemoData ;; ticks k
  end.

End FurtherDemoVocabulary.

(** A method of the terminal monitor that does not turn the clock back
    and either leaves [lastUpdateTime] or sets it to the clock reading
    it ends with. *)
Definition stamps (c : M Monitor.State unit) : Prop :=
  forall s,
    Monitor.now s <= Monitor.now (state_of (c s)) /\
    (Monitor.lastUpdateTime (state_of (c s)) = Monitor.lastUpdateTime s \/
     Monitor.lastUpdateTime (state_of (c s)) = Monitor.now (state_of (c s))).

(** * Facts about maps *)

Section MapFacts.
Context {K V : Type} (keq : K -> K -> bool).

Lemma get_set_same (k : K) (v : V) (m : list (K * V)) :
  keq k k = true -> JsMap.get keq k (JsMap.set keq k v m) = Some v.
Proof.
  intros Hrefl. induction m as [|[k' v'] m IH]; simpl.
  - now rewrite Hrefl.
  - destruct (keq k k') eqn:E; simpl; rewrite E; auto.
Qed.

Lemma has_get (k : K) (m : list (K * V)) :
  JsMap.has keq k m = true <-> exists v, JsMap.get keq k m = Some v.
Proof.
  induction m as [|[k' v'] m IH]; simpl.
  - split; [discriminate | intros [v Hv]; discriminate].
  - destruct (keq k k'); [split; eauto | exact IH].
Qed.

Lemma has_set_same (k : K) (v : V) (m : list (K * V)) :
  keq k k = true -> JsMap.has keq k (JsMap.set keq k v m) = true.
Proof.
  intros Hrefl. apply has_get. exists v. now apply get_set_same.
Qed.

(** A key stays in the map when [set] is called, whatever the key set. *)
Lemma has_set_mono (k k' : K) (v : V) (m : list (K * V)) :
  JsMap.has keq k m = true -> JsMap.has keq k (JsMap.set keq k' v m) = true.
Proof.
  induction m as [|[k1 v1] m IH]; simpl; [discriminate|].
  intros Hk. destruct (keq k' k1); simpl; destruct (keq k k1); auto.
Qed.

Lemma has_delete_mono (k k' : K) (m : list (K * V)) :
  JsMap.has keq k m = false -> JsMap.has keq k (JsMap.delete keq k' m) = false.
Proof.
  induction m as [|[k1 v1] m IH]; simpl; [auto|].
  destruct (keq k k1) eqn:E; [discriminate|].
  intros Hk. destruct (keq k' k1); simpl; [auto|]. rewrite E. auto.
Qed.

Lemma uniq_delete (k : K) (m : list (K * V)) :
  JsMap.uniq keq m -> JsMap.uniq keq (JsMap.delete keq k m).
Proof.
  induction m as [|[k1 v1] m IH]; simpl; [auto|].
  intros [Hk1 Hm]. destruct (keq k k1); simpl; [auto|].
  split; [now apply has_delete_mono | auto].
Qed.

Lemma delete_absent (k : K) (m : list (K * V)) :
  JsMap.has keq k m = false -> JsMap.delete keq k m = m.
Proof.
  induction m as [|[k1 v1] m IH]; simpl; [auto|].
  destruct (keq k k1); [discriminate|]. intros Hk. now rewrite IH.
Qed.

Lemma keys_alter (f : V -> V) (k : K) (m : list (K * V)) :
  map fst (JsMap.alter keq f k m) = map fst m.
Proof.
  induction m as [|[k1 v1] m IH]; simpl; [auto|].
  destruct (keq k k1); simpl; [auto | now rewrite IH].
Qed.

Lemma has_keys (k : K) (m m' : list (K * V)) :
  map fst m = map fst m' -> JsMap.has keq k m = JsMap.has keq k m'.
Proof.
  revert m'. induction m as [|[k1 v1] m IH]; intros [|[k2 v2] m'];
    simpl; try discriminate; auto.
  intros Hkeys. injection Hkeys as -> Hrest. now rewrite (IH m').
Qed.

Lemma uniq_keys (m m' : list (K * V)) :
  map fst m = map fst m' -> JsMap.uniq keq m -> JsMap.uniq keq m'.
Proof.
  revert m'. induction m as [|[k1 v1] m IH]; intros [|[k2 v2] m'];
    simpl; try discriminate; auto.
  intros Hkeys [Hk Hm]. injection Hkeys as -> Hrest.
  split; [now rewrite <- (has_keys k2 m m') | eauto].
Qed.

Lemma size_delete (k : K) (m : list (K * V)) :
  (List.length (JsMap.delete keq k m) <= List.length m)%nat.
Proof.
  induction m as [|[k1 v1] m IH]; simpl; [lia|].
  destruct (keq k k1); simpl; lia.
Qed.

Lemma uniqb_spec (m : list (K * V)) :
  JsMap.uniqb keq m = true <-> JsMap.uniq keq m.
Proof.
  induction m as [|[k1 v1] m IH]; simpl; [tauto|].
  rewrite andb_true_iff, negb_true_iff, IH. tauto.
Qed.

Lemma has_delete_same (k : K) (m : list (K * V)) :
  JsMap.exact_key keq k -> JsMap.uniq keq m -> JsMap.has keq k (JsMap.delete keq k m) = false.
Proof.
  intros Hexact. induction m as [|[k1 v1] m IH]; simpl; [auto|].
  intros [Hk1 Hm]. destruct (keq k k1) eqn:E.
  - apply Hexact in E. now subst k1.
  - simpl. rewrite E. auto.
Qed.

Section Symmetric.
Hypothesis keq_sym : forall a b, keq a b = keq b a.

Lemma has_set_other (k k' : K) (v : V) (m : list (K * V)) :
  keq k k' = false -> JsMap.has keq k (JsMap.set keq k' v m) = JsMap.has keq k m.
Proof.
  intros Hne. induction m as [|[k1 v1] m IH]; simpl.
  - now rewrite Hne.
  - destruct (keq k' k1); simpl; destruct (keq k k1); auto.
Qed.

Lemma uniq_set (k : K) (v : V) (m : list (K * V)) :
  JsMap.uniq keq m -> JsMap.uniq keq (JsMap.set keq k v m).
Proof.
  induction m as [|[k1 v1] m IH]; simpl; [auto|].
  intros [Hk1 Hm]. destruct (keq k k1) eqn:E; simpl; [auto|].
  split; [|auto]. rewrite has_set_other; [auto|].
  now rewrite keq_sym.
Qed.

Lemma uniq_snoc (k : K) (v : V) (m : list (K * V)) :
  JsMap.has keq k m = false -> JsMap.uniq keq m ->
  JsMap.uniq keq (m ++ [(k, v)]).
Proof.
  induction m as [|[k1 v1] m IH]; simpl; [auto|].
  destruct (keq k k1) eqn:E; [discriminate|].
  intros Hk [Hk1 Hm]. split; [|auto].
  clear IH Hm. induction m as [|[k2 v2] m IH]; simpl in *.
  - now rewrite keq_sym, E.
  - destruct (keq k1 k2); [discriminate|]. destruct (keq k k2); [discriminate|].
    auto.
Qed.
End Symmetric.
End MapFacts.

Lemma same_value_zero_sym (a b : jsval) :
  same_value_zero a b = same_value_zero b a.
Proof.
  destruct a, b; simpl; auto.
  - now destruct b, b0.
  - unfold Qeq_bool. apply Z.eqb_sym.
  - apply String.eqb_sym.
Qed.

Lemma exact_VStr (s : string) : JsMap.exact_key same_value_zero (VStr s).
Proof.
  intros k'. destruct k'; simpl; try discriminate.
  intros E. apply String.eqb_eq in E. now subst.
Qed.

Lemma exact_string (s : string) : JsMap.exact_key String.eqb s.
Proof. intros k' E. apply String.eqb_eq in E. now subst. Qed.

Lemma obj_get_set (name name' : string) (v : jsval) (o : jsobj) :
  obj_get name' (obj_set name v o) =
  if String.eqb name' name then v else obj_get name' o.
Proof.
  induction o as [|[n v'] o IH]; simpl.
  - reflexivity.
  - destruct (String.eqb name n) eqn:E; simpl.
    + apply String.eqb_eq in E. subst n.
      destruct (String.eqb name' name); reflexivity.
    + destruct (String.eqb name' n) eqn:E'; [|exact IH].
      apply String.eqb_eq in E'. subst n.
      destruct (String.eqb name' name) eqn:E''; [|reflexivity].
      apply String.eqb_eq in E''. subst name'.
      now rewrite String.eqb_refl in E.
Qed.

(** * Facts about method bodies *)

Lemma for_each_emit {S : Type} (lines : list effect) (s : S) :
  for_each lines emit s = (Ret tt, s, lines).
Proof.
  induction lines as [|e lines IH]; simpl; [reflexivity|].
  unfold bind, emit at 1. now rewrite IH.
Qed.

Lemma fanouts_app (t1 t2 : list effect) :
  fanouts (t1 ++ t2) = fanouts t1 ++ fanouts t2.
Proof. unfold fanouts. apply flat_map_app. Qed.

(** * The terminal monitor *)

Arguments get_prop : simpl never.
Arguments is_terminal : simpl never.
Arguments strict_eq_str : simpl never.
Arguments spread : simpl never.
Arguments obj_set : simpl never.
Arguments cache_orderbook : simpl never.

Ltac step_body :=
  unfold try_catch, bind, parse, lift, raise_if, modify, get_state, ret,
    throw, console_error, console_log.
Ltac step_all :=
  unfold try_catch, bind, parse, lift, raise_if, modify, get_state, ret,
    throw, console_error, console_log in *.

(** * The reconciler *)

Section Reconciler.
Context {O : Type}.

(** The loop of [handleMarketStatusUpdate] when every holder has a key
    that the log can print: every sub-map loses the market and nothing
    is thrown. *)
Lemma remove_from_all_evicted (eventId : string) (nodes : books O) :
  printable_holders eventId nodes ->
  fst (fst (remove_from_all eventId nodes)) = evicted eventId nodes /\
  snd (remove_from_all eventId nodes) = None.
Proof.
  unfold printable_holders.
  induction nodes as [|[nodeId sub] nodes IH]; intros Hp; simpl; [auto|].
  destruct IH as [IH1 IH2];
    [intros n s' Hin; apply Hp; right; exact Hin|].
  destruct (remove_from_all eventId nodes) as [[rest lines] thrown].
  simpl in IH1, IH2.
  destruct (JsMap.has same_value_zero (VStr eventId) sub) eqn:E.
  - rewrite (Hp nodeId sub (or_introl eq_refl) E). simpl. now rewrite IH1.
  - simpl. rewrite IH1. now rewrite delete_absent.
Qed.

Lemma remove_from_all_quiet (eventId : string) (nodes : books O) :
  fanouts (snd (fst (remove_from_all eventId nodes))) = [] /\
  existsb is_error (snd (fst (remove_from_all eventId nodes))) = false.
Proof.
  induction nodes as [|[nodeId sub] nodes IH]; simpl; [auto|].
  destruct (remove_from_all eventId nodes) as [[rest lines] thrown].
  simpl in IH.
  destruct (JsMap.has same_value_zero (VStr eventId) sub); simpl; auto.
  destruct (unconvertible nodeId); simpl; auto.
Qed.

(** Whether or not the loop is cut short, every sub-map is as it was
    or has lost the market. *)
Lemma remove_from_all_thinned (eventId : string) (nodes : books O) :
  Forall2 (thinned eventId) nodes (after_removal eventId nodes).
Proof.
  unfold after_removal.
  induction nodes as [|[nodeId sub] nodes IH]; simpl; [constructor|].
  assert (Hsame : Forall2 (thinned eventId) nodes nodes).
  { clear. induction nodes as [|x l IHl]; constructor; auto.
    split; auto. }
  destruct (remove_from_all eventId nodes) as [[rest lines] thrown].
  simpl in IH.
  destruct (JsMap.has same_value_zero (VStr eventId) sub) eqn:E.
  - destruct (unconvertible nodeId); simpl;
      (constructor; [split; simpl; auto | assumption]).
  - simpl. constructor; [split; simpl; auto | assumption].
Qed.

Lemma thinned_keys (eventId : string) (nodes nodes' : books O) :
  Forall2 (thinned eventId) nodes nodes' -> map fst nodes' = map fst nodes.
Proof.
  induction 1 as [|x y l l' [Hk _] _ IH]; simpl; [reflexivity|].
  now rewrite Hk, IH.
Qed.

Lemma thinned_in (eventId : string) (nodes nodes' : books O)
    (nodeId : jsval) (sub' : list (jsval * O)) :
  Forall2 (thinned eventId) nodes nodes' -> In (nodeId, sub') nodes' ->
  exists sub,
    In (nodeId, sub) nodes /\
    (sub' = sub \/ sub' = JsMap.delete same_value_zero (VStr eventId) sub).
Proof.
  induction 1 as [|[k s0] [k' s'] l l' [Hk Hs] _ IH]; [intros []|].
  simpl in Hk, Hs. subst k'. intros [Heq|Hin].
  - injection Heq as -> ->. exists s0. split; [now left | exact Hs].
  - destruct (IH Hin) as (sub & Hsub & Hcase).
    exists sub. split; [now right | exact Hcase].
Qed.

Lemma after_removal_keys (eventId : string) (nodes : books O) :
  map fst (after_removal eventId nodes) = map fst nodes.
Proof. eapply thinned_keys, remove_from_all_thinned. Qed.

Lemma evicted_absent (eventId : string) (nodes : books O) :
  held_by_none eventId nodes -> evicted eventId nodes = nodes.
Proof.
  unfold held_by_none.
  induction nodes as [|[nodeId sub] nodes IH]; simpl; [reflexivity|].
  intros Hnone. rewrite delete_absent by (eapply Hnone; left; reflexivity).
  rewrite IH; [reflexivity|]. intros n s' Hin. eapply Hnone. right. exact Hin.
Qed.

Lemma remove_from_all_absent (eventId : string) (nodes : books O) :
  held_by_none eventId nodes ->
  remove_from_all eventId nodes = (nodes, [], None).
Proof.
  unfold held_by_none.
  induction nodes as [|[nodeId sub] nodes IH]; simpl; [reflexivity|].
  intros Hnone. rewrite IH by (intros n s' Hin; eapply Hnone; right; exact Hin).
  now rewrite (Hnone nodeId sub) by (left; reflexivity).
Qed.

Lemma evicted_gone (eventId : string) (nodes : books O) :
  (forall nodeId sub, In (nodeId, sub) nodes ->
     JsMap.uniq same_value_zero sub) ->
  held_by_none eventId (evicted eventId nodes).
Proof.
  unfold held_by_none, evicted. intros Huniq nodeId sub Hin.
  apply in_map_iff in Hin. destruct Hin as ([n s'] & Heq & Hin).
  simpl in Heq. injection Heq as <- <-.
  apply has_delete_same; [apply exact_VStr | eauto].
Qed.

Lemma evicted_keys (eventId : string) (nodes : books O) :
  map fst (evicted eventId nodes) = map fst nodes.
Proof. unfold evicted. rewrite map_map. reflexivity. Qed.

(** Entries of other markets stay, in every node. *)
Lemma get_delete_other (k k' : string) (sub : list (jsval * O)) :
  k <> k' ->
  JsMap.get same_value_zero (VStr k') (JsMap.delete same_value_zero (VStr k) sub)
  = JsMap.get same_value_zero (VStr k') sub.
Proof.
  intros Hne. induction sub as [|[k1 v1] sub IH]; [reflexivity|].
  cbn [JsMap.delete JsMap.get].
  destruct (same_value_zero (VStr k) k1) eqn:E1.
  - apply exact_VStr in E1. subst k1.
    destruct (same_value_zero (VStr k') (VStr k)) eqn:E2; [|reflexivity].
    apply exact_VStr in E2. congruence.
  - cbn [JsMap.get]. destruct (same_value_zero (VStr k') k1); auto.
Qed.

Lemma uniq_books_evicted (eventId : string) (nodes : books O) :
  uniq_books nodes -> uniq_books (evicted eventId nodes).
Proof.
  intros [Hn Hs]. split.
  - eapply uniq_keys; [symmetry; apply evicted_keys | exact Hn].
  - intros nodeId sub Hin. unfold evicted in Hin.
    apply in_map_iff in Hin. destruct Hin as ([n s'] & Heq & Hin).
    simpl in Heq. injection Heq as <- <-.
    apply uniq_delete. eauto.
Qed.

Lemma uniq_books_after_removal (eventId : string) (nodes : books O) :
  uniq_books nodes -> uniq_books (after_removal eventId nodes).
Proof.
  intros [Hn Hs]. split.
  - eapply uniq_keys; [symmetry; apply after_removal_keys | exact Hn].
  - intros nodeId sub' Hin.
    destruct (@thinned_in eventId nodes _ nodeId sub'
                (remove_from_all_thinned eventId nodes) Hin)
      as (sub & Hsub & [->| ->]); [eauto|].
    apply uniq_delete. eauto.
Qed.
End Reconciler.

Section MonitorFacts.
Context `{Runtime}.
Import Monitor.

Lemma monitor_health_parsed (nodeId message : string) (v : jsval) (s : State) :
  JSON_parse message = Some v ->
  handleHealthUpdate nodeId message s =
  (Ret tt,
   with_lastUpdateTime (elapse (elapse (now s)))
     (with_now (elapse (elapse (now s)))
        (with_healthData
           (JsMap.set String.eqb nodeId
              (obj_set "lastUpdate" (VDate (elapse (now s))) (spread v))
              (healthData s)) s)),
   []).
Proof.
  intros Hv. unfold handleHealthUpdate, new_Date. step_body.
  rewrite Hv. reflexivity.
Qed.

Lemma monitor_health_malformed (nodeId message : string) (s : State) :
  JSON_parse message = None ->
  handleHealthUpdate nodeId message s =
  (Ret tt, s,
   [ConsoleError ("Error processing health update from " ++ nodeId)
      SyntaxError]).
Proof.
  intros Hv. unfold handleHealthUpdate. step_body. rewrite Hv. reflexivity.
Qed.

Lemma monitor_orderbook_malformed (message : string) (s : State) :
  JSON_parse message = None ->
  handleOrderbookUpdate message s =
  (Ret tt, s, [ConsoleError "Error processing orderbook update" SyntaxError]).
Proof.
  intros Hv. unfold handleOrderbookUpdate. step_body. rewrite Hv. reflexivity.
Qed.

Lemma monitor_status_malformed (eventId message : string) (s : State) :
  JSON_parse message = None ->
  handleMarketStatusUpdate eventId message s =
  (Ret tt, s,
   [ConsoleError ("Error processing market status for " ++ eventId)
      SyntaxError]).
Proof.
  intros Hv. unfold handleMarketStatusUpdate. step_body. rewrite Hv.
  reflexivity.
Qed.

Lemma monitor_discovery_malformed (message : string) (s : State) :
  JSON_parse message = None ->
  handleMarketDiscovery message s =
  (Ret tt, s, [ConsoleError "Error processing market discovery" SyntaxError]).
Proof.
  intros Hv. unfold handleMarketDiscovery. step_body. rewrite Hv. reflexivity.
Qed.

Lemma monitor_malformed (channel message : string) (s : State) :
  topic_of channel <> Unrecognized ->
  JSON_parse message = None ->
  exists line,
    on_message channel message s = (Ret tt, s, [ConsoleError line SyntaxError]).
Proof.
  intros Htopic Hv. unfold on_message.
  destruct (topic_of channel); [| | | |congruence]; eexists.
  - now apply monitor_health_malformed.
  - now apply monitor_orderbook_malformed.
  - now apply monitor_status_malformed.
  - now apply monitor_discovery_malformed.
Qed.

(** What each method may write. *)
Lemma monitor_health_effect (nodeId message : string) (s : State) :
  let s' := state_of (handleHealthUpdate nodeId message s) in
  orderbooksByNode s' = orderbooksByNode s /\
  marketStatus s' = marketStatus s /\
  totalMarkets s' = totalMarkets s /\
  (healthData s' = healthData s \/
   exists record,
     healthData s' = JsMap.set String.eqb nodeId record (healthData s)).
Proof.
  unfold handleHealthUpdate, new_Date. step_body.
  destruct (JSON_parse message) as [v|]; simpl; eauto 8.
Qed.

Lemma monitor_orderbook_effect (message : string) (s : State) :
  let s' := state_of (handleOrderbookUpdate message s) in
  healthData s' = healthData s /\
  marketStatus s' = marketStatus s /\
  totalMarkets s' = totalMarkets s /\
  (orderbooksByNode s' = orderbooksByNode s \/
   exists nodeId eventId record,
     orderbooksByNode s' =
     cache_orderbook nodeId eventId record (orderbooksByNode s)).
Proof.
  unfold handleOrderbookUpdate, new_Date. step_body.
  destruct (JSON_parse message) as [v|]; simpl; [|auto].
  destruct (get_prop v "type") as [e|type]; simpl; [auto|].
  destruct (strict_eq_str type "orderbook_update"); simpl; [|auto].
  destruct (get_prop v "eventId") as [e|eventId]; simpl; [auto|].
  destruct (get_prop v "nodeId") as [e|nodeId]; simpl; [auto|].
  repeat split. right. eauto.
Qed.

Lemma monitor_status_effect (eventId message : string) (s : State) :
  let s' := state_of (handleMarketStatusUpdate eventId message s) in
  healthData s' = healthData s /\
  totalMarkets s' = totalMarkets s /\
  (marketStatus s' = marketStatus s \/
   exists record,
     marketStatus s' = JsMap.set String.eqb eventId record (marketStatus s)) /\
  (orderbooksByNode s' = orderbooksByNode s \/
   orderbooksByNode s' = after_removal eventId (orderbooksByNode s)).
Proof.
  unfold handleMarketStatusUpdate, new_Date. step_body.
  destruct (JSON_parse message) as [v|]; simpl; [|auto].
  destruct (get_prop v "status") as [e|status]; simpl; [eauto 8|].
  destruct (is_terminal status); simpl; [|eauto 8].
  unfold after_removal.
  destruct (remove_from_all eventId (orderbooksByNode s))
    as [[nodes lines] [thrown|]];
    simpl; rewrite for_each_emit; simpl; eauto 8.
Qed.

Lemma monitor_discovery_effect (message : string) (s : State) :
  let s' := state_of (handleMarketDiscovery message s) in
  healthData s' = healthData s /\
  marketStatus s' = marketStatus s /\
  orderbooksByNode s' = orderbooksByNode s.
Proof.
  unfold handleMarketDiscovery, new_Date. step_body.
  destruct (JSON_parse message) as [v|]; simpl; [|auto].
  destruct (get_prop v "totalMarkets") as [e|total]; simpl; auto.
Qed.

(** Invariants of the monitor's caches under any bus message. *)
Lemma monitor_health_uniq (t : Z) (channel message : string) (s : State) :
  JsMap.uniq String.eqb (healthData s) ->
  JsMap.uniq String.eqb (healthData (deliver t channel message s)).
Proof.
  intros Hu. unfold deliver, on_message.
  set (s0 := with_now (Z.max (now s) t) s).
  change (healthData s) with (healthData s0) in Hu.
  destruct (topic_of channel) as [nodeId| |eventId| |].
  - destruct (monitor_health_effect nodeId message s0) as (_ & _ & _ & [E|[r E]]);
      rewrite E; [auto|]. apply uniq_set; [apply String.eqb_sym | auto].
  - destruct (monitor_orderbook_effect message s0) as (E & _). now rewrite E.
  - destruct (monitor_status_effect eventId message s0) as (E & _). now rewrite E.
  - destruct (monitor_discovery_effect message s0) as (E & _). now rewrite E.
  - exact Hu.
Qed.

Lemma monitor_status_kept (t : Z) (channel message k : string) (s : State) :
  JsMap.has String.eqb k (marketStatus s) = true ->
  JsMap.has String.eqb k (marketStatus (deliver t channel message s)) = true.
Proof.
  intros Hk. unfold deliver, on_message.
  set (s0 := with_now (Z.max (now s) t) s).
  change (marketStatus s) with (marketStatus s0) in Hk.
  destruct (topic_of channel) as [nodeId| |eventId| |].
  - destruct (monitor_health_effect nodeId message s0) as (_ & E & _).
    now rewrite E.
  - destruct (monitor_orderbook_effect message s0) as (_ & E & _).
    now rewrite E.
  - destruct (monitor_status_effect eventId message s0)
      as (_ & _ & [E|[r E]] & _); rewrite E; [auto|].
    now apply has_set_mono.
  - destruct (monitor_discovery_effect message s0) as (_ & E & _).
    now rewrite E.
  - exact Hk.
Qed.

Lemma monitor_status_kept_run (events : list (Z * string * string))
    (k : string) (s : State) :
  JsMap.has String.eqb k (marketStatus s) = true ->
  JsMap.has String.eqb k (marketStatus (run events s)) = true.
Proof.
  revert s. induction events as [|[[t c] m] events IH]; intros s Hk; simpl.
  - exact Hk.
  - apply IH. now apply monitor_status_kept.
Qed.

Lemma monitor_health_uniq_run (events : list (Z * string * string))
    (s : State) :
  JsMap.uniq String.eqb (healthData s) ->
  JsMap.uniq String.eqb (healthData (run events s)).
Proof.
  revert s. induction events as [|[[t c] m] events IH]; intros s Hu; simpl.
  - exact Hu.
  - apply IH. now apply monitor_health_uniq.
Qed.

(** A status message that parses is recorded before anything else. *)
Lemma monitor_status_recorded (eventId message : string) (v : jsval)
    (s : State) :
  JSON_parse message = Some v ->
  marketStatus (state_of (handleMarketStatusUpdate eventId message s)) =
  JsMap.set String.eqb eventId
    (obj_set "lastUpdate" (VDate (elapse (now s))) (spread v))
    (marketStatus s).
Proof.
  intros Hv. unfold handleMarketStatusUpdate, new_Date. step_body.
  rewrite Hv. simpl.
  destruct (get_prop v "status") as [e|status]; simpl; [reflexivity|].
  destruct (is_terminal status); simpl; [|reflexivity].
  destruct (remove_from_all eventId (orderbooksByNode s))
    as [[nodes lines] [thrown|]];
    simpl; rewrite for_each_emit; reflexivity.
Qed.

Lemma monitor_status_other (eventId message : string) (v : jsval) (s : State) :
  JSON_parse message = Some v ->
  terminal_payload v = false ->
  orderbooksByNode (state_of (handleMarketStatusUpdate eventId message s)) =
  orderbooksByNode s.
Proof.
  intros Hv Hterm. unfold handleMarketStatusUpdate, new_Date. step_body.
  rewrite Hv. simpl. unfold terminal_payload in Hterm.
  destruct (get_prop v "status") as [e|status]; simpl; [reflexivity|].
  rewrite Hterm. reflexivity.
Qed.

Lemma monitor_status_terminal (eventId message : string) (v status : jsval)
    (s : State) :
  JSON_parse message = Some v ->
  get_prop v "status" = inr status ->
  is_terminal status = true ->
  orderbooksByNode (state_of (handleMarketStatusUpdate eventId message s)) =
  after_removal eventId (orderbooksByNode s).
Proof.
  intros Hv Hst Hterm. unfold handleMarketStatusUpdate, new_Date. step_body.
  rewrite Hv. simpl. rewrite Hst. simpl. rewrite Hterm. simpl.
  unfold after_removal.
  destruct (remove_from_all eventId (orderbooksByNode s))
    as [[nodes lines] [thrown|]];
    simpl; rewrite for_each_emit; reflexivity.
Qed.

Lemma monitor_run_snoc (events : list (Z * string * string))
    (t : Z) (channel message : string) (s : State) :
  run (events ++ [(t, channel, message)]) s =
  deliver t channel message (run events s).
Proof.
  revert s. induction events as [|[[t1 c1] m1] events IH]; intros s; simpl.
  - reflexivity.
  - apply IH.
Qed.
End MonitorFacts.

(** * The fan-out dispatcher *)

Lemma in_remove_iff (c x : nat) (l : list nat) :
  In c (remove Nat.eq_dec x l) <-> In c l /\ c <> x.
Proof.
  split.
  - apply in_remove.
  - intros [Hin Hne]. now apply in_in_remove.
Qed.

Lemma NoDup_remove_elt (x : nat) (l : list nat) :
  NoDup l -> NoDup (remove Nat.eq_dec x l).
Proof.
  induction 1 as [|y l Hy Hl IH]; simpl; [constructor|].
  destruct (Nat.eq_dec x y); [auto|].
  constructor; [|auto]. rewrite in_remove_iff. tauto.
Qed.

Section FanoutFacts.
Context {H O : Type} `{Runtime} `{Dashboard.Payload H O}.
Import Dashboard.
Local Abbreviation World := (World H O).

Lemma same_cache_refl (w : World) : same_cache w w.
Proof. repeat split. Qed.

Lemma same_cache_trans (w1 w2 w3 : World) :
  same_cache w1 w2 -> same_cache w2 w3 -> same_cache w1 w3.
Proof.
  unfold same_cache. intros (A1 & A2 & A3 & A4) (B1 & B2 & B3 & B4).
  repeat split; congruence.
Qed.

(** The three ways one turn of the [forEach] of [broadcast] goes. *)
Lemma deliver_to_skip (message : string) (c : nat) (w : World) :
  is_open (readyState (sockets w c)) = false ->
  deliver_to message c w = (Ret tt, w, []).
Proof.
  intros Hst. unfold deliver_to. step_body. now rewrite Hst.
Qed.

Lemma deliver_to_fail (message : string) (c : nat) (w : World) :
  fails (sockets w c) = true ->
  deliver_to message c w =
  (Ret tt, with_clients (remove Nat.eq_dec c (clients w)) w,
   [ConsoleError "Error sending message to client" SendError]).
Proof.
  unfold fails, exhausted. rewrite andb_true_iff. intros [Hst Hex].
  unfold deliver_to, send. step_body. rewrite Hst.
  destruct (sends_left (sockets w c)) as [[|n]|]; try discriminate.
  reflexivity.
Qed.

Lemma deliver_to_accept (message : string) (c : nat) (w : World) :
  delivers (sockets w c) = true ->
  deliver_to message c w =
  (Ret tt,
   with_sockets
     (fun c' => if Nat.eqb c' c then accept message (sockets w c')
                else sockets w c') w,
   []).
Proof.
  unfold delivers, exhausted. rewrite andb_true_iff, negb_true_iff.
  intros [Hst Hex].
  unfold deliver_to, send. step_body. rewrite Hst.
  destruct (sends_left (sockets w c)) as [[|n]|]; try discriminate;
    reflexivity.
Qed.

Lemma socket_cases (k : Socket) :
  {is_open (readyState k) = false /\ fails k = false /\ delivers k = false}
  + {fails k = true /\ delivers k = false}
  + {delivers k = true /\ fails k = false}.
Proof.
  unfold fails, delivers.
  destruct (is_open (readyState k)); simpl.
  - destruct (exhausted k); simpl; auto.
  - left. left. auto.
Qed.

Lemma deliver_loop (message : string) (todo : list nat) :
  NoDup todo ->
  forall w : World,
    delivered message todo w (for_each todo (deliver_to message) w).
Proof.
  induction 1 as [|c todo Hc Htodo IH]; intros w.
  - simpl. constructor; simpl; auto using same_cache_refl; try tauto.
  - simpl. unfold bind.
    destruct (socket_cases (sockets w c)) as [[(Hst & Hf & Hd)|(Hf & Hd)]|(Hd & Hf)].
    + rewrite (deliver_to_skip message c w Hst).
      specialize (IH w). destruct IH as [I1 I2 I3 I4 I5 I6 I7 I8].
      destruct (for_each todo (deliver_to message) w) as [[r s2] t2].
      unfold result_of, state_of, trace_of in *. simpl in *.
      constructor; unfold result_of, state_of, trace_of; simpl; auto.
      * intros c'. rewrite I2. split; intros [A B]; split; auto.
        -- intros [[->|Hin] Hfc]; [congruence | tauto].
        -- intros [Hin Hfc]. apply B. tauto.
      * intros c' [->|Hin] Hdc; [congruence | auto].
      * intros c' Hno. apply I4. tauto.
    + rewrite (deliver_to_fail message c w Hf).
      specialize (IH (with_clients (remove Nat.eq_dec c (clients w)) w)).
      destruct IH as [I1 I2 I3 I4 I5 I6 I7 I8].
      destruct (for_each todo (deliver_to message) _) as [[r s2] t2].
      unfold result_of, state_of, trace_of in *. simpl in *.
      constructor; unfold result_of, state_of, trace_of; simpl; auto.
      * intros c'. rewrite I2, in_remove_iff.
        split.
        -- intros [[A B] C]. split; [auto|].
           intros [[->|Hin] Hfc]; [congruence | tauto].
        -- intros [A B]. split; [split; [auto|]|].
           ++ intros ->. apply B. auto.
           ++ intros [Hin Hfc]. apply B. tauto.
      * intros c' [->|Hin] Hdc; [congruence | auto].
      * intros c' Hno. apply I4. intros [Hin Hdc]. apply Hno. tauto.
      * intros Hnd. apply I8. now apply NoDup_remove_elt.
    + rewrite (deliver_to_accept message c w Hd).
      match goal with
      | |- context [for_each todo (deliver_to message) ?w1] =>
          specialize (IH w1); set (w1' := w1) in *
      end.
      destruct IH as [I1 I2 I3 I4 I5 I6 I7 I8].
      destruct (for_each todo (deliver_to message) w1') as [[r s2] t2].
      unfold result_of, state_of, trace_of in *. simpl in *.
      assert (Hother : forall c', c' <> c -> (c' =? c)%nat = false)
        by (intros c' Hne; now apply Nat.eqb_neq).
      constructor; unfold result_of, state_of, trace_of; simpl; auto.
      * intros c'. rewrite I2.
        split; intros [A B]; split; auto.
        -- intros [[->|Hin] Hfc]; [congruence|].
           apply B. split; [auto|].
           rewrite Hother; [auto | intros ->; contradiction].
        -- intros [Hin Hfc]. apply B. split; [auto|].
           rewrite Hother in Hfc; [auto | intros ->; contradiction].
      * intros c' [->|Hin] Hdc.
        -- rewrite I4; [now rewrite Nat.eqb_refl|]. tauto.
        -- assert (c' <> c) by (intros ->; contradiction).
           rewrite I3; rewrite ?Hother; auto.
      * intros c' Hno.
        assert (c' <> c) by (intros ->; apply Hno; auto).
        rewrite I4; rewrite ?Hother; auto.
        intros [Hin Hdc]. apply Hno. auto.
Qed.

Lemma broadcast_spec (data : jsval) (w : World) :
  NoDup (clients w) -> broadcasted data w (broadcast data w).
Proof.
  intros Hnd. unfold broadcast. step_body. unfold emit.
  destruct (deliver_loop (JSON_stringify data) Hnd w)
    as [I1 I2 I3 I4 I5 I6 I7 I8].
  destruct (for_each (clients w) (deliver_to (JSON_stringify data)) w)
    as [[r s2] t2].
  unfold result_of, state_of, trace_of in *. simpl in *.
  constructor; unfold result_of, state_of, trace_of; simpl; auto.
  - intros c. rewrite I2. split; intros [A B]; split; auto.
    + destruct (fails (sockets w c)); [exfalso; apply B|]; auto.
    + intros [_ Hf]. congruence.
  - now rewrite I7.
Qed.
End FanoutFacts.

Section FanoutFrame.
Context {H O : Type} `{Runtime} `{Dashboard.Payload H O}.
Import Dashboard.
Local Abbreviation World := (World H O).

(** Without any assumption on the client set: [broadcast] returns,
    leaves the caches and the clock alone, and is one fan-out event. *)
Lemma deliver_loop_frame (message : string) (todo : list nat) (w : World) :
  let r := for_each todo (deliver_to message) w in
  result_of r = Ret tt /\ same_cache w (state_of r) /\
  now (state_of r) = now w /\ fanouts (trace_of r) = [] /\
  incl (clients (state_of r)) (clients w).
Proof.
  revert w. induction todo as [|c todo IH]; intros w; simpl.
  - repeat split; auto using incl_refl.
  - unfold bind.
    destruct (socket_cases (sockets w c)) as [[(Hst & Hf & Hd)|(Hf & Hd)]|(Hd & Hf)].
    + rewrite (deliver_to_skip message c w Hst).
      specialize (IH w). simpl in IH.
      destruct (for_each todo (deliver_to message) w) as [[r s2] t2].
      exact IH.
    + rewrite (deliver_to_fail message c w Hf).
      specialize (IH (with_clients (remove Nat.eq_dec c (clients w)) w)).
      simpl in IH.
      destruct (for_each todo (deliver_to message) _) as [[r s2] t2].
      unfold result_of, state_of, trace_of in *. simpl in *.
      destruct IH as (I1 & I2 & I3 & I4 & I5).
      split; [auto|]. split; [exact I2|]. split; [auto|]. split; [auto|].
      intros x Hx. apply I5 in Hx. now apply in_remove in Hx.
    + rewrite (deliver_to_accept message c w Hd).
      match goal with
      | |- context [for_each todo (deliver_to message) ?w1] =>
          specialize (IH w1); set (w1' := w1) in *
      end.
      simpl in IH.
      destruct (for_each todo (deliver_to message) w1') as [[r s2] t2].
      exact IH.
Qed.

Lemma broadcast_frame (data : jsval) (w : World) :
  let r := broadcast data w in
  result_of r = Ret tt /\ same_cache w (state_of r) /\
  now (state_of r) = now w /\ fanouts (trace_of r) = [data] /\
  incl (clients (state_of r)) (clients w).
Proof.
  unfold broadcast. step_body. unfold emit.
  pose proof (deliver_loop_frame (JSON_stringify data) (clients w) w) as IH.
  simpl in IH.
  destruct (for_each (clients w) (deliver_to (JSON_stringify data)) w)
    as [[r s2] t2].
  unfold result_of, state_of, trace_of in *. simpl in *.
  destruct IH as (I1 & I2 & I3 & I4 & I5).
  split; [auto|]. split; [exact I2|]. split; [auto|]. split; [|auto].
  now rewrite I4.
Qed.
End FanoutFrame.

(** Names the result of the loop of [broadcast] in the goal and records
    that it returned and what it left in the trace. *)
Ltac loop_returns :=
  match goal with
  | |- context [for_each ?cs (Dashboard.deliver_to ?m) ?w1] =>
      let Hret := fresh "Hret" in
      let Hloop := fresh "Hloop" in
      pose proof (deliver_loop_frame m cs w1) as (Hret & _ & _ & Hloop & _);
      destruct (for_each cs (Dashboard.deliver_to m) w1) as [[r s2] t2];
      unfold result_of in Hret; unfold trace_of in Hloop;
      simpl in Hret; simpl in Hloop; subst r
  end.

(** * The dashboard server on bus messages *)

Section DashboardFacts.
Context `{Runtime}.
Import Dashboard.
Local Abbreviation World := (World jsobj jsobj).

Lemma dashboard_health_malformed (nodeId message : string) (w : World) :
  JSON_parse message = None ->
  handleHealthUpdate nodeId message w =
  (Ret tt, w,
   [ConsoleError ("Error processing health update from " ++ nodeId)
      SyntaxError]).
Proof.
  intros Hv. unfold handleHealthUpdate. step_body. rewrite Hv. reflexivity.
Qed.

Lemma dashboard_orderbook_malformed (message : string) (w : World) :
  JSON_parse message = None ->
  handleOrderbookUpdate message w =
  (Ret tt, w, [ConsoleError "Error processing orderbook update" SyntaxError]).
Proof.
  intros Hv. unfold handleOrderbookUpdate. step_body. rewrite Hv. reflexivity.
Qed.

Lemma dashboard_status_malformed (eventId message : string) (w : World) :
  JSON_parse message = None ->
  handleMarketStatusUpdate eventId message w =
  (Ret tt, w,
   [ConsoleError ("Error processing market status for " ++ eventId)
      SyntaxError]).
Proof.
  intros Hv. unfold handleMarketStatusUpdate. step_body. rewrite Hv.
  reflexivity.
Qed.

Lemma dashboard_discovery_malformed (message : string) (w : World) :
  JSON_parse message = None ->
  handleMarketDiscovery message w =
  (Ret tt, w, [ConsoleError "Error processing market discovery" SyntaxError]).
Proof.
  intros Hv. unfold handleMarketDiscovery. step_body. rewrite Hv. reflexivity.
Qed.

Lemma dashboard_malformed (channel message : string) (w : World) :
  topic_of channel <> Unrecognized ->
  JSON_parse message = None ->
  exists line,
    on_message channel message w = (Ret tt, w, [ConsoleError line SyntaxError]).
Proof.
  intros Htopic Hv. unfold on_message.
  destruct (topic_of channel); [| | | |congruence]; eexists.
  - now apply dashboard_health_malformed.
  - now apply dashboard_orderbook_malformed.
  - now apply dashboard_status_malformed.
  - now apply dashboard_discovery_malformed.
Qed.

(** A health message that parses: the record is cached, then the event
    is broadcast from the state with the record in it. *)
Lemma dashboard_health_parsed (nodeId message : string) (v : jsval) (w : World) :
  JSON_parse message = Some v ->
  let t := elapse (now w) in
  let cached :=
    with_now (elapse t)
      (with_healthData
         (JsMap.set String.eqb nodeId
            (obj_set "lastUpdate" (VDate t) (spread v)) (healthData w)) w) in
  handleHealthUpdate nodeId message w =
  broadcast (health_update nodeId v (elapse t)) cached.
Proof.
  intros Hv t cached. subst cached t.
  unfold handleHealthUpdate, new_Date, broadcast. step_body. unfold emit.
  rewrite Hv. unfold with_now, with_healthData. simpl.
  loop_returns. reflexivity.
Qed.

(** A status message that is not terminal changes nothing at all. *)
Lemma dashboard_status_other (eventId message : string) (v : jsval) (w : World) :
  JSON_parse message = Some v ->
  terminal_payload v = false ->
  exists trace,
    handleMarketStatusUpdate eventId message w = (Ret tt, w, trace) /\
    fanouts trace = [].
Proof.
  intros Hv Hterm. unfold handleMarketStatusUpdate. step_body.
  rewrite Hv. unfold terminal_payload in Hterm.
  destruct (get_prop v "status") as [e|status]; simpl.
  - eexists. split; reflexivity.
  - rewrite Hterm. eexists. split; reflexivity.
Qed.

(** A terminal status message whose eviction loop gets through: the
    eviction, then one broadcast. *)
Lemma dashboard_status_terminal (eventId message : string) (v status : jsval)
    (w : World) :
  JSON_parse message = Some v ->
  get_prop v "status" = inr status ->
  is_terminal status = true ->
  snd (remove_from_all eventId (orderbooksByNode w)) = None ->
  let t := elapse (now w) in
  let swept :=
    with_now t
      (with_orderbooksByNode
         (after_removal eventId (orderbooksByNode w)) w) in
  let r := handleMarketStatusUpdate eventId message w in
  result_of r = Ret tt /\
  state_of r = state_of (broadcast (market_removed eventId status t) swept) /\
  fanouts (trace_of r) = [market_removed eventId status t].
Proof.
  intros Hv Hst Hterm Hnone t swept. subst swept t.
  unfold handleMarketStatusUpdate, new_Date, broadcast, after_removal.
  step_body. rewrite Hv, Hst. simpl. rewrite Hterm.
  pose proof (remove_from_all_quiet eventId (orderbooksByNode w)) as [Hq _].
  destruct (remove_from_all eventId (orderbooksByNode w))
    as [[nodes lines] thrown].
  simpl in Hq, Hnone. subst thrown. simpl. rewrite for_each_emit.
  unfold emit, with_now, with_orderbooksByNode. simpl. loop_returns.
  unfold result_of, state_of, trace_of. simpl. repeat split.
  rewrite fanouts_app. rewrite Hq. simpl. now rewrite Hloop.
Qed.

(** A terminal status message whose eviction loop is cut short by a key
    that the log cannot print: the sub-maps are left as the loop had
    them, the error is logged and nothing is broadcast. *)
Lemma dashboard_status_cut (eventId message : string) (v status : jsval)
    (e : exn) (w : World) :
  JSON_parse message = Some v ->
  get_prop v "status" = inr status ->
  is_terminal status = true ->
  snd (remove_from_all eventId (orderbooksByNode w)) = Some e ->
  handleMarketStatusUpdate eventId message w =
  (Ret tt,
   with_orderbooksByNode (after_removal eventId (orderbooksByNode w)) w,
   (ConsoleLog "Removing market" [VStr eventId; status]
      :: snd (fst (remove_from_all eventId (orderbooksByNode w))))
   ++ [ConsoleError ("Error processing market status for " ++ eventId) e]).
Proof.
  intros Hv Hst Hterm Hcut.
  unfold handleMarketStatusUpdate, after_removal.
  step_body. rewrite Hv, Hst. simpl. rewrite Hterm.
  destruct (remove_from_all eventId (orderbooksByNode w))
    as [[nodes lines] thrown].
  simpl in Hcut. subst thrown. simpl. rewrite for_each_emit.
  unfold emit. simpl. now rewrite !app_nil_r.
Qed.
(** What each method may write. *)
Lemma dashboard_health_effect (nodeId message : string) (w : World) :
  let w' := state_of (handleHealthUpdate nodeId message w) in
  orderbooksByNode w' = orderbooksByNode w /\
  totalMarkets w' = totalMarkets w /\
  (healthData w' = healthData w \/
   exists record,
     healthData w' = JsMap.set String.eqb nodeId record (healthData w)).
Proof.
  destruct (JSON_parse message) as [v|] eqn:Hv.
  - rewrite (dashboard_health_parsed nodeId message w Hv).
    match goal with
    | |- context [broadcast ?d ?w1] =>
        destruct (broadcast_frame d w1) as (_ & (E1 & E2 & E3 & _) & _)
    end.
    simpl. rewrite E1, E2, E3. simpl. eauto.
  - rewrite (dashboard_health_malformed nodeId message w Hv). simpl. auto.
Qed.

Lemma dashboard_orderbook_effect (message : string) (w : World) :
  let w' := state_of (handleOrderbookUpdate message w) in
  healthData w' = healthData w /\
  totalMarkets w' = totalMarkets w /\
  (orderbooksByNode w' = orderbooksByNode w \/
   exists nodeId eventId record,
     orderbooksByNode w' =
     cache_orderbook nodeId eventId record (orderbooksByNode w)).
Proof.
  unfold handleOrderbookUpdate, new_Date. step_body.
  destruct (JSON_parse message) as [v|]; simpl; [|auto].
  destruct (get_prop v "type") as [e|type]; simpl; [auto|].
  destruct (strict_eq_str type "orderbook_update"); simpl; [|auto].
  destruct (get_prop v "eventId") as [e|eventId]; simpl; [auto|].
  destruct (get_prop v "nodeId") as [e|nodeId]; simpl; [auto|].
  destruct (get_prop v "marketA") as [e|marketA]; simpl; [eauto 8|].
  destruct (get_prop v "marketB") as [e|marketB]; simpl; [eauto 8|].
  match goal with
  | |- context [broadcast ?d ?w1] =>
      destruct (broadcast_frame d w1) as (Hret & (E1 & E2 & E3 & _) & _);
      destruct (broadcast d w1) as [[r s2] t2]
  end.
  unfold result_of, state_of in *. simpl in *. subst r. simpl.
  rewrite E1, E2, E3. eauto 8.
Qed.

Lemma dashboard_status_effect (eventId message : string) (w : World) :
  let w' := state_of (handleMarketStatusUpdate eventId message w) in
  healthData w' = healthData w /\
  totalMarkets w' = totalMarkets w /\
  (orderbooksByNode w' = orderbooksByNode w \/
   orderbooksByNode w' = after_removal eventId (orderbooksByNode w)).
Proof.
  destruct (JSON_parse message) as [v|] eqn:Hv.
  - destruct (terminal_payload v) eqn:Hterm.
    + unfold terminal_payload in Hterm.
      destruct (get_prop v "status") as [e|status] eqn:Hst; [discriminate|].
      destruct (snd (remove_from_all eventId (orderbooksByNode w)))
        as [e|] eqn:Hcut.
      { rewrite (dashboard_status_cut eventId message w Hv Hst Hterm Hcut).
        simpl. auto. }
      destruct (dashboard_status_terminal eventId message w Hv Hst Hterm Hcut)
        as (_ & Hstate & _).
      rewrite Hstate.
      match goal with
      | |- context [broadcast ?d ?w1] =>
          destruct (broadcast_frame d w1) as (_ & (E1 & E2 & E3 & _) & _)
      end.
      simpl. rewrite E1, E2, E3. simpl. auto.
    + destruct (dashboard_status_other eventId message w Hv Hterm)
        as (trace & E & _).
      rewrite E. simpl. auto.
  - rewrite (dashboard_status_malformed eventId message w Hv). simpl. auto.
Qed.

Lemma dashboard_discovery_effect (message : string) (w : World) :
  let w' := state_of (handleMarketDiscovery message w) in
  healthData w' = healthData w /\
  orderbooksByNode w' = orderbooksByNode w.
Proof.
  unfold handleMarketDiscovery, new_Date. step_body.
  destruct (JSON_parse message) as [v|]; simpl; [|auto].
  destruct (get_prop v "totalMarkets") as [e|total]; simpl; [auto|].
  match goal with
  | |- context [broadcast ?d ?w1] =>
      destruct (broadcast_frame d w1) as (Hret & (E1 & E2 & E3 & _) & _);
      destruct (broadcast d w1) as [[r s2] t2]
  end.
  unfold result_of, state_of in *. simpl in *. subst r. simpl.
  rewrite E1, E2. auto.
Qed.

Lemma dashboard_run_snoc (events : list (Z * string * string))
    (t : Z) (channel message : string) (w : World) :
  run (events ++ [(t, channel, message)]) w =
  deliver t channel message (run events w).
Proof.
  revert w. induction events as [|[[t1 c1] m1] events IH]; intros w; simpl.
  - reflexivity.
  - apply IH.
Qed.

Lemma dashboard_health_uniq (t : Z) (channel message : string) (w : World) :
  JsMap.uniq String.eqb (healthData w) ->
  JsMap.uniq String.eqb (healthData (deliver t channel message w)).
Proof.
  intros Hu. unfold deliver, on_message.
  set (w0 := with_now (Z.max (now w) t) w).
  change (healthData w) with (healthData w0) in Hu.
  destruct (topic_of channel) as [nodeId| |eventId| |].
  - destruct (dashboard_health_effect nodeId message w0) as (_ & _ & [E|[r E]]);
      rewrite E; [auto|]. apply uniq_set; [apply String.eqb_sym | auto].
  - destruct (dashboard_orderbook_effect message w0) as (E & _). now rewrite E.
  - destruct (dashboard_status_effect eventId message w0) as (E & _).
    now rewrite E.
  - destruct (dashboard_discovery_effect message w0) as (E & _). now rewrite E.
  - exact Hu.
Qed.

Lemma dashboard_health_uniq_run (events : list (Z * string * string))
    (w : World) :
  JsMap.uniq String.eqb (healthData w) ->
  JsMap.uniq String.eqb (healthData (run events w)).
Proof.
  revert w. induction events as [|[[t c] m] events IH]; intros w Hu; simpl.
  - exact Hu.
  - apply IH. now apply dashboard_health_uniq.
Qed.
End DashboardFacts.

(** * Properties of the snapshot store and of the reconciler *)

(** Closed statements below are run on the reference runtime. *)
#[local] Existing Instance Sample.runtime | 100.

(** C1.  After any sequence of bus messages that ends with a health
    message for node [N] whose payload parses to [v], the record cached
    for [N] is the fields of [v] with [lastUpdate] set to a clock reading
    [T] taken at or after the arrival time [t] of that message; nothing
    of an earlier record survives, and the cache keeps one record per
    node.  This holds in the terminal monitor and in the dashboard
    server. *)
Theorem health_last_write_wins `{Runtime} (N : string)
    (earlier : list (Z * string * string)) (t : Z) (channel message : string)
    (v : jsval) :
  topic_of channel = HealthTopic N ->
  JSON_parse message = Some v ->
  (forall s : Monitor.State,
     let s' := Monitor.run (earlier ++ [(t, channel, message)]) s in
     (exists T, t <= T /\
        JsMap.get String.eqb N (Monitor.healthData s') =
        Some (obj_set "lastUpdate" (VDate T) (spread v))) /\
     (JsMap.uniq String.eqb (Monitor.healthData s) ->
      JsMap.uniq String.eqb (Monitor.healthData s'))) /\
  (forall w : Dashboard.World jsobj jsobj,
     let w' := Dashboard.run (earlier ++ [(t, channel, message)]) w in
     (exists T, t <= T /\
        JsMap.get String.eqb N (Dashboard.healthData w') =
        Some (obj_set "lastUpdate" (VDate T) (spread v))) /\
     (JsMap.uniq String.eqb (Dashboard.healthData w) ->
      JsMap.uniq String.eqb (Dashboard.healthData w'))).
Proof.
  intros Htopic Hv. split.
  - intros s s'. split.
    + subst s'. rewrite monitor_run_snoc.
      unfold Monitor.deliver, Monitor.on_message. rewrite Htopic.
      rewrite (monitor_health_parsed N message _ Hv). simpl.
      eexists. split; [|apply get_set_same, String.eqb_refl].
      etransitivity; [apply Z.le_max_r | apply elapse_mono].
    + apply monitor_health_uniq_run.
  - intros w w'. split.
    + subst w'. rewrite dashboard_run_snoc.
      unfold Dashboard.deliver, Dashboard.on_message. rewrite Htopic.
      rewrite (dashboard_health_parsed N message _ Hv).
      match goal with
      | |- context [Dashboard.broadcast ?d ?w1] =>
          destruct (broadcast_frame d w1) as (_ & (E & _) & _)
      end.
      rewrite E. simpl.
      eexists. split; [|apply get_set_same, String.eqb_refl].
      etransitivity; [apply Z.le_max_r | apply elapse_mono].
    + apply dashboard_health_uniq_run.
Qed.

Lemma health_last_write_wins_witness :
  topic_of "metrics:10.0.0.1" = HealthTopic "10.0.0.1" /\
  JSON_parse Sample.health_message =
    Some (VObj [("cpuUsage", VNum 50); ("isHealthy", VBool true)]) /\
  exists T, 7 <= T /\
    JsMap.get String.eqb "10.0.0.1"
      (Dashboard.healthData
         (Dashboard.run
            ([(3, "metrics:10.0.0.1", "not json");
              (5, "orderbooks", Sample.orderbook_message)]
             ++ [(7, "metrics:10.0.0.1", Sample.health_message)])
            Sample.server)) =
    Some (obj_set "lastUpdate" (VDate T)
            (spread (VObj [("cpuUsage", VNum 50); ("isHealthy", VBool true)]))).
Proof.
  assert (Htopic : topic_of "metrics:10.0.0.1" = HealthTopic "10.0.0.1")
    by (vm_compute; reflexivity).
  assert (Hv : JSON_parse Sample.health_message =
               Some (VObj [("cpuUsage", VNum 50); ("isHealthy", VBool true)]))
    by (vm_compute; reflexivity).
  split; [exact Htopic|]. split; [exact Hv|].
  destruct (@health_last_write_wins Sample.runtime "10.0.0.1"
              [(3, "metrics:10.0.0.1", "not json");
               (5, "orderbooks", Sample.orderbook_message)]
              7 "metrics:10.0.0.1" Sample.health_message
              (VObj [("cpuUsage", VNum 50); ("isHealthy", VBool true)])
              Htopic Hv) as [_ Hd].
  destruct (Hd Sample.server) as [Hw _]. exact Hw.
Defined.

(** C4.  On each of the four kinds of topic, a message whose payload
    does not parse leaves the whole state of the program as it was, logs
    one error and nothing else (no fan-out), and the message that
    follows on the same topic is processed as if the malformed one had
    not arrived.  This holds in the terminal monitor and in the dashboard
    server. *)
Theorem malformed_payload_dropped `{Runtime} (channel message : string) :
  topic_of channel <> Unrecognized ->
  JSON_parse message = None ->
  (forall s : Monitor.State,
     (exists line,
        Monitor.on_message channel message s =
        (Ret tt, s, [ConsoleError line SyntaxError])) /\
     forall next,
       Monitor.on_message channel next
         (state_of (Monitor.on_message channel message s)) =
       Monitor.on_message channel next s) /\
  (forall w : Dashboard.World jsobj jsobj,
     (exists line,
        Dashboard.on_message channel message w =
        (Ret tt, w, [ConsoleError line SyntaxError])) /\
     forall next,
       Dashboard.on_message channel next
         (state_of (Dashboard.on_message channel message w)) =
       Dashboard.on_message channel next w).
Proof.
  intros Htopic Hv. split.
  - intros s. destruct (monitor_malformed channel message s Htopic Hv)
      as [line E].
    split; [eauto|]. intros next. now rewrite E.
  - intros w. destruct (dashboard_malformed channel message w Htopic Hv)
      as [line E].
    split; [eauto|]. intros next. now rewrite E.
Qed.

Lemma malformed_payload_dropped_witness :
  topic_of "market_status:E1" <> Unrecognized /\
  JSON_parse "{status:" = None /\
  exists line,
    Dashboard.on_message "market_status:E1" "{status:" Sample.server =
    (Ret tt, Sample.server, [ConsoleError line SyntaxError]).
Proof.
  assert (Htopic : topic_of "market_status:E1" <> Unrecognized)
    by (vm_compute; discriminate).
  assert (Hv : JSON_parse "{status:" = None) by (vm_compute; reflexivity).
  split; [exact Htopic|]. split; [exact Hv|].
  destruct (@malformed_payload_dropped Sample.runtime "market_status:E1"
              "{status:" Htopic Hv) as [_ Hd].
  destruct (Hd Sample.server) as [Hw _]. exact Hw.
Defined.



(** C6, as amended.  In the terminal monitor every status message that
    parses, terminal or not, creates or overwrites the record of its
    market in [marketStatus] (the payload's fields with [lastUpdate] set
    to a clock reading at or after the arrival), and no later bus message
    removes the record of that market.  The dashboard server has no such
    map: a status message that is not terminal leaves its state as it
    was and emits nothing. *)
Theorem status_recorded_by_monitor_only `{Runtime} (M channel message : string)
    (t : Z) (v : jsval) :
  topic_of channel = StatusTopic M ->
  JSON_parse message = Some v ->
  (forall s : Monitor.State,
     let s' := Monitor.deliver t channel message s in
     (exists T, t <= T /\
        JsMap.get String.eqb M (Monitor.marketStatus s') =
        Some (obj_set "lastUpdate" (VDate T) (spread v))) /\
     forall later,
       JsMap.has String.eqb M (Monitor.marketStatus (Monitor.run later s'))
       = true) /\
  (forall w : Dashboard.World jsobj jsobj,
     terminal_payload v = false ->
     exists trace,
       Dashboard.on_message channel message w = (Ret tt, w, trace) /\
       fanouts trace = []).
Proof.
  intros Htopic Hv. split.
  - intros s s'.
    assert (Hrec : exists T, t <= T /\
              JsMap.get String.eqb M (Monitor.marketStatus s') =
              Some (obj_set "lastUpdate" (VDate T) (spread v))).
    { subst s'. unfold Monitor.deliver, Monitor.on_message. rewrite Htopic.
      rewrite (monitor_status_recorded M message _ Hv). simpl.
      eexists. split; [|apply get_set_same, String.eqb_refl].
      etransitivity; [apply Z.le_max_r | apply elapse_mono]. }
    split; [exact Hrec|].
    intros later. apply monitor_status_kept_run.
    apply has_get. destruct Hrec as (T & _ & E). eauto.
  - intros w Hterm. unfold Dashboard.on_message. rewrite Htopic.
    now apply dashboard_status_other with (v := v).
Qed.

Lemma status_recorded_by_monitor_only_witness :
  topic_of "market_status:E1" = StatusTopic "E1" /\
  JSON_parse (Sample.status_message "CLEARED") =
    Some (VObj [("status", VStr "CLEARED")]) /\
  JsMap.has String.eqb "E1"
    (Monitor.marketStatus
       (Monitor.run [(9, "orderbooks", Sample.orderbook_message);
                     (11, "market_status:E2", Sample.status_message "CLOSED")]
          (Monitor.deliver 8 "market_status:E1"
             (Sample.status_message "CLEARED") (Monitor.init 0)))) = true.
Proof.
  assert (Htopic : topic_of "market_status:E1" = StatusTopic "E1")
    by (vm_compute; reflexivity).
  assert (Hv : JSON_parse (Sample.status_message "CLEARED") =
               Some (VObj [("status", VStr "CLEARED")]))
    by (vm_compute; reflexivity).
  split; [exact Htopic|]. split; [exact Hv|].
  destruct (@status_recorded_by_monitor_only Sample.runtime "E1"
              "market_status:E1" (Sample.status_message "CLEARED") 8 _
              Htopic Hv) as [Hm _].
  destruct (Hm (Monitor.init 0)) as [_ Hkept]. apply Hkept.
Defined.

(** C6 as stated fails in the dashboard server: were the status of a
    market recorded in its state, the state after a status message
    would tell which status it carried; but the states after OPEN and
    after SUSPENDED are the same. *)
Lemma dashboard_keeps_no_status :
  ~ exists lookup, recalls_status lookup.
Proof.
  intros [lookup Hrec].
  assert (Hopen : lookup
            (state_of (Dashboard.handleMarketStatusUpdate "E1"
                         (Sample.status_message "OPEN") Sample.server)) "E1"
          = Some (VStr "OPEN")).
  { apply Hrec with (v := VObj [("status", VStr "OPEN")]);
      vm_compute; reflexivity. }
  assert (Hsusp : lookup
            (state_of (Dashboard.handleMarketStatusUpdate "E1"
                         (Sample.status_message "SUSPENDED") Sample.server))
            "E1"
          = Some (VStr "SUSPENDED")).
  { apply Hrec with (v := VObj [("status", VStr "SUSPENDED")]);
      vm_compute; reflexivity. }
  assert (E1 : state_of (Dashboard.handleMarketStatusUpdate "E1"
                 (Sample.status_message "OPEN") Sample.server) = Sample.server)
    by (vm_compute; reflexivity).
  assert (E2 : state_of (Dashboard.handleMarketStatusUpdate "E1"
                 (Sample.status_message "SUSPENDED") Sample.server)
               = Sample.server)
    by (vm_compute; reflexivity).
  rewrite E1 in Hopen. rewrite E2 in Hsusp.
  rewrite Hopen in Hsusp. discriminate.
Qed.

(** C7.  A status message whose status is neither CLOSED nor CLEARED
    leaves the order books of every node as they were, in the terminal
    monitor and in the dashboard server (which then emits nothing). *)
Theorem non_terminal_status_keeps_books `{Runtime} (M message : string)
    (v : jsval) :
  JSON_parse message = Some v ->
  terminal_payload v = false ->
  (forall s : Monitor.State,
     Monitor.orderbooksByNode
       (state_of (Monitor.handleMarketStatusUpdate M message s)) =
     Monitor.orderbooksByNode s) /\
  (forall w : Dashboard.World jsobj jsobj,
     let r := Dashboard.handleMarketStatusUpdate M message w in
     Dashboard.orderbooksByNode (state_of r) = Dashboard.orderbooksByNode w /\
     fanouts (trace_of r) = []).
Proof.
  intros Hv Hterm. split.
  - intros s. now apply monitor_status_other with (v := v).
  - intros w r.
    destruct (dashboard_status_other M message w Hv Hterm) as (trace & E & Hq).
    subst r. rewrite E. auto.
Qed.

Lemma non_terminal_status_keeps_books_witness :
  JSON_parse (Sample.status_message "OPEN") =
    Some (VObj [("status", VStr "OPEN")]) /\
  terminal_payload (VObj [("status", VStr "OPEN")]) = false /\
  let s := Monitor.run [(1, "orderbooks", Sample.orderbook_message)]
             (Monitor.init 0) in
  Monitor.orderbooksByNode
    (state_of (Monitor.handleMarketStatusUpdate "E1"
                 (Sample.status_message "OPEN") s)) =
  Monitor.orderbooksByNode s.
Proof.
  assert (Hv : JSON_parse (Sample.status_message "OPEN") =
               Some (VObj [("status", VStr "OPEN")]))
    by (vm_compute; reflexivity).
  assert (Hterm : terminal_payload (VObj [("status", VStr "OPEN")]) = false)
    by (vm_compute; reflexivity).
  split; [exact Hv|]. split; [exact Hterm|]. intros s.
  destruct (@non_terminal_status_keeps_books Sample.runtime "E1"
              (Sample.status_message "OPEN") _ Hv Hterm) as [Hm _].
  apply Hm.
Defined.

(** C9.  In the dashboard server a status message with status CLOSED or
    CLEARED for a market that no node holds, a market never seen
    included, still calls [broadcast] once with the [market_removed]
    event, while the three caches stay as they were. *)
Theorem unheld_market_still_announced `{Runtime} (M message : string)
    (v status : jsval) (w : Dashboard.World jsobj jsobj) :
  JSON_parse message = Some v ->
  get_prop v "status" = inr status ->
  is_terminal status = true ->
  held_by_none M (Dashboard.orderbooksByNode w) ->
  let r := Dashboard.handleMarketStatusUpdate M message w in
  let event := Dashboard.market_removed M status (elapse (Dashboard.now w)) in
  fanouts (trace_of r) = [event] /\
  Dashboard.healthData (state_of r) = Dashboard.healthData w /\
  Dashboard.orderbooksByNode (state_of r) = Dashboard.orderbooksByNode w /\
  Dashboard.totalMarkets (state_of r) = Dashboard.totalMarkets w /\
  (NoDup (Dashboard.clients w) ->
   forall c, In c (Dashboard.clients w) ->
     Dashboard.delivers (Dashboard.sockets w c) = true ->
     Dashboard.received (Dashboard.sockets (state_of r) c) =
     Dashboard.received (Dashboard.sockets w c) ++ [JSON_stringify event]).
Proof.
  intros Hv Hst Hterm Hnone r event.
  assert (Hthrough : snd (remove_from_all M (Dashboard.orderbooksByNode w))
                     = None)
    by now rewrite (remove_from_all_absent Hnone).
  destruct (dashboard_status_terminal M message w Hv Hst Hterm Hthrough)
    as (_ & Hstate & Hfan).
  fold r in Hstate, Hfan. rewrite Hstate. fold event.
  set (swept := Dashboard.with_now _ _).
  destruct (broadcast_frame event swept) as (_ & (E1 & E2 & E3 & _) & _).
  rewrite E1, E2, E3. subst swept. simpl.
  unfold after_removal. rewrite (remove_from_all_absent Hnone). simpl.
  repeat (split; [auto; fail|]).
  intros Hnd c Hin Hd.
  match goal with
  | |- context [Dashboard.broadcast event ?w1] =>
      destruct (@broadcast_spec _ _ _ event w1 Hnd) as [_ _ Hacc _ _ _ _ _]
  end.
  now rewrite (Hacc c Hin Hd).
Qed.

Lemma unheld_market_still_announced_witness :
  JSON_parse (Sample.status_message "CLOSED") =
    Some (VObj [("status", VStr "CLOSED")]) /\
  held_by_none "NEVER_SEEN" (Dashboard.orderbooksByNode Sample.server) /\
  fanouts (trace_of (Dashboard.handleMarketStatusUpdate "NEVER_SEEN"
                       (Sample.status_message "CLOSED") Sample.server)) =
  [Dashboard.market_removed "NEVER_SEEN" (VStr "CLOSED") 1].
Proof.
  assert (Hv : JSON_parse (Sample.status_message "CLOSED") =
               Some (VObj [("status", VStr "CLOSED")]))
    by (vm_compute; reflexivity).
  assert (Hst : get_prop (VObj [("status", VStr "CLOSED")]) "status" =
                inr (VStr "CLOSED")) by (vm_compute; reflexivity).
  assert (Hterm : is_terminal (VStr "CLOSED") = true)
    by (vm_compute; reflexivity).
  assert (Hnone : held_by_none "NEVER_SEEN"
                    (Dashboard.orderbooksByNode Sample.server))
    by (intros n sub Hin; destruct Hin).
  split; [exact Hv|]. split; [exact Hnone|].
  destruct (@unheld_market_still_announced Sample.runtime "NEVER_SEEN"
              (Sample.status_message "CLOSED") _ _ Sample.server
              Hv Hst Hterm Hnone) as [Hfan _].
  exact Hfan.
Defined.

(** * Properties of the fan-out dispatcher *)

Section ObserverFacts.
Context `{Runtime}.
Import Dashboard.
Local Abbreviation World := (World jsobj jsobj).

(** Processing a bus message touches the client set and the sockets
    through [broadcast] only. *)
Lemma dashboard_step_shape (channel message : string) (w : World) :
  exists w1,
    clients w1 = clients w /\ sockets w1 = sockets w /\
    (state_of (on_message channel message w) = w1 \/
     exists event,
       state_of (on_message channel message w) =
       state_of (broadcast event w1)).
Proof.
  unfold on_message. destruct (topic_of channel) as [nodeId| |eventId| |].
  - destruct (JSON_parse message) as [v|] eqn:Hv.
    + rewrite (dashboard_health_parsed nodeId message w Hv).
      eexists. split; [|split; [|right; eexists; reflexivity]]; reflexivity.
    + rewrite (dashboard_health_malformed nodeId message w Hv).
      exists w. auto.
  - unfold handleOrderbookUpdate, new_Date. step_body.
    destruct (JSON_parse message) as [v|]; simpl; [|exists w; auto].
    destruct (get_prop v "type") as [e|type]; simpl; [exists w; auto|].
    destruct (strict_eq_str type "orderbook_update"); simpl; [|exists w; auto].
    destruct (get_prop v "eventId") as [e|eventId]; simpl; [exists w; auto|].
    destruct (get_prop v "nodeId") as [e|nodeId]; simpl; [exists w; auto|].
    destruct (get_prop v "marketA") as [e|marketA]; simpl;
      [eexists; split; [|split; [|left; reflexivity]]; reflexivity|].
    destruct (get_prop v "marketB") as [e|marketB]; simpl;
      [eexists; split; [|split; [|left; reflexivity]]; reflexivity|].
    match goal with
    | |- context [broadcast ?d ?w1] =>
        exists w1; split; [reflexivity|]; split; [reflexivity|];
        right; exists d;
        destruct (broadcast_frame d w1) as (Hret & _);
        destruct (broadcast d w1) as [[r s2] t2]
    end.
    unfold result_of in Hret. simpl in Hret. subst r. reflexivity.
  - destruct (JSON_parse message) as [v|] eqn:Hv.
    + destruct (terminal_payload v) eqn:Hterm.
      * unfold terminal_payload in Hterm.
        destruct (get_prop v "status") as [e|status] eqn:Hst; [discriminate|].
        destruct (snd (remove_from_all eventId (orderbooksByNode w)))
          as [e|] eqn:Hcut.
        { rewrite (dashboard_status_cut eventId message w Hv Hst Hterm Hcut).
          eexists. split; [|split; [|left; reflexivity]]; reflexivity. }
        destruct (dashboard_status_terminal eventId message w Hv Hst Hterm Hcut)
          as (_ & Hstate & _).
        rewrite Hstate.
        eexists. split; [|split; [|right; eexists; reflexivity]]; reflexivity.
      * destruct (dashboard_status_other eventId message w Hv Hterm)
          as (trace & E & _).
        rewrite E. exists w. auto.
    + rewrite (dashboard_status_malformed eventId message w Hv). exists w. auto.
  - unfold handleMarketDiscovery, new_Date. step_body.
    destruct (JSON_parse message) as [v|]; simpl; [|exists w; auto].
    destruct (get_prop v "totalMarkets") as [e|total]; simpl; [exists w; auto|].
    match goal with
    | |- context [broadcast ?d ?w1] =>
        exists w1; split; [reflexivity|]; split; [reflexivity|];
        right; exists d;
        destruct (broadcast_frame d w1) as (Hret & _);
        destruct (broadcast d w1) as [[r s2] t2]
    end.
    unfold result_of in Hret. simpl in Hret. subst r. reflexivity.
  - exists w. auto.
Qed.

Lemma on_close_detaches (ws : nat) (w : World) :
  ~ In ws (clients (state_of (on_close ws w))).
Proof. unfold on_close. step_body. simpl. apply remove_In. Qed.

Lemma on_error_detaches (ws : nat) (error : exn) (w : World) :
  ~ In ws (clients (state_of (on_error ws error w))).
Proof. unfold on_error. step_body. simpl. apply remove_In. Qed.
End ObserverFacts.

(** [this.clients] is a [Set]: it never lists a socket twice. *)
Section ClientSet.
Context {R : Runtime} {H O : Type} {P : Dashboard.Payload H O}.
Import Dashboard.
Local Abbreviation World := (World H O).

Lemma keeps_bind {A B : Type} (c : M World A) (k : A -> M World B) :
  keeps_clients c -> (forall a, keeps_clients (k a)) ->
  keeps_clients (bind c k).
Proof.
  intros Hc Hk w. unfold bind. specialize (Hc w).
  destruct (c w) as [[[a|e] w1] t1]; unfold state_of in *; simpl in *.
  - specialize (Hk a w1). destruct (k a w1) as [[r2 w2] t2].
    unfold state_of in *. simpl in *. congruence.
  - exact Hc.
Qed.

Lemma keeps_try {A : Type} (body : M World A) (handler : exn -> M World A) :
  keeps_clients body -> (forall e, keeps_clients (handler e)) ->
  keeps_clients (try_catch body handler).
Proof.
  intros Hb Hh w. unfold try_catch. specialize (Hb w).
  destruct (body w) as [[[a|e] w1] t1]; unfold state_of in *; simpl in *.
  - exact Hb.
  - specialize (Hh e w1). destruct (handler e w1) as [[r2 w2] t2].
    unfold state_of in *. simpl in *. congruence.
Qed.

Lemma keeps_for_each {A : Type} (xs : list A) (body : A -> M World unit) :
  (forall x, keeps_clients (body x)) -> keeps_clients (for_each xs body).
Proof.
  intros Hbody. induction xs as [|x xs IH]; simpl.
  - intros w. reflexivity.
  - apply keeps_bind; auto.
Qed.

Lemma keeps_send (ws : nat) (message : string) :
  keeps_clients (send ws message : M World unit).
Proof.
  intros w. unfold send.
  destruct (sends_left (sockets w ws)) as [[|n]|]; reflexivity.
Qed.

Lemma keeps_stamped_send (ws : nat) (mk : Z -> jsval) :
  keeps_clients
    (bind new_Date (fun d => send ws (JSON_stringify (mk d))) : M World unit).
Proof.
  apply keeps_bind; [intros w; reflexivity | intros d; apply keeps_send].
Qed.

Lemma replay_keeps_clients (ws : nat) :
  keeps_clients (sendCachedDataToClient ws : M World unit).
Proof.
  unfold sendCachedDataToClient.
  apply keeps_try; [|intros e w; reflexivity].
  apply keeps_bind; [intros w; reflexivity|]. intros w0.
  apply keeps_bind.
  { apply keeps_for_each. intros [n h]. apply keeps_stamped_send. }
  intros _. apply keeps_bind.
  { apply keeps_for_each. intros [n sub]. apply keeps_for_each.
    intros [e o]. apply keeps_stamped_send. }
  intros _. apply keeps_bind.
  { destruct (js_gt0 (totalMarkets w0)); intros w; reflexivity. }
  intros known. apply keeps_bind.
  { destruct known; [apply keeps_stamped_send|].
    intros w. reflexivity. }
  intros _ w. reflexivity.
Qed.

Lemma on_connection_nodup (ws : nat) (w : World) :
  NoDup (clients w) -> NoDup (clients (state_of (on_connection ws w))).
Proof.
  intros Hnd. unfold on_connection. step_body. unfold emit. simpl.
  match goal with
  | |- context [sendCachedDataToClient ws ?w1] =>
      pose proof (replay_keeps_clients ws w1) as E;
      destruct (sendCachedDataToClient ws w1) as [[r0 w0] t0]
  end.
  unfold state_of in *. simpl in *. rewrite E.
  destruct (in_dec Nat.eq_dec ws (clients w)) as [Hin|Hout]; [exact Hnd|].
  apply NoDup_app; [exact Hnd | repeat constructor; auto |].
  intros x Hx [<-|[]]. contradiction.
Qed.

Lemma on_close_nodup (ws : nat) (w : World) :
  NoDup (clients w) -> NoDup (clients (state_of (on_close ws w))).
Proof.
  intros Hnd. unfold on_close. step_body. simpl. now apply NoDup_remove_elt.
Qed.

Lemma on_error_nodup (ws : nat) (error : exn) (w : World) :
  NoDup (clients w) -> NoDup (clients (state_of (on_error ws error w))).
Proof.
  intros Hnd. unfold on_error. step_body. simpl. now apply NoDup_remove_elt.
Qed.
End ClientSet.

Lemma on_message_nodup `{Runtime} (channel message : string)
    (w : Dashboard.World jsobj jsobj) :
  NoDup (Dashboard.clients w) ->
  NoDup (Dashboard.clients (state_of (Dashboard.on_message channel message w))).
Proof.
  intros Hnd.
  destruct (dashboard_step_shape channel message w)
    as (w1 & Hc & _ & [E|[event E]]); rewrite E.
  - now rewrite Hc.
  - assert (Hnd1 : NoDup (Dashboard.clients w1)) by now rewrite Hc.
    destruct (broadcast_spec event w1 Hnd1) as [_ _ _ _ _ _ _ B8]. auto.
Qed.

(** C5, as amended.  [broadcast] returns to its caller for every client
    set and every event.  An attached client that is OPEN and whose
    [send] throws is removed from the client set; every attached client
    that is OPEN and whose [send] returns stays attached and gets the
    event, once, after what it had received; an attached client that is
    not OPEN gets nothing. *)
Theorem broadcast_tolerates_failures {R : Runtime} {H O : Type} (data : jsval)
    (w : Dashboard.World H O) :
  NoDup (Dashboard.clients w) ->
  let r := Dashboard.broadcast data w in
  result_of r = Ret tt /\
  (forall c, In c (Dashboard.clients w) ->
     Dashboard.fails (Dashboard.sockets w c) = true ->
     ~ In c (Dashboard.clients (state_of r))) /\
  (forall c, In c (Dashboard.clients w) ->
     Dashboard.delivers (Dashboard.sockets w c) = true ->
     In c (Dashboard.clients (state_of r)) /\
     Dashboard.received (Dashboard.sockets (state_of r) c) =
     Dashboard.received (Dashboard.sockets w c) ++ [JSON_stringify data]) /\
  (forall c, Dashboard.is_open (Dashboard.readyState (Dashboard.sockets w c))
             = false ->
     Dashboard.received (Dashboard.sockets (state_of r) c) =
     Dashboard.received (Dashboard.sockets w c)).
Proof.
  intros Hnd r. destruct (broadcast_spec data w Hnd) as [B1 B2 B3 B4 _ _ _ _].
  fold r in B1, B2, B3, B4.
  split; [exact B1|]. split; [|split].
  - intros c Hin Hf Hin'. apply B2 in Hin'. destruct Hin' as [_ Hf'].
    congruence.
  - intros c Hin Hd. split.
    + apply B2. split; [exact Hin|].
      unfold Dashboard.fails, Dashboard.delivers in *.
      destruct (Dashboard.is_open _), (Dashboard.exhausted _);
        simpl in *; congruence.
    + now rewrite (B3 c Hin Hd).
  - intros c Hst. rewrite B4; [reflexivity|].
    intros [_ Hd]. unfold Dashboard.delivers in Hd. rewrite Hst in Hd.
    discriminate.
Qed.

Lemma broadcast_tolerates_failures_witness :
  NoDup (Dashboard.clients Sample.crowd) /\
  let r := Dashboard.broadcast (VStr "tick") Sample.crowd in
  result_of r = Ret tt /\
  ~ In 1%nat (Dashboard.clients (state_of r)) /\
  Dashboard.received (Dashboard.sockets (state_of r) 3%nat) =
  [JSON_stringify (VStr "tick")].
Proof.
  assert (Hnd : NoDup (Dashboard.clients Sample.crowd)).
  { repeat constructor; simpl; intuition discriminate. }
  split; [exact Hnd|]. intros r.
  destruct (@broadcast_tolerates_failures Sample.runtime jsobj jsobj
              (VStr "tick") Sample.crowd Hnd) as (Hret & Hfail & Hok & _).
  split; [exact Hret|]. split.
  - apply Hfail; [simpl; auto | reflexivity].
  - destruct (Hok 3%nat) as [_ E]; [simpl; auto | reflexivity | exact E].
Defined.

(** C5 as stated fails: with a first client whose [send] throws, the
    second client, attached and CLOSING, is another attached observer
    and does not get the event. *)
Lemma closing_observer_misses_event :
  let data := VStr "tick" in
  let r := Dashboard.broadcast data Sample.crowd in
  Dashboard.fails (Dashboard.sockets Sample.crowd 1%nat) = true /\
  In 2%nat (Dashboard.clients Sample.crowd) /\
  In 2%nat (Dashboard.clients (state_of r)) /\
  ~ In (JSON_stringify data)
       (Dashboard.received (Dashboard.sockets (state_of r) 2%nat)).
Proof.
  vm_compute. repeat split; auto.
Qed.

(** C10.  [broadcast] leaves an attached client that is not OPEN in the
    client set and does not touch its socket; a client that [broadcast]
    removes was OPEN and its [send] threw.  The same holds for the
    processing of any bus message, so that such a client stays attached
    until [on_close] or [on_error] removes it. *)
Theorem non_open_client_stays_attached `{Runtime} (w : Dashboard.World jsobj jsobj) :
  NoDup (Dashboard.clients w) ->
  (forall data,
     let r := Dashboard.broadcast data w in
     (forall c, In c (Dashboard.clients w) ->
        Dashboard.is_open (Dashboard.readyState (Dashboard.sockets w c))
        = false ->
        In c (Dashboard.clients (state_of r)) /\
        Dashboard.sockets (state_of r) c = Dashboard.sockets w c) /\
     (forall c, In c (Dashboard.clients w) ->
        ~ In c (Dashboard.clients (state_of r)) ->
        Dashboard.fails (Dashboard.sockets w c) = true)) /\
  (forall channel message c,
     In c (Dashboard.clients w) ->
     Dashboard.is_open (Dashboard.readyState (Dashboard.sockets w c)) = false ->
     In c (Dashboard.clients
             (state_of (Dashboard.on_message channel message w)))) /\
  (forall c, ~ In c (Dashboard.clients (state_of (Dashboard.on_close c w)))) /\
  (forall c error,
     ~ In c (Dashboard.clients (state_of (Dashboard.on_error c error w)))).
Proof.
  intros Hnd.
  assert (Hskip : forall (c : nat) k,
             Dashboard.is_open (Dashboard.readyState k) = false ->
             Dashboard.fails k = false /\ Dashboard.delivers k = false).
  { intros c k Hst. unfold Dashboard.fails, Dashboard.delivers.
    rewrite Hst. auto. }
  split; [|split; [|split]].
  - intros data r.
    destruct (broadcast_spec data w Hnd) as [_ B2 _ B4 _ _ _ _].
    fold r in B2, B4. split.
    + intros c Hin Hst. destruct (Hskip c _ Hst) as [Hf Hd]. split.
      * apply B2. auto.
      * apply B4. intros [_ Hd']. congruence.
    + intros c Hin Hout.
      destruct (Dashboard.fails (Dashboard.sockets w c)) eqn:Hf; [reflexivity|].
      exfalso. apply Hout. apply B2. auto.
  - intros channel message c Hin Hst.
    destruct (dashboard_step_shape channel message w)
      as (w1 & Hc & Hs & [E|[event E]]); rewrite E.
    + now rewrite Hc.
    + assert (Hnd1 : NoDup (Dashboard.clients w1)) by now rewrite Hc.
      destruct (broadcast_spec event w1 Hnd1) as [_ B2 _ _ _ _ _ _].
      apply B2. rewrite Hc, Hs. split; [exact Hin|].
      now destruct (Hskip c _ Hst).
  - intros c. apply on_close_detaches.
  - intros c error. apply on_error_detaches.
Qed.

Lemma non_open_client_stays_attached_witness :
  NoDup (Dashboard.clients Sample.crowd) /\
  In 2%nat (Dashboard.clients
              (state_of (Dashboard.on_message "metrics:10.0.0.1"
                           Sample.health_message Sample.crowd))).
Proof.
  assert (Hnd : NoDup (Dashboard.clients Sample.crowd)).
  { repeat constructor; simpl; intuition discriminate. }
  split; [exact Hnd|].
  destruct (@non_open_client_stays_attached Sample.runtime Sample.crowd Hnd)
    as (_ & Hstay & _).
  apply Hstay; [simpl; auto | reflexivity].
Defined.

(** * Properties of the cold-start replay *)

Lemma flat_map_singleton {A B : Type} (f : A -> B) (l : list A) :
  flat_map (fun x => [f x]) l = map f l.
Proof. induction l as [|x l IH]; simpl; [reflexivity | now rewrite IH]. Qed.

Lemma all_distinct_app {A : Type} (same : A -> A -> bool) (l1 l2 : list A) :
  all_distinct same l1 -> all_distinct same l2 ->
  (forall a b, In a l1 -> In b l2 -> same a b = false) ->
  all_distinct same (l1 ++ l2).
Proof.
  induction l1 as [|x l1 IH]; simpl; [auto|].
  intros [Hx Hl1] Hl2 Hcross. split.
  - intros b Hb. apply in_app_or in Hb. destruct Hb; auto.
  - apply IH; auto.
Qed.

Section ReplayFacts.
Context {R : Runtime} {H O : Type} {P : Dashboard.Payload H O}.
Import Dashboard.
Local Abbreviation World := (World H O).

Lemma stamped_app (t : Z) (xs ys : list entity) :
  stamped t (xs ++ ys) =
  stamped t xs ++ stamped (Nat.iter (List.length xs) elapse t) ys.
Proof.
  revert t. induction xs as [|x xs IH]; intros t; [reflexivity|].
  cbn [stamped app List.length]. rewrite IH.
  now rewrite Nat.iter_succ_r.
Qed.

Lemma stamped_length (t : Z) (xs : list entity) :
  List.length (stamped t xs) = List.length xs.
Proof.
  revert t. induction xs as [|x xs IH]; intros t; simpl; [reflexivity|].
  now rewrite IH.
Qed.

Lemma quota_le (n : nat) (k : Socket) : (quota n k <= n)%nat.
Proof. unfold quota. destruct (sends_left k); lia. Qed.

Lemma quota_affords (n : nat) (k : Socket) :
  quota n k = n <-> affords n k.
Proof. unfold quota, affords. destruct (sends_left k); [lia | tauto]. Qed.

Lemma attempted_quiet (ws : nat) (final : outcome unit)
    (trace : list effect) (w : World) :
  attempted ws [] final trace w (final, w, trace).
Proof.
  assert (Hq : quota 0 (sockets w ws) = 0%nat)
    by (pose proof (quota_le 0 (sockets w ws)); lia).
  constructor; unfold result_of, state_of, trace_of; cbn [List.length fst snd];
    rewrite ?Hq; auto using same_cache_refl.
  - simpl. now rewrite app_nil_r.
  - destruct (sends_left (sockets w ws)); simpl; [f_equal; lia | reflexivity].
Qed.

Lemma attempted_send (ws : nat) (x : entity) (w : World) :
  attempted ws [x] (Ret tt) [] w
    (bind new_Date (fun d => send ws (JSON_stringify (event_of x d))) w).
Proof.
  unfold bind, new_Date, send. cbn [sockets with_now sends_left].
  destruct (sends_left (sockets w ws)) as [[|n]|] eqn:E.
  - assert (Hq : quota 1 (sockets w ws) = 0%nat)
      by (unfold quota; now rewrite E).
    constructor; unfold result_of, state_of, trace_of;
      cbn [fst snd sockets with_now clients now List.length];
      rewrite ?Hq; auto; try discriminate.
    + simpl. now rewrite app_nil_r.
    + now rewrite E.
    + now repeat split.
  - assert (Hq : quota 1 (sockets w ws) = 1%nat)
      by (unfold quota; rewrite E; lia).
    constructor; unfold result_of, state_of, trace_of;
      cbn [fst snd sockets with_now with_sockets clients now List.length];
      rewrite ?Hq, ?Nat.eqb_refl; auto.
    + cbn [accept sends_left]. rewrite E. simpl. f_equal. lia.
    + intros c Hc. apply Nat.eqb_neq in Hc. now rewrite Hc.
    + now repeat split.
  - assert (Hq : quota 1 (sockets w ws) = 1%nat)
      by (unfold quota; now rewrite E).
    constructor; unfold result_of, state_of, trace_of;
      cbn [fst snd sockets with_now with_sockets clients now List.length];
      rewrite ?Hq, ?Nat.eqb_refl; auto.
    + cbn [accept sends_left]. now rewrite E.
    + intros c Hc. apply Nat.eqb_neq in Hc. now rewrite Hc.
    + now repeat split.
Qed.

Lemma attempted_bind (ws : nat) (e1 e2 : list entity) (final : outcome unit)
    (t2 : list effect) (c1 c2 : M World unit) (w : World) :
  attempted ws e1 (Ret tt) [] w (c1 w) ->
  (forall w1, attempted ws e2 final t2 w1 (c2 w1)) ->
  attempted ws (e1 ++ e2) final t2 w (bind c1 (fun _ => c2) w).
Proof.
  intros [A1 A2 A3 A4 A5 A6 A7 A8] Hnext. unfold bind.
  destruct (c1 w) as [[r1 w1] tr1].
  unfold result_of, state_of, trace_of in *. cbn [fst snd] in *.
  set (n1 := List.length e1) in *. set (n2 := List.length e2).
  set (k := sockets w ws) in *.
  assert (Htr : tr1 = []) by (rewrite A2; now destruct (Nat.eqb _ _)).
  subst tr1.
  destruct (Nat.eqb (quota n1 k) n1) eqn:Eq.
  - apply Nat.eqb_eq in Eq. subst r1. specialize (A5 Eq).
    destruct (Hnext w1) as [B1 B2 B3 B4 B5 B6 B7 B8].
    destruct (c2 w1) as [[r2 w2] tr2].
    unfold result_of, state_of, trace_of in *. cbn [fst snd] in *.
    fold n2 in B1, B2, B3, B4, B5.
    set (q2 := quota n2 (sockets w1 ws)) in *.
    assert (Hq : quota (n1 + n2) k = (n1 + q2)%nat).
    { subst q2. unfold quota in *. rewrite A4.
      destruct (sends_left k); simpl; lia. }
    assert (Hb : Nat.eqb (n1 + q2) (n1 + n2) = Nat.eqb q2 n2).
    { destruct (Nat.eqb q2 n2) eqn:E2.
      - apply Nat.eqb_eq in E2. apply Nat.eqb_eq. lia.
      - apply Nat.eqb_neq in E2. apply Nat.eqb_neq. lia. }
    constructor; unfold result_of, state_of, trace_of; cbn [fst snd app];
      rewrite ?length_app; fold n1 n2 k; rewrite ?Hq, ?Hb.
    + exact B1.
    + exact B2.
    + rewrite B3, A3, Eq, A5, stamped_app. fold n1.
      pose proof (stamped_length (now w) e1) as Hlen. fold n1 in Hlen.
      replace (firstn n1 (stamped (now w) e1)) with (stamped (now w) e1)
        by (rewrite <- Hlen; now rewrite firstn_all).
      rewrite <- Hlen at 2. rewrite firstn_app_2, map_app.
      now rewrite app_assoc.
    + rewrite B4, A4, Eq. destruct (sends_left k); simpl; [f_equal; lia|auto].
    + intros Hall. rewrite B5 by lia. rewrite A5.
      rewrite Nat.add_comm. symmetry. apply Nat.iter_add.
    + intros c Hc. now rewrite B6, A6.
    + congruence.
    + eapply same_cache_trans; eassumption.
  - apply Nat.eqb_neq in Eq. subst r1.
    pose proof (quota_le n1 k) as Hle.
    assert (Hq : quota (n1 + n2) k = quota n1 k).
    { unfold quota in *. destruct (sends_left k); lia. }
    assert (Hb : Nat.eqb (quota n1 k) (n1 + n2) = false)
      by (apply Nat.eqb_neq; lia).
    constructor; unfold result_of, state_of, trace_of; cbn [fst snd app];
      rewrite ?length_app; fold n1 n2 k; rewrite ?Hq, ?Hb; auto.
    + rewrite A3, stamped_app, firstn_app, stamped_length. fold n1.
      replace (quota n1 k - n1)%nat with 0%nat by lia.
      simpl. now rewrite app_nil_r.
    + intros Hall. lia.
Qed.

Lemma attempted_loop {A : Type} (ws : nat) (xs : list A)
    (body : A -> M World unit) (ents : A -> list entity) :
  (forall x w, attempted ws (ents x) (Ret tt) [] w (body x w)) ->
  forall w, attempted ws (flat_map ents xs) (Ret tt) [] w (for_each xs body w).
Proof.
  intros Hbody. induction xs as [|x xs IH]; intros w.
  - apply attempted_quiet.
  - cbn [flat_map for_each]. apply attempted_bind; [apply Hbody | exact IH].
Qed.

Lemma affords_le (n m : nat) (k : Socket) :
  (m <= n)%nat -> affords n k -> affords m k.
Proof. unfold affords. destruct (sends_left k); [lia | auto]. Qed.

Lemma snapshot_length (w : World) :
  List.length (snapshot w) = entity_count w.
Proof.
  unfold snapshot, entity_count. rewrite !length_app, length_map.
  rewrite Nat.add_assoc. f_equal; [f_equal|].
  - induction (orderbooksByNode w) as [|node nodes IH]; simpl; [reflexivity|].
    rewrite length_app, IH. unfold node_entities. now rewrite length_map.
  - now destruct (positive (totalMarkets w)).
Qed.

(** The body of the [try] of the replay, whatever the socket does. *)
Lemma replay_attempted (ws : nat) (w : World) :
  attempted ws (snapshot w) (replay_end (totalMarkets w))
    (replay_log (totalMarkets w))
    w (bind get_state (fun w0 : World =>
         bind (for_each (healthData w0) (fun '(nodeId, healthData) =>
                 bind new_Date (fun d =>
                   send ws (JSON_stringify
                              (health_update nodeId (health_js healthData) d)))))
           (fun _ =>
         bind (for_each (orderbooksByNode w0) (fun '(nodeId, nodeOrderbooks) =>
                 for_each nodeOrderbooks (fun '(eventId, orderbookData) =>
                   bind new_Date (fun d =>
                     send ws
                       (JSON_stringify
                          (orderbook_update eventId nodeId
                             (marketA_js orderbookData)
                             (marketB_js orderbookData) d))))))
           (fun _ =>
         bind (lift (js_gt0 (totalMarkets w0)))
           (fun known =>
         bind (if known then
                 bind new_Date (fun d =>
                   send ws (JSON_stringify
                              (market_discovery (totalMarkets w0) d)))
               else ret tt)
           (fun _ => console_log "Sent cached data to new client" []))))) w).
Proof.
  unfold bind at 1, get_state.
  match goal with
  | |- attempted _ _ _ _ _ (let (_, _) := ?c w in _) =>
      assert (Hc : attempted ws (snapshot w) (replay_end (totalMarkets w))
                     (replay_log (totalMarkets w)) w (c w));
      [|destruct (c w) as [[r0 w0] t0]; exact Hc]
  end.
  unfold snapshot.
  apply attempted_bind.
  { rewrite <- flat_map_singleton. apply attempted_loop.
    intros [nodeId health] w1. apply attempted_send. }
  intros w1. apply attempted_bind.
  { apply attempted_loop. intros [nodeId sub] w2. unfold node_entities.
    cbn [fst snd]. rewrite <- flat_map_singleton. apply attempted_loop.
    intros [eventId book] w3. apply attempted_send. }
  intros w2. unfold positive, replay_end, replay_log.
  destruct (js_gt0 (totalMarkets w)) as [e|[|]].
  - apply attempted_quiet.
  - unfold bind at 1, lift, ret.
    match goal with
    | |- attempted _ _ _ _ _ (let (_, _) := ?c w2 in _) =>
        assert (Hc : attempted ws ([TotalsOf (totalMarkets w)] ++ []) (Ret tt)
                       [ConsoleLog "Sent cached data to new client" []]
                       w2 (c w2));
        [|destruct (c w2) as [[r0 w0] t0]; exact Hc]
    end.
    apply attempted_bind; [apply attempted_send|].
    intros w3. apply attempted_quiet.
  - unfold bind, lift, ret, console_log, emit. apply attempted_quiet.
Qed.

(** The whole replay, with its [catch]. *)
Lemma replay_caught (ws : nat) (w : World) :
  exists w' trace,
    sendCachedDataToClient ws w = (Ret tt, w', trace) /\
    attempted ws (snapshot w) (replay_end (totalMarkets w))
      (replay_log (totalMarkets w)) w
      (if Nat.eqb (quota (entity_count w) (sockets w ws)) (entity_count w)
       then replay_end (totalMarkets w) else Throw SendError,
       w',
       if Nat.eqb (quota (entity_count w) (sockets w ws)) (entity_count w)
       then replay_log (totalMarkets w) else []) /\
    trace =
      if Nat.eqb (quota (entity_count w) (sockets w ws)) (entity_count w)
      then match js_gt0 (totalMarkets w) with
           | inl e => [ConsoleError "Error sending cached data to client" e]
           | inr _ => [ConsoleLog "Sent cached data to new client" []]
           end
      else [ConsoleError "Error sending cached data to client" SendError].
Proof.
  pose proof (replay_attempted ws w) as Hatt.
  pose proof (snapshot_length w) as Hlen.
  match type of Hatt with
  | attempted _ _ _ _ _ (?b w) => set (body := b) in *
  end.
  change (sendCachedDataToClient ws w)
    with (try_catch body
            (fun e => console_error "Error sending cached data to client" e)
            w).
  unfold try_catch.
  assert (Hshape : body w =
            (result_of (body w), state_of (body w), trace_of (body w)))
    by now destruct (body w) as [[r0 w0] t0].
  destruct Hatt as [A1 A2 A3 A4 A5 A6 A7 A8].
  rewrite Hlen in *.
  set (through := Nat.eqb (quota (entity_count w) (sockets w ws))
                    (entity_count w)) in *.
  assert (Hatt' : attempted ws (snapshot w) (replay_end (totalMarkets w))
            (replay_log (totalMarkets w)) w
            (if through then replay_end (totalMarkets w) else Throw SendError,
             state_of (body w),
             if through then replay_log (totalMarkets w) else [])).
  { constructor; unfold result_of, state_of, trace_of; cbn [fst snd];
      rewrite ?Hlen; fold through; auto. }
  rewrite Hshape, A1, A2. revert Hatt'.
  unfold replay_end, replay_log.
  destruct through; [destruct (js_gt0 (totalMarkets w)) as [e|known]|];
    intros Hatt'; unfold console_error, emit; cbn [app];
    do 2 eexists; (split; [reflexivity|]); (split; [exact Hatt'|]);
    reflexivity.
Qed.

(** The whole replay, when the socket lets every [send] of it return. *)
Lemma replay_complete (ws : nat) (w : World) :
  affords (entity_count w) (sockets w ws) ->
  exists trace,
    replayed ws (snapshot w) trace w (sendCachedDataToClient ws w).
Proof.
  intros Hb.
  destruct (replay_caught ws w) as (w' & trace & E & Hatt & _).
  destruct Hatt as [_ _ A3 A4 A5 A6 A7 A8].
  unfold state_of in *. cbn [fst snd] in *.
  pose proof (snapshot_length w) as Hlen. rewrite Hlen in *.
  assert (Hq : quota (entity_count w) (sockets w ws) = entity_count w)
    by now apply quota_affords.
  rewrite Hq in *.
  exists trace. rewrite E.
  constructor; unfold result_of, state_of, trace_of; cbn [fst snd];
    rewrite ?Hlen; auto.
  - rewrite A3. do 2 f_equal. rewrite <- Hlen, <- (stamped_length (now w)).
    apply firstn_all.
  - intros m Hm. unfold affords in *. rewrite A4.
    destruct (sends_left (sockets w ws)); simpl; [lia | exact I].
Qed.

(** [broadcast] only adds to what a socket has received. *)
Lemma deliver_loop_appends (message : string) (todo : list nat) (w : World)
    (c : nat) :
  exists tail,
    received (sockets (state_of (for_each todo (deliver_to message) w)) c) =
    received (sockets w c) ++ tail.
Proof.
  revert w. induction todo as [|c1 todo IH]; intros w; simpl.
  - exists []. now rewrite app_nil_r.
  - unfold bind.
    destruct (socket_cases (sockets w c1)) as [[(Hst & Hf & Hd)|(Hf & Hd)]|(Hd & Hf)].
    + rewrite (deliver_to_skip message c1 w Hst).
      destruct (IH w) as [tail E].
      destruct (for_each todo (deliver_to message) w) as [[r s2] t2].
      exists tail. exact E.
    + rewrite (deliver_to_fail message c1 w Hf).
      destruct (IH (with_clients (remove Nat.eq_dec c1 (clients w)) w))
        as [tail E].
      destruct (for_each todo (deliver_to message) _) as [[r s2] t2].
      exists tail. exact E.
    + rewrite (deliver_to_accept message c1 w Hd).
      match goal with
      | |- context [for_each todo (deliver_to message) ?w1] =>
          destruct (IH w1) as [tail E];
          destruct (for_each todo (deliver_to message) w1) as [[r s2] t2]
      end.
      unfold state_of in *. simpl in *. rewrite E.
      destruct (Nat.eqb c c1).
      * unfold accept. simpl. rewrite <- app_assoc. eauto.
      * eauto.
Qed.

Lemma broadcast_appends (data : jsval) (w : World) (c : nat) :
  exists tail,
    received (sockets (state_of (broadcast data w)) c) =
    received (sockets w c) ++ tail.
Proof.
  unfold broadcast. step_body. unfold emit.
  destruct (deliver_loop_appends (JSON_stringify data) (clients w) w c)
    as [tail E].
  destruct (for_each (clients w) (deliver_to (JSON_stringify data)) w)
    as [[r s2] t2].
  exists tail. exact E.
Qed.

(** The entities of a store whose maps have no repeated key are
    pairwise distinct. *)
Lemma has_false_in {K V : Type} (keq : K -> K -> bool) (k : K)
    (m : list (K * V)) :
  JsMap.has keq k m = false ->
  forall k' v, In (k', v) m -> keq k k' = false.
Proof.
  induction m as [|[k1 v1] m IH]; simpl; [tauto|].
  destruct (keq k k1) eqn:E; [discriminate|].
  intros Hm k' v [Heq|Hin]; [injection Heq as <- <-; exact E | eauto].
Qed.

Lemma health_entities_distinct (m : list (string * H)) :
  JsMap.uniq String.eqb m ->
  all_distinct same_entity
    (map (fun e => HealthOf (fst e) (health_js (snd e))) m).
Proof.
  induction m as [|[n h] m IH]; simpl; [auto|].
  intros [Hn Hm]. split; [|auto].
  intros b Hb. apply in_map_iff in Hb. destruct Hb as ([n' h'] & <- & Hin).
  simpl. eapply has_false_in; eauto.
Qed.

Lemma node_entities_distinct (nodeId : jsval) (sub : list (jsval * O)) :
  JsMap.uniq same_value_zero sub ->
  all_distinct same_entity (node_entities (nodeId, sub)).
Proof.
  unfold node_entities. simpl.
  induction sub as [|[e o] sub IH]; simpl; [auto|].
  intros [He Hsub]. split; [|auto].
  intros b Hb. apply in_map_iff in Hb. destruct Hb as ([e' o'] & <- & Hin).
  simpl. rewrite (has_false_in _ _ _ He _ _ Hin). apply andb_false_r.
Qed.

Lemma book_entities_distinct (nodes : books O) :
  uniq_books nodes ->
  all_distinct same_entity (flat_map node_entities nodes).
Proof.
  unfold uniq_books.
  induction nodes as [|[n sub] nodes IH]; simpl; [auto|].
  intros [[Hn Hnodes] Hsubs]. apply all_distinct_app.
  - apply node_entities_distinct. eapply Hsubs. left. reflexivity.
  - apply IH. split; [exact Hnodes|]. intros n' s' Hin. eapply Hsubs.
    right. exact Hin.
  - intros a b Ha Hb. unfold node_entities in Ha. simpl in Ha.
    apply in_map_iff in Ha. destruct Ha as ([e o] & <- & _).
    apply in_flat_map in Hb. destruct Hb as ([n' s'] & Hin & Hb).
    unfold node_entities in Hb. simpl in Hb.
    apply in_map_iff in Hb. destruct Hb as ([e' o'] & <- & _).
    simpl. now rewrite (has_false_in _ _ _ Hn _ _ Hin).
Qed.

Lemma snapshot_distinct (w : World) :
  JsMap.uniq String.eqb (healthData w) ->
  uniq_books (orderbooksByNode w) ->
  all_distinct same_entity (snapshot w).
Proof.
  intros Hh Hb. unfold snapshot. apply all_distinct_app.
  - now apply health_entities_distinct.
  - apply all_distinct_app.
    + now apply book_entities_distinct.
    + destruct (positive (totalMarkets w)); simpl; [|exact I].
      split; [intros b []|exact I].
    + intros a b Ha Hb'. apply in_flat_map in Ha.
      destruct Ha as ([n s'] & _ & Ha). unfold node_entities in Ha.
      apply in_map_iff in Ha. destruct Ha as ([e o] & <- & _).
      destruct (positive (totalMarkets w)); simpl in Hb'; [|tauto].
      destruct Hb' as [<-|[]]. reflexivity.
  - intros a b Ha Hb'. apply in_map_iff in Ha.
    destruct Ha as ([n h] & <- & _). apply in_app_or in Hb'.
    destruct Hb' as [Hb'|Hb'].
    + apply in_flat_map in Hb'. destruct Hb' as ([n' s'] & _ & Hb').
      unfold node_entities in Hb'. apply in_map_iff in Hb'.
      destruct Hb' as ([e o] & <- & _). reflexivity.
    + destruct (positive (totalMarkets w)); simpl in Hb'; [|tauto].
      destruct Hb' as [<-|[]]. reflexivity.
Qed.
End ReplayFacts.

Section StoreInvariant.
Context {O : Type}.

Lemma in_alter {K V : Type} (keq : K -> K -> bool) (f : V -> V) (k : K)
    (m : list (K * V)) (k' : K) (v' : V) :
  In (k', v') (JsMap.alter keq f k m) ->
  In (k', v') m \/ exists v, In (k', v) m /\ v' = f v.
Proof.
  induction m as [|[k1 v1] m IH]; simpl; [tauto|].
  destruct (keq k k1); simpl.
  - intros [Heq|Hin]; [injection Heq as <- <-; right; eauto | auto].
  - intros [Heq|Hin]; [auto|].
    destruct (IH Hin) as [Hm|(v & Hm & E)]; [auto | right; eauto].
Qed.

Lemma uniq_books_cache (nodeId eventId : jsval) (record : O) (nodes : books O) :
  uniq_books nodes -> uniq_books (cache_orderbook nodeId eventId record nodes).
Proof.
  intros [Hn Hs]. unfold cache_orderbook.
  destruct (JsMap.has same_value_zero nodeId nodes) eqn:Ehas.
  - split.
    + eapply uniq_keys; [symmetry; apply keys_alter | exact Hn].
    + intros n sub Hin. apply in_alter in Hin.
      destruct Hin as [Hin|(sub0 & Hin & ->)]; [eauto|].
      apply uniq_set; [apply same_value_zero_sym | eauto].
  - split.
    + apply uniq_snoc; auto using same_value_zero_sym.
    + intros n sub Hin. apply in_app_or in Hin.
      destruct Hin as [Hin|[Heq|[]]]; [eauto|].
      injection Heq as <- <-. simpl. auto.
Qed.
End StoreInvariant.

Section DashboardInvariant.
Context `{Runtime}.
Import Dashboard.

Lemma dashboard_books_uniq (t : Z) (channel message : string)
    (w : World jsobj jsobj) :
  uniq_books (orderbooksByNode w) ->
  uniq_books (orderbooksByNode (deliver t channel message w)).
Proof.
  intros Hu. unfold deliver, on_message.
  set (w0 := with_now (Z.max (now w) t) w).
  change (orderbooksByNode w) with (orderbooksByNode w0) in Hu.
  destruct (topic_of channel) as [nodeId| |eventId| |].
  - destruct (dashboard_health_effect nodeId message w0) as (E & _).
    now rewrite E.
  - destruct (dashboard_orderbook_effect message w0)
      as (_ & _ & [E|(n & e & r & E)]); rewrite E; [auto|].
    now apply uniq_books_cache.
  - destruct (dashboard_status_effect eventId message w0)
      as (_ & _ & [E|E]); rewrite E; [auto|].
    now apply uniq_books_after_removal.
  - destruct (dashboard_discovery_effect message w0) as (_ & E).
    now rewrite E.
  - exact Hu.
Qed.

(** Every state the server reaches from its constructor through bus
    messages has one health record per node and one order book per
    node and market. *)
Lemma dashboard_store_uniq (events : list (Z * string * string))
    (w : World jsobj jsobj) :
  JsMap.uniq String.eqb (healthData w) /\ uniq_books (orderbooksByNode w) ->
  JsMap.uniq String.eqb (healthData (run events w)) /\
  uniq_books (orderbooksByNode (run events w)).
Proof.
  revert w. induction events as [|[[t c] m] events IH]; intros w [Hh Hb];
    simpl; [auto|].
  apply IH. split; [now apply dashboard_health_uniq|].
  now apply dashboard_books_uniq.
Qed.
End DashboardInvariant.

(** C3, as amended.  When a client attaches to a server whose store
    holds K entities (health records, order books, and the total market
    count when it is greater than 0, the test of the replay) and no
    [send] to that client throws during the replay, the client is
    attached and receives K messages after what it had received: the
    health records, then the order books node by node, then the total
    if it is greater than 0, each entity of the store once; what
    [broadcast] sends later comes after them. *)
Theorem replay_on_attach {R : Runtime} {H O : Type} {P : Dashboard.Payload H O}
    (ws : nat) (w : Dashboard.World H O) :
  affords (entity_count w) (Dashboard.sockets w ws) ->
  let r := Dashboard.on_connection ws w in
  let replay := map JSON_stringify (stamped (Dashboard.now w) (snapshot w)) in
  result_of r = Ret tt /\
  In ws (Dashboard.clients (state_of r)) /\
  Dashboard.received (Dashboard.sockets (state_of r) ws) =
    Dashboard.received (Dashboard.sockets w ws) ++ replay /\
  List.length replay = entity_count w /\
  (JsMap.uniq String.eqb (Dashboard.healthData w) ->
   uniq_books (Dashboard.orderbooksByNode w) ->
   all_distinct same_entity (snapshot w)) /\
  (forall data, exists live,
     Dashboard.received
       (Dashboard.sockets
          (state_of (Dashboard.broadcast data (state_of r))) ws) =
     (Dashboard.received (Dashboard.sockets w ws) ++ replay) ++ live).
Proof.
  intros Hb r replay.
  set (w1 := Dashboard.with_clients
               (if in_dec Nat.eq_dec ws (Dashboard.clients w)
                then Dashboard.clients w
                else Dashboard.clients w ++ [ws]) w).
  destruct (replay_complete ws w1 Hb) as [trace [A1 A2 A3 A4 _ _ A7 _]].
  assert (Er : r = (result_of (Dashboard.sendCachedDataToClient ws w1),
                    state_of (Dashboard.sendCachedDataToClient ws w1),
                    ConsoleLog "New client connected" []
                      :: trace_of (Dashboard.sendCachedDataToClient ws w1))).
  { subst r. unfold Dashboard.on_connection. step_body. unfold emit. simpl.
    fold w1. destruct (Dashboard.sendCachedDataToClient ws w1) as [[r0 s0] t0].
    reflexivity. }
  assert (Hrecv : Dashboard.received (Dashboard.sockets (state_of r) ws) =
                  Dashboard.received (Dashboard.sockets w ws) ++ replay).
  { rewrite Er. unfold state_of at 1. simpl. exact A3. }
  split; [rewrite Er; exact A1|]. split; [|split; [exact Hrecv|split; [|split]]].
  - rewrite Er. unfold state_of at 1. simpl. rewrite A7. subst w1. simpl.
    destruct (in_dec Nat.eq_dec ws (Dashboard.clients w)); [auto|].
    apply in_or_app. right. left. reflexivity.
  - subst replay. rewrite length_map, stamped_length. apply snapshot_length.
  - apply snapshot_distinct.
  - intros data. rewrite <- Hrecv. apply broadcast_appends.
Qed.

Lemma replay_on_attach_witness :
  affords (entity_count Sample.cached) (Dashboard.sockets Sample.cached 3%nat) /\
  List.length
    (Dashboard.received
       (Dashboard.sockets
          (state_of (Dashboard.on_connection 3%nat Sample.cached)) 3%nat))
  = entity_count Sample.cached.
Proof.
  assert (Hb : affords (entity_count Sample.cached)
                 (Dashboard.sockets Sample.cached 3%nat))
    by (vm_compute; exact I).
  split; [exact Hb|].
  destruct (@replay_on_attach Sample.runtime jsobj jsobj _ 3%nat Sample.cached
              Hb) as (_ & _ & Hrecv & Hlen & _).
  rewrite Hrecv. rewrite length_app. rewrite Hlen. reflexivity.
Defined.

(** C3 as stated fails in two ways.  A total that is known and is 0 is
    not replayed: a server with one health record that was told
    [totalMarkets: 0] by the bus holds two entities, and a client whose
    socket lets every [send] return receives one message, the health
    record.  And a [send] that throws ends the replay: with a health
    record and an order book in the store, a client whose second [send]
    throws is attached and has received one message, not two. *)
Lemma known_zero_total_not_replayed :
  (let w := Sample.told_zero in
   let r := Dashboard.on_connection 5%nat w in
   Dashboard.totalMarkets w = VNum 0 /\
   List.length (Dashboard.healthData w) = 1%nat /\
   Dashboard.sends_left (Dashboard.sockets w 5%nat) = None /\
   trace_of r = [ConsoleLog "New client connected" [];
                 ConsoleLog "Sent cached data to new client" []] /\
   List.length (Dashboard.received (Dashboard.sockets (state_of r) 5%nat))
   = 1%nat) /\
  (let r := Dashboard.on_connection 7%nat Sample.cached in
   entity_count Sample.cached = 2%nat /\
   In 7%nat (Dashboard.clients (state_of r)) /\
   Dashboard.received (Dashboard.sockets Sample.cached 7%nat) = [] /\
   List.length (Dashboard.received (Dashboard.sockets (state_of r) 7%nat))
   <> entity_count Sample.cached).
Proof.
  split.
  - vm_compute. repeat split; reflexivity.
  - vm_compute. repeat split; auto. discriminate.
Qed.

(** * Properties of the degraded-mode generator *)

Lemma clamp_percent_range (x : Q) : percent (Demo.clamp_percent x).
Proof.
  unfold percent, Demo.clamp_percent. split.
  - apply Q.le_max_l.
  - apply Q.max_lub; [discriminate | apply Q.le_min_l].
Qed.

Lemma unit_step_cases (r : Q) : Demo.unit_step r = 1 \/ Demo.unit_step r = -1.
Proof. unfold Demo.unit_step. destruct (Demo.Qltb 0.5 r); auto. Qed.

Lemma list_sum_ones {A : Type} (l : list A) :
  list_sum (map (fun _ => 1%nat) l) = List.length l.
Proof. induction l as [|x l IH]; simpl; [reflexivity | now rewrite IH]. Qed.

Lemma list_sum_twos {A : Type} (l : list A) :
  list_sum (map (fun _ => 2%nat) l) = (2 * List.length l)%nat.
Proof. induction l as [|x l IH]; simpl; [reflexivity | rewrite IH; lia]. Qed.

Lemma threaded_in {A B : Type} (cost : A -> nat)
    (rel : nat -> A -> B -> Prop) (xs : list A) :
  forall (k : nat) (ys : list B) (y : B),
    threaded cost rel k xs ys -> In y ys ->
    exists k' x, In x xs /\ rel k' x y.
Proof.
  induction xs as [|x xs IH]; intros k [|y' ys] y Hall Hin;
    simpl in Hall; try contradiction.
  destruct Hall as [Hy Hrest]. destruct Hin as [<-|Hin].
  - exists k, x. split; [now left | exact Hy].
  - destruct (IH _ _ _ Hrest Hin) as (k' & x' & Hx' & Hrel).
    exists k', x'. split; [now right | exact Hrel].
Qed.

Section DemoFacts.
Context `{Runtime}.
Import Dashboard Demo.
Local Abbreviation World := (World Health Orderbook).

Lemma map_m_yields {A B : Type} (rel : A -> B -> Prop) (f : A -> M World B) :
  yields rel f -> yields (Forall2 rel) (map_m f).
Proof.
  intros Hf xs. induction xs as [|x xs IH]; intros w; simpl.
  - exists [], w, []. repeat split. constructor.
  - unfold bind.
    destruct (Hf x w) as (y & w1 & t1 & E1 & Hy & F1 & F2). rewrite E1.
    destruct (IH w1) as (ys & w2 & t2 & E2 & Hys & G1 & G2). rewrite E2.
    unfold ret. simpl. do 3 eexists. split; [reflexivity|].
    split; [now constructor|]. split; congruence.
Qed.

Lemma perturb_health_step :
  yields (fun e e' => fst e' = fst e /\ health_step (snd e) (snd e'))
    perturb_health.
Proof.
  intros [nodeId health] w. unfold perturb_health, bind, random, new_Date.
  simpl.
  match goal with
  | |- context [broadcast ?d ?w1] =>
      destruct (broadcast_frame d w1) as (Hret & (F1 & F2 & _) & _);
      destruct (broadcast d w1) as [[r s2] t2]
  end.
  unfold result_of, state_of in *. simpl in *. subst r. unfold ret. simpl.
  do 3 eexists. split; [reflexivity|]. split; [|split; assumption].
  simpl. split; [reflexivity|].
  unfold health_step. simpl.
  split; [|repeat split; try apply clamp_percent_range].
  destruct (Math_random_range (draws w)) as [L1 U1].
  destruct (Math_random_range (S (draws w))) as [L2 U2].
  exists ((Math_random (draws w) - 0.5) * 10)%Q,
         ((Math_random (S (draws w)) - 0.5) * 5)%Q.
  repeat split; try reflexivity; lra.
Qed.

Lemma perturb_bids_step (a : Side) (w : World) :
  exists a' w' trace,
    perturb_bids a w = (Ret a', w', trace) /\
    (levels_step (bids a) (bids a') (bestBid a) (bestBid a') /\
     asks a' = asks a /\ bestAsk a' = bestAsk a /\
     marketId a' = marketId a /\ totalOrders a' = totalOrders a) /\
    healthData w' = healthData w /\ orderbooksByNode w' = orderbooksByNode w.
Proof.
  unfold perturb_bids, levels_step.
  destruct (bids a) as [|top rest] eqn:E.
  - exists a, w, []. rewrite E. repeat split.
  - unfold bind, random, ret. simpl. do 3 eexists.
    split; [reflexivity|]. simpl. split; [|split; reflexivity].
    split; [|repeat split].
    eexists. split; [reflexivity|]. simpl.
    split; [|repeat split].
    destruct (unit_step_cases (Math_random (draws w))) as [-> | ->]; auto.
Qed.

Lemma perturb_asks_step (a : Side) (w : World) :
  exists a' w' trace,
    perturb_asks a w = (Ret a', w', trace) /\
    (levels_step (asks a) (asks a') (bestAsk a) (bestAsk a') /\
     bids a' = bids a /\ bestBid a' = bestBid a /\
     marketId a' = marketId a /\ totalOrders a' = totalOrders a) /\
    healthData w' = healthData w /\ orderbooksByNode w' = orderbooksByNode w.
Proof.
  unfold perturb_asks, levels_step.
  destruct (asks a) as [|top rest] eqn:E.
  - exists a, w, []. rewrite E. repeat split.
  - unfold bind, random, ret. simpl. do 3 eexists.
    split; [reflexivity|]. simpl. split; [|split; reflexivity].
    split; [|repeat split].
    eexists. split; [reflexivity|]. simpl.
    split; [|repeat split].
    destruct (unit_step_cases (Math_random (draws w))) as [-> | ->]; auto.
Qed.

Lemma perturb_orderbook_step (nodeId : jsval) :
  yields (fun e e' => fst e' = fst e /\ book_step (snd e) (snd e'))
    (perturb_orderbook nodeId).
Proof.
  intros [eventId book] w. unfold perturb_orderbook.
  unfold bind at 1.
  destruct (perturb_bids_step (marketA book) w)
    as (a1 & w1 & t1 & E1 & (Hb & A1 & A2 & A3 & A4) & F1 & F2).
  rewrite E1. unfold bind at 1.
  destruct (perturb_asks_step a1 w1)
    as (a2 & w2 & t2 & E2 & (Ha & B1 & B2 & B3 & B4) & G1 & G2).
  rewrite E2. unfold bind, new_Date. simpl.
  match goal with
  | |- context [broadcast ?d ?w3] =>
      destruct (broadcast_frame d w3) as (Hret & (K1 & K2 & _) & _);
      destruct (broadcast d w3) as [[r s3] t3]
  end.
  unfold result_of, state_of in *. simpl in *. subst r. unfold ret. simpl.
  do 3 eexists. split; [reflexivity|].
  split; [|split; congruence].
  simpl. split; [reflexivity|].
  unfold book_step. simpl.
  rewrite B1, B2, B3, B4, A3, A4. rewrite <- A1, <- A2.
  repeat split; auto.
Qed.

Lemma perturb_node_step :
  yields (fun n n' => fst n' = fst n /\ entrywise book_step (snd n) (snd n'))
    perturb_node.
Proof.
  intros [nodeId sub] w. unfold perturb_node, bind.
  destruct (map_m_yields (perturb_orderbook_step nodeId) sub w)
    as (sub' & w' & t & E & Hsub & F1 & F2).
  rewrite E. unfold ret. simpl. do 3 eexists. split; [reflexivity|].
  split; [|split; assumption].
  simpl. split; [reflexivity | exact Hsub].
Qed.

(** One call of [updateDemoData]. *)
Lemma updateDemoData_step (w : World) :
  exists w' trace,
    updateDemoData w = (Ret tt, w', trace) /\
    entrywise health_step (healthData w) (healthData w') /\
    (orderbooksByNode w' = orderbooksByNode w \/
     entrywise (entrywise book_step)
       (orderbooksByNode w) (orderbooksByNode w')).
Proof.
  unfold updateDemoData, bind, get_state, modify, random.
  destruct (map_m_yields perturb_health_step (healthData w) w)
    as (hs & w1 & t1 & E1 & Hhs & F1 & F2).
  rewrite E1. cbn [draws with_healthData].
  destruct (Qltb (Math_random (draws w1)) 0.3).
  - cbn [orderbooksByNode with_draws with_healthData].
    match goal with
    | |- context [map_m perturb_node ?l ?w2] =>
        destruct (map_m_yields perturb_node_step l w2)
          as (ns & w3 & t3 & E3 & Hns & G1 & G2); rewrite E3
    end.
    do 2 eexists. split; [reflexivity|]. simpl.
    split; [|right; rewrite <- F2; exact Hns].
    rewrite G1. simpl. exact Hhs.
  - unfold ret. do 2 eexists. split; [reflexivity|]. simpl.
    split; [exact Hhs | left; exact F2].
Qed.
Lemma map_m_steps {A B : Type} (cost count : A -> nat)
    (rel : nat -> A -> B -> Prop) (f : A -> M World B) :
  steps cost count rel f ->
  steps (fun xs => list_sum (map cost xs))
        (fun xs => list_sum (map count xs))
        (threaded cost rel) (map_m f).
Proof.
  intros Hf xs. induction xs as [|x xs IH]; intros w; cbn [map_m].
  - exists [], w, []. cbn. repeat split. lia.
  - unfold bind.
    destruct (Hf x w) as (y & w1 & t1 & E1 & Hy & D1 & C1 & F1 & F2).
    rewrite E1.
    destruct (IH w1) as (ys & w2 & t2 & E2 & Hys & D2 & C2 & G1 & G2).
    rewrite E2. unfold ret. do 3 eexists. split; [reflexivity|].
    split. { cbn [threaded]. split; [exact Hy|]. rewrite <- D1. exact Hys. }
    split.
    { cbn [map].
      change (list_sum (cost x :: map cost xs))
        with (cost x + list_sum (map cost xs))%nat. lia. }
    split. { rewrite app_nil_r, fanouts_app, length_app, C1, C2. reflexivity. }
    split; congruence.
Qed.

Lemma perturb_health_ticks :
  steps (fun _ => 2%nat) (fun _ => 1%nat) health_tick perturb_health.
Proof.
  intros [nodeId health] w. unfold perturb_health, bind, random, new_Date.
  simpl.
  match goal with
  | |- context [broadcast ?d ?w1] =>
      destruct (broadcast_frame d w1)
        as (Hret & (F1 & F2 & _ & F4) & _ & Hfan & _);
      destruct (broadcast d w1) as [[r s2] t2]
  end.
  unfold result_of, state_of, trace_of in *. simpl in *. subst r.
  unfold ret. simpl.
  do 3 eexists. split; [reflexivity|].
  split; [|split; [|split; [|split; assumption]]].
  - unfold health_tick. simpl. do 3 (split; [reflexivity|]).
    unfold health_step. simpl.
    split; [|repeat split; try apply clamp_percent_range].
    destruct (Math_random_range (draws w)) as [L1 U1].
    destruct (Math_random_range (S (draws w))) as [L2 U2].
    exists ((Math_random (draws w) - 0.5) * 10)%Q,
           ((Math_random (S (draws w)) - 0.5) * 5)%Q.
    repeat split; try reflexivity; lra.
  - rewrite F4. lia.
  - rewrite app_nil_r. simpl. now rewrite Hfan.
Qed.

Lemma perturb_bids_tick (a : Side) (w : World) :
  exists a' w',
    perturb_bids a w = (Ret a', w', []) /\
    levels_tick (draws w) (bids a) (bids a') (bestBid a) (bestBid a') /\
    draws w' = (draws w + drawn (bids a))%nat.
Proof.
  unfold perturb_bids, levels_tick.
  destruct (bids a) as [|top rest] eqn:E.
  - exists a, w. rewrite E. simpl. repeat split. lia.
  - unfold bind, random, ret. simpl. do 2 eexists.
    split; [reflexivity|]. simpl. repeat split. lia.
Qed.

Lemma perturb_asks_tick (a : Side) (w : World) :
  exists a' w',
    perturb_asks a w = (Ret a', w', []) /\
    levels_tick (draws w) (asks a) (asks a') (bestAsk a) (bestAsk a') /\
    draws w' = (draws w + drawn (asks a))%nat.
Proof.
  unfold perturb_asks, levels_tick.
  destruct (asks a) as [|top rest] eqn:E.
  - exists a, w. rewrite E. simpl. repeat split. lia.
  - unfold bind, random, ret. simpl. do 2 eexists.
    split; [reflexivity|]. simpl. repeat split. lia.
Qed.

Lemma perturb_orderbook_ticks (nodeId : jsval) :
  steps book_draws (fun _ => 1%nat) book_tick (perturb_orderbook nodeId).
Proof.
  intros [eventId book] w. unfold perturb_orderbook.
  unfold bind at 1.
  destruct (perturb_bids_step (marketA book) w)
    as (a1 & w1 & t1 & E1 & (Hb & A1 & A2 & A3 & A4) & F1 & F2).
  destruct (perturb_bids_tick (marketA book) w)
    as (a1' & w1' & E1' & Tb & D1).
  rewrite E1 in E1'. injection E1' as <- <- ->.
  rewrite E1. unfold bind at 1.
  destruct (perturb_asks_step a1 w1)
    as (a2 & w2 & t2 & E2 & (Ha & B1 & B2 & B3 & B4) & G1 & G2).
  destruct (perturb_asks_tick a1 w1) as (a2' & w2' & E2' & Ta & D2).
  rewrite E2 in E2'. injection E2' as <- <- ->.
  rewrite E2. unfold bind, new_Date. simpl.
  match goal with
  | |- context [broadcast ?d ?w3] =>
      destruct (broadcast_frame d w3)
        as (Hret & (K1 & K2 & _ & K4) & _ & Hfan & _);
      destruct (broadcast d w3) as [[r s3] t3]
  end.
  unfold result_of, state_of, trace_of in *. simpl in *. subst r.
  unfold ret. simpl.
  do 3 eexists. split; [reflexivity|].
  split; [|split; [|split; [|split; congruence]]].
  - unfold book_tick. simpl. split; [reflexivity|].
    split; [now rewrite B1, B2|].
    split; [rewrite <- D1, <- A1, <- A2; exact Ta|].
    unfold book_step. simpl.
    rewrite B1, B2, B3, B4, A3, A4. rewrite <- A1, <- A2.
    repeat split; auto.
  - unfold book_draws. simpl. rewrite K4, D2, D1, A1. lia.
  - rewrite app_nil_r. simpl. now rewrite Hfan.
Qed.

Lemma perturb_node_ticks :
  steps node_draws (fun node => List.length (snd node)) node_tick
    perturb_node.
Proof.
  intros [nodeId sub] w. unfold perturb_node, bind.
  destruct (map_m_steps (perturb_orderbook_ticks nodeId) sub w)
    as (sub' & w' & t & E & Hsub & D & C & F1 & F2).
  rewrite E. unfold ret. do 3 eexists. split; [reflexivity|].
  split; [|split; [|split; [|split; assumption]]].
  - split; [reflexivity | exact Hsub].
  - exact D.
  - rewrite app_nil_r, C. cbn [snd]. apply list_sum_ones.
Qed.

(** One call of [updateDemoData], draw by draw. *)
Lemma updateDemoData_exact (w : World) :
  let nodes := List.length (healthData w) in
  let gate := Qltb (Math_random (draws w + 2 * nodes)%nat) 0.3 in
  exists w' trace,
    updateDemoData w = (Ret tt, w', trace) /\
    threaded (fun _ => 2%nat) health_tick (draws w)
      (healthData w) (healthData w') /\
    (if gate
     then threaded node_draws node_tick (S (draws w + 2 * nodes))
            (orderbooksByNode w) (orderbooksByNode w')
     else orderbooksByNode w' = orderbooksByNode w) /\
    List.length (fanouts trace) =
      (nodes + if gate then book_count (orderbooksByNode w) else 0)%nat.
Proof.
  intros nodes gate.
  unfold updateDemoData, bind, get_state, modify, random.
  destruct (map_m_steps perturb_health_ticks (healthData w) w)
    as (hs & w1 & t1 & E1 & Hhs & D1 & C1 & F1 & F2).
  rewrite list_sum_twos in D1. rewrite list_sum_ones in C1.
  rewrite E1. cbn [draws with_healthData].
  rewrite D1. fold nodes. fold gate.
  destruct gate.
  - cbn [orderbooksByNode with_draws with_healthData].
    match goal with
    | |- context [map_m perturb_node ?l ?w2] =>
        destruct (map_m_steps perturb_node_ticks l w2)
          as (ns & w3 & t3 & E3 & Hns & D3 & C3 & G1 & G2); rewrite E3
    end.
    do 2 eexists. split; [reflexivity|]. simpl.
    split; [rewrite G1; simpl; exact Hhs|].
    split.
    + rewrite <- F2. exact Hns.
    + rewrite !app_nil_r, fanouts_app, length_app, C1, C3, F2. reflexivity.
  - unfold ret. do 2 eexists. split; [reflexivity|]. simpl.
    split; [exact Hhs|]. split; [exact F2|].
    rewrite !app_nil_r, C1. fold nodes. lia.
Qed.
End DemoFacts.

(** C8.  One call of [updateDemoData] returns.  With [k] the number of
    draws of [Math.random] made before the call, the health records are
    taken in their order and the [i]-th one, counting from 0, uses the
    draws [k + 2 i] and [k + 2 i + 1]: its cpu percentage becomes the old value plus
    [(draw - 0.5) * 10], a step in [-5, 5), clamped, and its memory
    percentage the old value plus [(draw - 0.5) * 5], a step in
    [-2.5, 2.5), clamped, so that both lie in [0, 100] afterwards
    whatever they were; nothing else of a health record changes but
    [lastUpdate].  The draw after those of the health records decides
    about the order books.  When it is not below 0.3 they stay as they
    are.  When it is, every order book of every node is taken in order,
    each at the draw that the ones before it leave: the first bid level of
    [marketA], where there is one, moves by one, up when its draw is
    above 0.5 and down when not, and its price becomes [bestBid]; then
    the same for the first ask level and [bestAsk] with the next draw;
    the other levels and [marketB] stay as they are. *)
Theorem demo_tick_perturbation `{Runtime}
    (w : Dashboard.World Demo.Health Demo.Orderbook) :
  let r := Demo.updateDemoData w in
  let nodes := List.length (Dashboard.healthData w) in
  let gate :=
    Demo.Qltb (Math_random (Dashboard.draws w + 2 * nodes)%nat) 0.3 in
  result_of r = Ret tt /\
  threaded (fun _ => 2%nat) health_tick (Dashboard.draws w)
    (Dashboard.healthData w) (Dashboard.healthData (state_of r)) /\
  (forall nodeId health,
     In (nodeId, health) (Dashboard.healthData (state_of r)) ->
     percent (Demo.cpuUsage health) /\ percent (Demo.memoryUsage health)) /\
  (if gate
   then threaded node_draws node_tick (S (Dashboard.draws w + 2 * nodes))
          (Dashboard.orderbooksByNode w)
          (Dashboard.orderbooksByNode (state_of r))
   else Dashboard.orderbooksByNode (state_of r) =
        Dashboard.orderbooksByNode w).
Proof.
  intros r nodes gate. subst r.
  destruct (updateDemoData_exact w) as (w' & trace & E & Hh & Hb & _).
  rewrite E. unfold result_of, state_of. cbn [fst snd].
  split; [reflexivity|]. split; [exact Hh|]. split; [|exact Hb].
  intros nodeId health Hin.
  destruct (threaded_in _ _ _ _ _ _ Hh Hin) as (k & old & _ & Hstep).
  destruct Hstep as (_ & _ & _ & Hstep). cbn [snd] in Hstep.
  destruct Hstep as (_ & Hc & Hm & _). auto.
Qed.

(** The first tick after [startDemoMode] on the reference runtime: the
    draws 0.25, 0.75, ... move the three cpu percentages down by 2.5,
    open the gate of the order books and move the first bid up and the
    first ask down. *)
Example first_demo_tick :
  let seeded := state_of (Demo.startDemoMode (Dashboard.init Sample.all_open 0)) in
  let w' := state_of (Demo.updateDemoData seeded) in
  map (fun e => Qred (Demo.cpuUsage (snd e))) (Dashboard.healthData w') =
    [(427 # 10)%Q; (148 # 5)%Q; (26 # 1)%Q] /\
  map (fun n => map (fun e =>
         (Demo.bestBid (Demo.marketA (snd e)),
          Demo.bestAsk (Demo.marketA (snd e)),
          Demo.bestBid (Demo.marketB (snd e))))
       (snd n))
    (Dashboard.orderbooksByNode w') =
    [[(46, 46, 52)]; [(63, 63, 35)]].
Proof. vm_compute. split; reflexivity. Qed.

(** * Further facts about maps *)

Section MoreMapFacts.
Context {K V : Type} (keq : K -> K -> bool).

Lemma get_alter_same (f : V -> V) (k : K) (m : list (K * V)) :
  JsMap.get keq k (JsMap.alter keq f k m) = option_map f (JsMap.get keq k m).
Proof.
  induction m as [|[k1 v1] m IH]; simpl; [reflexivity|].
  destruct (keq k k1) eqn:E; simpl; rewrite E; auto.
Qed.

Lemma get_alter_other (f : V -> V) (k k' : K) (m : list (K * V)) :
  (forall k1, keq k k1 = true -> keq k' k1 = false) ->
  JsMap.get keq k' (JsMap.alter keq f k m) = JsMap.get keq k' m.
Proof.
  intros Hsep. induction m as [|[k1 v1] m IH]; simpl; [reflexivity|].
  destruct (keq k k1) eqn:E; simpl.
  - now rewrite (Hsep k1 E).
  - destruct (keq k' k1); auto.
Qed.

Lemma get_set_other (k k' : K) (v : V) (m : list (K * V)) :
  (forall k1, keq k k1 = true -> keq k' k1 = false) ->
  keq k' k = false ->
  JsMap.get keq k' (JsMap.set keq k v m) = JsMap.get keq k' m.
Proof.
  intros Hsep Hne. induction m as [|[k1 v1] m IH]; simpl.
  - now rewrite Hne.
  - destruct (keq k k1) eqn:E; simpl.
    + now rewrite (Hsep k1 E).
    + destruct (keq k' k1); auto.
Qed.

Lemma get_snoc (k k' : K) (v : V) (m : list (K * V)) :
  JsMap.get keq k' (m ++ [(k, v)]) =
  match JsMap.get keq k' m with
  | Some v' => Some v'
  | None => if keq k' k then Some v else None
  end.
Proof.
  induction m as [|[k1 v1] m IH]; simpl; [reflexivity|].
  destruct (keq k' k1); auto.
Qed.

Lemma has_get_none (k : K) (m : list (K * V)) :
  JsMap.has keq k m = false <-> JsMap.get keq k m = None.
Proof.
  induction m as [|[k1 v1] m IH]; simpl; [tauto|].
  destruct (keq k k1); [split; discriminate | exact IH].
Qed.

Lemma set_absent (k : K) (v : V) (m : list (K * V)) :
  JsMap.has keq k m = false -> JsMap.set keq k v m = m ++ [(k, v)].
Proof.
  induction m as [|[k1 v1] m IH]; simpl; [reflexivity|].
  destruct (keq k k1); [discriminate|]. intros Hk. now rewrite IH.
Qed.

Lemma size_set (k : K) (v : V) (m : list (K * V)) :
  List.length (JsMap.set keq k v m) =
  if JsMap.has keq k m then List.length m else S (List.length m).
Proof.
  induction m as [|[k1 v1] m IH]; simpl; [reflexivity|].
  destruct (keq k k1); simpl; [reflexivity|]. rewrite IH.
  now destruct (JsMap.has keq k m).
Qed.

Lemma size_delete_exact (k : K) (m : list (K * V)) :
  (List.length (JsMap.delete keq k m) + (if JsMap.has keq k m then 1 else 0)
   = List.length m)%nat.
Proof.
  induction m as [|[k1 v1] m IH]; simpl; [reflexivity|].
  destruct (keq k k1); simpl; lia.
Qed.
End MoreMapFacts.

Lemma svz_VStr_sep (a b : string) :
  a <> b ->
  forall k1, same_value_zero (VStr a) k1 = true ->
             same_value_zero (VStr b) k1 = false.
Proof.
  intros Hne k1 E. apply exact_VStr in E. subst k1. simpl.
  apply String.eqb_neq. congruence.
Qed.

Lemma svz_VStr_refl (a : string) : same_value_zero (VStr a) (VStr a) = true.
Proof. simpl. apply String.eqb_refl. Qed.

Lemma svz_VStr_ne (a b : string) :
  a <> b -> same_value_zero (VStr a) (VStr b) = false.
Proof. intros Hne. simpl. now apply String.eqb_neq. Qed.

Section CacheFacts.
Context {O : Type}.

(** What [cache_orderbook] stores can be read back. *)
Lemma lookup_cache_same (N E : string) (record : O) (nodes : books O) :
  lookup_book (cache_orderbook (VStr N) (VStr E) record nodes)
    (VStr N) (VStr E) = Some record.
Proof.
  unfold lookup_book, cache_orderbook.
  destruct (JsMap.has same_value_zero (VStr N) nodes) eqn:Ehas.
  - rewrite get_alter_same. apply has_get in Ehas. destruct Ehas as [sub Es].
    rewrite Es. simpl. apply get_set_same, String.eqb_refl.
  - rewrite get_snoc. apply has_get_none in Ehas. rewrite Ehas.
    rewrite svz_VStr_refl. cbn [JsMap.set JsMap.get].
    now rewrite svz_VStr_refl.
Qed.

(** It leaves every other order book as it was. *)
Lemma lookup_cache_other (N E N' E' : string) (record : O) (nodes : books O) :
  (N', E') <> (N, E) ->
  lookup_book (cache_orderbook (VStr N) (VStr E) record nodes)
    (VStr N') (VStr E') = lookup_book nodes (VStr N') (VStr E').
Proof.
  intros Hne. unfold lookup_book, cache_orderbook.
  destruct (string_dec N' N) as [->|HN].
  - assert (HE : E <> E') by congruence.
    destruct (JsMap.has same_value_zero (VStr N) nodes) eqn:Ehas.
    + rewrite get_alter_same.
      destruct (JsMap.get same_value_zero (VStr N) nodes) as [sub|];
        [|reflexivity].
      simpl. apply get_set_other; [now apply svz_VStr_sep|].
      apply svz_VStr_ne. congruence.
    + rewrite get_snoc. apply has_get_none in Ehas. rewrite Ehas.
      rewrite svz_VStr_refl. cbn [JsMap.set JsMap.get].
      now rewrite svz_VStr_ne by congruence.
  - destruct (JsMap.has same_value_zero (VStr N) nodes) eqn:Ehas.
    + rewrite get_alter_other; [reflexivity|]. apply svz_VStr_sep. congruence.
    + rewrite get_snoc.
      destruct (JsMap.get same_value_zero (VStr N') nodes); [reflexivity|].
      now rewrite svz_VStr_ne.
Qed.

(** It adds one order book or replaces one. *)
Lemma book_count_cache (N E : string) (record : O) (nodes : books O) :
  book_count (cache_orderbook (VStr N) (VStr E) record nodes) =
  match lookup_book nodes (VStr N) (VStr E) with
  | Some _ => book_count nodes
  | None => S (book_count nodes)
  end.
Proof.
  unfold lookup_book, cache_orderbook, book_count.
  destruct (JsMap.has same_value_zero (VStr N) nodes) eqn:Ehas.
  - assert (Hc : forall a l, list_sum (a :: l) = (a + list_sum l)%nat)
      by reflexivity.
    induction nodes as [|[n sub] nodes IH]; [discriminate|].
    cbn [JsMap.alter JsMap.get JsMap.has] in *.
    destruct (same_value_zero (VStr N) n) eqn:En.
    + cbn [map snd]. rewrite !Hc, size_set.
      destruct (JsMap.has same_value_zero (VStr E) sub) eqn:Eh.
      * apply has_get in Eh. destruct Eh as [o Eo]. now rewrite Eo.
      * apply has_get_none in Eh. now rewrite Eh.
    + cbn [map snd]. rewrite !Hc, (IH Ehas).
      destruct (JsMap.get same_value_zero (VStr N) nodes) as [sub'|];
        [destruct (JsMap.get same_value_zero (VStr E) sub')|]; lia.
  - apply has_get_none in Ehas. rewrite Ehas.
    rewrite map_app, list_sum_app. simpl. lia.
Qed.

(** Eviction takes one order book from each node that holds the market
    and none from the others. *)
Lemma book_count_evicted (M : string) (nodes : books O) :
  (book_count (evicted M nodes) + holders M nodes = book_count nodes)%nat.
Proof.
  unfold book_count, evicted, holders.
  induction nodes as [|[n sub] nodes IH]; [reflexivity|].
  cbn [map filter fst snd].
  change (list_sum (?a :: ?l)) with (a + list_sum l)%nat.
  pose proof (size_delete_exact same_value_zero (VStr M) sub) as Hsub.
  destruct (JsMap.has same_value_zero (VStr M) sub);
    cbn [List.length]; lia.
Qed.

Lemma lookup_evicted_other (M N E : string) (nodes : books O) :
  M <> E ->
  lookup_book (evicted M nodes) (VStr N) (VStr E) =
  lookup_book nodes (VStr N) (VStr E).
Proof.
  intros Hne. unfold lookup_book, evicted.
  induction nodes as [|[n sub] nodes IH]; [reflexivity|].
  cbn [map JsMap.get fst snd].
  destruct (same_value_zero (VStr N) n); [|exact IH].
  now apply get_delete_other.
Qed.

Lemma lookup_evicted_same (M N : string) (nodes : books O) :
  (forall nodeId sub, In (nodeId, sub) nodes ->
     JsMap.uniq same_value_zero sub) ->
  lookup_book (evicted M nodes) (VStr N) (VStr M) = None.
Proof.
  intros Huniq. unfold lookup_book.
  destruct (JsMap.get same_value_zero (VStr N) (evicted M nodes))
    as [sub|] eqn:Eg; [|reflexivity].
  apply has_get_none.
  assert (Hin : exists n, In (n, sub) (evicted M nodes)).
  { clear Huniq. revert Eg. generalize (evicted M nodes).
    induction b as [|[n1 s1] b IH]; cbn [JsMap.get]; [discriminate|].
    destruct (same_value_zero (VStr N) n1).
    - intros Heq. inversion Heq; subst. exists n1. now left.
    - intros Hg. destruct (IH Hg) as [n Hn]. exists n. now right. }
  destruct Hin as [n Hin]. eapply evicted_gone; eauto.
Qed.

Lemma evicted_twice (M : string) (nodes : books O) :
  (forall nodeId sub, In (nodeId, sub) nodes ->
     JsMap.uniq same_value_zero sub) ->
  evicted M (evicted M nodes) = evicted M nodes.
Proof.
  intros Huniq. apply evicted_absent. now apply evicted_gone.
Qed.
End CacheFacts.

Section KeptFacts.
Context {O : Type}.

Lemma get_alter_cases {K V : Type} (keq : K -> K -> bool) (f : V -> V)
    (k k' : K) (m : list (K * V)) :
  JsMap.get keq k' (JsMap.alter keq f k m) = JsMap.get keq k' m \/
  exists v, JsMap.get keq k' m = Some v /\
            JsMap.get keq k' (JsMap.alter keq f k m) = Some (f v).
Proof.
  induction m as [|[k1 v1] m IH]; simpl; [auto|].
  destruct (keq k k1); simpl; destruct (keq k' k1); eauto.
Qed.

Lemma get_set_kept {K V : Type} (keq : K -> K -> bool) (k k' : K) (v : V)
    (m : list (K * V)) :
  JsMap.get keq k' m <> None -> JsMap.get keq k' (JsMap.set keq k v m) <> None.
Proof.
  intros Hsome Hnone. apply has_get_none in Hnone.
  destruct (JsMap.has keq k' m) eqn:Eh.
  - now rewrite (has_set_mono keq k' k v m Eh) in Hnone.
  - apply has_get_none in Eh. contradiction.
Qed.

(** Caching an order book removes none, whatever the keys. *)
Lemma lookup_cache_kept (nodeId eventId N E : jsval) (record : O)
    (nodes : books O) :
  lookup_book nodes N E <> None ->
  lookup_book (cache_orderbook nodeId eventId record nodes) N E <> None.
Proof.
  unfold lookup_book, cache_orderbook.
  destruct (JsMap.has same_value_zero nodeId nodes).
  - destruct (get_alter_cases same_value_zero
                (JsMap.set same_value_zero eventId record) nodeId N nodes)
      as [-> | (sub & Es & ->)]; [auto|].
    rewrite Es. apply get_set_kept.
  - rewrite get_snoc.
    destruct (JsMap.get same_value_zero N nodes); [auto | congruence].
Qed.

(** Eviction of a market leaves the order books of the others. *)
Lemma lookup_evicted_kept (M E : string) (N : jsval) (nodes : books O) :
  M <> E ->
  lookup_book (evicted M nodes) N (VStr E) = lookup_book nodes N (VStr E).
Proof.
  intros Hne. unfold lookup_book, evicted.
  induction nodes as [|[n sub] nodes IH]; [reflexivity|].
  cbn [map JsMap.get fst snd].
  destruct (same_value_zero N n); [|exact IH].
  now apply get_delete_other.
Qed.

Lemma lookup_after_removal_kept (M E : string) (N : jsval) (nodes : books O) :
  M <> E ->
  lookup_book (after_removal M nodes) N (VStr E) =
  lookup_book nodes N (VStr E).
Proof.
  intros Hne. unfold lookup_book.
  induction (remove_from_all_thinned M nodes)
    as [|[k sub] [k' sub'] l l' [Hk Hs] _ IH]; [reflexivity|].
  simpl in Hk, Hs. subst k'. cbn [JsMap.get].
  destruct (same_value_zero N k); [|exact IH].
  destruct Hs as [-> | ->]; [reflexivity | now apply get_delete_other].
Qed.
End KeptFacts.

(** * The handlers on a payload that parses *)

Lemma get_prop_obj (props : jsobj) (name : string) :
  get_prop (VObj props) name = inr (obj_get name props).
Proof. reflexivity. Qed.

Lemma spread_obj (props : jsobj) : spread (VObj props) = props.
Proof. reflexivity. Qed.

Section ParsedFacts.
Context `{Runtime}.

Lemma monitor_orderbook_parsed (message : string) (props : jsobj)
    (s : Monitor.State) :
  JSON_parse message = Some (VObj props) ->
  obj_get "type" props = VStr "orderbook_update" ->
  let t := elapse (Monitor.now s) in
  Monitor.handleOrderbookUpdate message s =
  (Ret tt,
   Monitor.with_lastUpdateTime (elapse t)
     (Monitor.with_now (elapse t)
        (Monitor.with_orderbooksByNode
           (cache_orderbook (obj_get "nodeId" props) (obj_get "eventId" props)
              (obj_set "lastUpdate" (VDate t) props)
              (Monitor.orderbooksByNode s))
           (Monitor.with_now t s))),
   []).
Proof.
  intros Hv Htype t. subst t.
  unfold Monitor.handleOrderbookUpdate, Monitor.new_Date. step_body.
  rewrite Hv, !get_prop_obj, Htype, spread_obj. reflexivity.
Qed.

Lemma monitor_orderbook_other (message : string) (v type : jsval)
    (s : Monitor.State) :
  JSON_parse message = Some v ->
  get_prop v "type" = inr type ->
  strict_eq_str type "orderbook_update" = false ->
  Monitor.handleOrderbookUpdate message s = (Ret tt, s, []).
Proof.
  intros Hv Htype Hne.
  unfold Monitor.handleOrderbookUpdate. step_body.
  rewrite Hv, Htype. simpl. rewrite Hne. reflexivity.
Qed.

Lemma dashboard_orderbook_parsed (message : string) (props : jsobj)
    (w : Dashboard.World jsobj jsobj) :
  JSON_parse message = Some (VObj props) ->
  obj_get "type" props = VStr "orderbook_update" ->
  let t := elapse (Dashboard.now w) in
  let cached :=
    Dashboard.with_now (elapse t)
      (Dashboard.with_orderbooksByNode
         (cache_orderbook (obj_get "nodeId" props) (obj_get "eventId" props)
            (obj_set "lastUpdate" (VDate t) props)
            (Dashboard.orderbooksByNode w)) w) in
  Dashboard.handleOrderbookUpdate message w =
  Dashboard.broadcast
    (Dashboard.orderbook_update (obj_get "eventId" props)
       (obj_get "nodeId" props) (obj_get "marketA" props)
       (obj_get "marketB" props) (elapse t))
    cached.
Proof.
  intros Hv Htype t cached. subst cached t.
  unfold Dashboard.handleOrderbookUpdate, Dashboard.new_Date,
    Dashboard.broadcast.
  step_body. unfold emit.
  rewrite Hv, !get_prop_obj, Htype, spread_obj.
  unfold Dashboard.with_now, Dashboard.with_orderbooksByNode. simpl.
  change (strict_eq_str (VStr "orderbook_update") "orderbook_update")
    with true.
  simpl. loop_returns. reflexivity.
Qed.

Lemma dashboard_orderbook_other (message : string) (v type : jsval)
    (w : Dashboard.World jsobj jsobj) :
  JSON_parse message = Some v ->
  get_prop v "type" = inr type ->
  strict_eq_str type "orderbook_update" = false ->
  Dashboard.handleOrderbookUpdate message w = (Ret tt, w, []).
Proof.
  intros Hv Htype Hne.
  unfold Dashboard.handleOrderbookUpdate. step_body.
  rewrite Hv, Htype. simpl. rewrite Hne. reflexivity.
Qed.
End ParsedFacts.

(** * Further properties of the order-book cache *)

(** X1.  An order-book message of type [orderbook_update] whose node id
    and event id are strings is cached under that node and that market:
    reading the cache back gives the fields of the payload with
    [lastUpdate] set to the first clock reading of the handler, also when
    the payload brings a [lastUpdate] of its own.  This holds in the
    terminal monitor and in the dashboard server. *)
Theorem orderbook_update_round_trip `{Runtime} (message N E : string)
    (props : jsobj) :
  JSON_parse message = Some (VObj props) ->
  obj_get "type" props = VStr "orderbook_update" ->
  obj_get "nodeId" props = VStr N ->
  obj_get "eventId" props = VStr E ->
  (forall s : Monitor.State,
     exists record,
       lookup_book
         (Monitor.orderbooksByNode
            (state_of (Monitor.handleOrderbookUpdate message s)))
         (VStr N) (VStr E) = Some record /\
       record = obj_set "lastUpdate" (VDate (elapse (Monitor.now s))) props /\
       obj_get "lastUpdate" record = VDate (elapse (Monitor.now s))) /\
  (forall w : Dashboard.World jsobj jsobj,
     exists record,
       lookup_book
         (Dashboard.orderbooksByNode
            (state_of (Dashboard.handleOrderbookUpdate message w)))
         (VStr N) (VStr E) = Some record /\
       record = obj_set "lastUpdate" (VDate (elapse (Dashboard.now w))) props /\
       obj_get "lastUpdate" record = VDate (elapse (Dashboard.now w))).
Proof.
  intros Hv Htype HN HE. split.
  - intros s. eexists. split; [|split; [reflexivity|]].
    + rewrite (monitor_orderbook_parsed message s Hv Htype).
      unfold state_of. simpl. rewrite HN, HE. apply lookup_cache_same.
    + rewrite obj_get_set. reflexivity.
  - intros w. eexists. split; [|split; [reflexivity|]].
    + rewrite (dashboard_orderbook_parsed message w Hv Htype).
      match goal with
      | |- context [Dashboard.broadcast ?d ?w1] =>
          destruct (broadcast_frame d w1) as (_ & (_ & E2 & _) & _)
      end.
      rewrite E2. simpl. rewrite HN, HE. apply lookup_cache_same.
    + rewrite obj_get_set. reflexivity.
Qed.

Lemma orderbook_update_round_trip_witness :
  JSON_parse Sample.orderbook_message = Some (VObj Sample.orderbook_props) /\
  obj_get "lastUpdate"
    (match lookup_book
             (Dashboard.orderbooksByNode
                (state_of (Dashboard.handleOrderbookUpdate
                             Sample.orderbook_message Sample.server)))
             (VStr "10.0.0.1") (VStr "E1") with
     | Some record => record
     | None => []
     end) = VDate 1.
Proof.
  assert (Hv : JSON_parse Sample.orderbook_message =
               Some (VObj Sample.orderbook_props))
    by (vm_compute; reflexivity).
  split; [exact Hv|].
  destruct (@orderbook_update_round_trip Sample.runtime
              Sample.orderbook_message "10.0.0.1" "E1" Sample.orderbook_props
              Hv eq_refl eq_refl eq_refl) as [_ Hd].
  destruct (Hd Sample.server) as (record & -> & _ & Hlast). exact Hlast.
Defined.

(** X2.  Such a message touches one order book only: the order book of
    every other node or other market reads as before, the number of
    cached order books grows by one when the pair is new and stays when
    it is not, and the health records are left alone.  This holds in the
    terminal monitor and in the dashboard server. *)
Theorem orderbook_update_frame `{Runtime} (message N E : string)
    (props : jsobj) :
  JSON_parse message = Some (VObj props) ->
  obj_get "type" props = VStr "orderbook_update" ->
  obj_get "nodeId" props = VStr N ->
  obj_get "eventId" props = VStr E ->
  (forall s : Monitor.State,
     let s' := state_of (Monitor.handleOrderbookUpdate message s) in
     (forall N' E', (N', E') <> (N, E) ->
        lookup_book (Monitor.orderbooksByNode s') (VStr N') (VStr E') =
        lookup_book (Monitor.orderbooksByNode s) (VStr N') (VStr E')) /\
     book_count (Monitor.orderbooksByNode s') =
       match lookup_book (Monitor.orderbooksByNode s) (VStr N) (VStr E) with
       | Some _ => book_count (Monitor.orderbooksByNode s)
       | None => S (book_count (Monitor.orderbooksByNode s))
       end /\
     Monitor.healthData s' = Monitor.healthData s) /\
  (forall w : Dashboard.World jsobj jsobj,
     let w' := state_of (Dashboard.handleOrderbookUpdate message w) in
     (forall N' E', (N', E') <> (N, E) ->
        lookup_book (Dashboard.orderbooksByNode w') (VStr N') (VStr E') =
        lookup_book (Dashboard.orderbooksByNode w) (VStr N') (VStr E')) /\
     book_count (Dashboard.orderbooksByNode w') =
       match lookup_book (Dashboard.orderbooksByNode w) (VStr N) (VStr E) with
       | Some _ => book_count (Dashboard.orderbooksByNode w)
       | None => S (book_count (Dashboard.orderbooksByNode w))
       end /\
     Dashboard.healthData w' = Dashboard.healthData w).
Proof.
  intros Hv Htype HN HE. split.
  - intros s s'. subst s'.
    rewrite (monitor_orderbook_parsed message s Hv Htype).
    unfold state_of. simpl. rewrite HN, HE.
    split; [|split; [apply book_count_cache | reflexivity]].
    intros N' E' Hne. now apply lookup_cache_other.
  - intros w w'. subst w'.
    rewrite (dashboard_orderbook_parsed message w Hv Htype).
    match goal with
    | |- context [Dashboard.broadcast ?d ?w1] =>
        destruct (broadcast_frame d w1) as (_ & (E1 & E2 & _) & _)
    end.
    rewrite E1, E2. simpl. rewrite HN, HE.
    split; [|split; [apply book_count_cache | reflexivity]].
    intros N' E' Hne. now apply lookup_cache_other.
Qed.

Lemma orderbook_update_frame_witness :
  JSON_parse Sample.orderbook_message = Some (VObj Sample.orderbook_props) /\
  book_count
    (Monitor.orderbooksByNode
       (state_of (Monitor.handleOrderbookUpdate Sample.orderbook_message
                    (Monitor.init 0)))) = 1%nat.
Proof.
  assert (Hv : JSON_parse Sample.orderbook_message =
               Some (VObj Sample.orderbook_props))
    by (vm_compute; reflexivity).
  split; [exact Hv|].
  destruct (@orderbook_update_frame Sample.runtime
              Sample.orderbook_message "10.0.0.1" "E1" Sample.orderbook_props
              Hv eq_refl eq_refl eq_refl) as [Hm _].
  destruct (Hm (Monitor.init 0)) as (_ & Hcount & _). exact Hcount.
Defined.

(** X3.  On such a message the dashboard server calls [broadcast] once,
    after the record is cached, with an [orderbook_update] event that
    carries the ids and the two markets of the payload and the second
    clock reading of the handler; the other fields of the payload and
    the [lastUpdate] of the cached record are not in the event.  Every
    attached client that is OPEN and whose [send] returns gets that one
    message. *)
Theorem orderbook_update_announced `{Runtime} (message : string)
    (props : jsobj) (w : Dashboard.World jsobj jsobj) :
  JSON_parse message = Some (VObj props) ->
  obj_get "type" props = VStr "orderbook_update" ->
  let r := Dashboard.handleOrderbookUpdate message w in
  let event :=
    Dashboard.orderbook_update (obj_get "eventId" props)
      (obj_get "nodeId" props) (obj_get "marketA" props)
      (obj_get "marketB" props)
      (elapse (elapse (Dashboard.now w))) in
  result_of r = Ret tt /\
  fanouts (trace_of r) = [event] /\
  (NoDup (Dashboard.clients w) ->
   forall c, In c (Dashboard.clients w) ->
     Dashboard.delivers (Dashboard.sockets w c) = true ->
     Dashboard.received (Dashboard.sockets (state_of r) c) =
     Dashboard.received (Dashboard.sockets w c) ++ [JSON_stringify event]).
Proof.
  intros Hv Htype r event. subst r.
  rewrite (dashboard_orderbook_parsed message w Hv Htype). fold event.
  set (cached := Dashboard.with_now _ _).
  destruct (broadcast_frame event cached) as (Hret & _ & _ & Hfan & _).
  split; [exact Hret|]. split; [exact Hfan|].
  intros Hnd c Hin Hd.
  destruct (@broadcast_spec _ _ _ event cached Hnd) as [_ _ Hacc _ _ _ _ _].
  now rewrite (Hacc c Hin Hd).
Qed.

Lemma orderbook_update_announced_witness :
  JSON_parse Sample.orderbook_message = Some (VObj Sample.orderbook_props) /\
  fanouts (trace_of (Dashboard.handleOrderbookUpdate Sample.orderbook_message
                       Sample.crowd)) =
  [Dashboard.orderbook_update (VStr "E1") (VStr "10.0.0.1")
     (VObj [("marketId", VStr "YES")]) (VObj [("marketId", VStr "NO")]) 2].
Proof.
  assert (Hv : JSON_parse Sample.orderbook_message =
               Some (VObj Sample.orderbook_props))
    by (vm_compute; reflexivity).
  split; [exact Hv|].
  destruct (@orderbook_update_announced Sample.runtime
              Sample.orderbook_message Sample.orderbook_props Sample.crowd
              Hv eq_refl) as (_ & Hfan & _).
  exact Hfan.
Defined.

(** X4.  A payload that is not [null] and whose [type] is not the string
    [orderbook_update], a payload without [type] included, is dropped
    in silence by the order-book handler of both programs: nothing is
    cached, sent or logged and the clock is not read. *)
Theorem foreign_type_ignored `{Runtime} (message : string) (v type : jsval) :
  JSON_parse message = Some v ->
  get_prop v "type" = inr type ->
  strict_eq_str type "orderbook_update" = false ->
  (forall s : Monitor.State,
     Monitor.handleOrderbookUpdate message s = (Ret tt, s, [])) /\
  (forall w : Dashboard.World jsobj jsobj,
     Dashboard.handleOrderbookUpdate message w = (Ret tt, w, [])).
Proof.
  intros Hv Htype Hne. split.
  - intros s. exact (monitor_orderbook_other message s Hv Htype Hne).
  - intros w. exact (dashboard_orderbook_other message w Hv Htype Hne).
Qed.

Lemma foreign_type_ignored_witness :
  JSON_parse Sample.health_message = Some (VObj Sample.health_props) /\
  Dashboard.handleOrderbookUpdate Sample.health_message Sample.crowd =
  (Ret tt, Sample.crowd, []).
Proof.
  assert (Hv : JSON_parse Sample.health_message =
               Some (VObj Sample.health_props))
    by (vm_compute; reflexivity).
  split; [exact Hv|].
  destruct (@foreign_type_ignored Sample.runtime Sample.health_message
              (VObj Sample.health_props) VUndefined Hv eq_refl eq_refl)
    as [_ Hd].
  apply Hd.
Defined.

Section KeptByTraffic.
Context `{Runtime}.

Lemma monitor_book_kept (t : Z) (channel message : string) (N : jsval)
    (E : string) (s : Monitor.State) :
  topic_of channel <> StatusTopic E ->
  lookup_book (Monitor.orderbooksByNode s) N (VStr E) <> None ->
  lookup_book (Monitor.orderbooksByNode (Monitor.deliver t channel message s))
    N (VStr E) <> None.
Proof.
  intros Htopic Hheld. unfold Monitor.deliver, Monitor.on_message.
  set (s0 := Monitor.with_now (Z.max (Monitor.now s) t) s).
  change (Monitor.orderbooksByNode s) with (Monitor.orderbooksByNode s0)
    in Hheld.
  destruct (topic_of channel) as [nodeId| |eventId| |].
  - destruct (monitor_health_effect nodeId message s0) as (E1 & _).
    now rewrite E1.
  - destruct (monitor_orderbook_effect message s0)
      as (_ & _ & _ & [E1|(n & e & r & E1)]); rewrite E1; [auto|].
    now apply lookup_cache_kept.
  - destruct (monitor_status_effect eventId message s0)
      as (_ & _ & _ & [E1|E1]); rewrite E1; [auto|].
    rewrite lookup_after_removal_kept; [auto|].
    congruence.
  - destruct (monitor_discovery_effect message s0) as (_ & _ & E1).
    now rewrite E1.
  - exact Hheld.
Qed.

Lemma dashboard_book_kept (t : Z) (channel message : string) (N : jsval)
    (E : string) (w : Dashboard.World jsobj jsobj) :
  topic_of channel <> StatusTopic E ->
  lookup_book (Dashboard.orderbooksByNode w) N (VStr E) <> None ->
  lookup_book
    (Dashboard.orderbooksByNode (Dashboard.deliver t channel message w))
    N (VStr E) <> None.
Proof.
  intros Htopic Hheld. unfold Dashboard.deliver, Dashboard.on_message.
  set (w0 := Dashboard.with_now (Z.max (Dashboard.now w) t) w).
  change (Dashboard.orderbooksByNode w) with (Dashboard.orderbooksByNode w0)
    in Hheld.
  destruct (topic_of channel) as [nodeId| |eventId| |].
  - destruct (dashboard_health_effect nodeId message w0) as (E1 & _).
    now rewrite E1.
  - destruct (dashboard_orderbook_effect message w0)
      as (_ & _ & [E1|(n & e & r & E1)]); rewrite E1; [auto|].
    now apply lookup_cache_kept.
  - destruct (dashboard_status_effect eventId message w0)
      as (_ & _ & [E1|E1]); rewrite E1; [auto|].
    rewrite lookup_after_removal_kept; [auto|].
    congruence.
  - destruct (dashboard_discovery_effect message w0) as (_ & E1).
    now rewrite E1.
  - exact Hheld.
Qed.
End KeptByTraffic.

(** X5.  An order book that is cached for a node and a market stays
    cached, in the terminal monitor and in the dashboard server, through
    any sequence of bus messages, well formed or not, none of which is a
    status message of that market: nothing but a status message of its
    own market removes an order book. *)
Theorem books_outlive_other_traffic `{Runtime}
    (events : list (Z * string * string)) (N : jsval) (E : string) :
  Forall (fun ev => topic_of (snd (fst ev)) <> StatusTopic E) events ->
  (forall s : Monitor.State,
     lookup_book (Monitor.orderbooksByNode s) N (VStr E) <> None ->
     lookup_book (Monitor.orderbooksByNode (Monitor.run events s))
       N (VStr E) <> None) /\
  (forall w : Dashboard.World jsobj jsobj,
     lookup_book (Dashboard.orderbooksByNode w) N (VStr E) <> None ->
     lookup_book (Dashboard.orderbooksByNode (Dashboard.run events w))
       N (VStr E) <> None).
Proof.
  intros Hevents. split.
  - induction Hevents as [|[[t c] m] events Hev _ IH]; intros s Hheld.
    + exact Hheld.
    + simpl. apply IH. now apply monitor_book_kept.
  - induction Hevents as [|[[t c] m] events Hev _ IH]; intros w Hheld.
    + exact Hheld.
    + simpl. apply IH. now apply dashboard_book_kept.
Qed.

Lemma books_outlive_other_traffic_witness :
  let traffic := [(2, "market_status:E2", Sample.status_message "CLOSED");
                  (3, "orderbooks", "{");
                  (4, "metrics:10.0.0.1", Sample.health_message)] in
  let s := Monitor.run [(1, "orderbooks", Sample.orderbook_message)]
             (Monitor.init 0) in
  Forall (fun ev => topic_of (snd (fst ev)) <> StatusTopic "E1") traffic /\
  lookup_book (Monitor.orderbooksByNode s) (VStr "10.0.0.1") (VStr "E1")
    <> None /\
  lookup_book (Monitor.orderbooksByNode (Monitor.run traffic s))
    (VStr "10.0.0.1") (VStr "E1") <> None.
Proof.
  intros traffic s.
  assert (Htraffic : Forall (fun ev => topic_of (snd (fst ev))
                                       <> StatusTopic "E1") traffic).
  { repeat constructor; simpl; discriminate. }
  assert (Hheld : lookup_book (Monitor.orderbooksByNode s)
                    (VStr "10.0.0.1") (VStr "E1") <> None).
  { vm_compute. discriminate. }
  split; [exact Htraffic|]. split; [exact Hheld|].
  destruct (@books_outlive_other_traffic Sample.runtime traffic
              (VStr "10.0.0.1") "E1" Htraffic) as [Hm _].
  apply Hm. exact Hheld.
Defined.

(** X6.  The payload [null] is valid JSON, and the handlers of the
    terminal monitor differ on it.  The health handler caches a record
    with [lastUpdate] as its one field.  The status handler records such
    a record for the market, then fails on reading [status]: it logs the
    error and leaves [lastUpdateTime] and the order books as they were.
    The order-book and discovery handlers log the error and change
    nothing.  No handler raises. *)
Theorem monitor_null_payload `{Runtime} (message : string) (s : Monitor.State) :
  JSON_parse message = Some VNull ->
  let t := elapse (Monitor.now s) in
  (forall N,
     let r := Monitor.handleHealthUpdate N message s in
     result_of r = Ret tt /\ trace_of r = [] /\
     JsMap.get String.eqb N (Monitor.healthData (state_of r)) =
     Some [("lastUpdate", VDate t)]) /\
  (forall M,
     let r := Monitor.handleMarketStatusUpdate M message s in
     result_of r = Ret tt /\
     trace_of r = [ConsoleError ("Error processing market status for " ++ M)
                     (TypeError "status")] /\
     JsMap.get String.eqb M (Monitor.marketStatus (state_of r)) =
     Some [("lastUpdate", VDate t)] /\
     Monitor.lastUpdateTime (state_of r) = Monitor.lastUpdateTime s /\
     Monitor.orderbooksByNode (state_of r) = Monitor.orderbooksByNode s) /\
  Monitor.handleOrderbookUpdate message s =
    (Ret tt, s,
     [ConsoleError "Error processing orderbook update" (TypeError "type")]) /\
  Monitor.handleMarketDiscovery message s =
    (Ret tt, s,
     [ConsoleError "Error processing market discovery"
        (TypeError "totalMarkets")]).
Proof.
  intros Hv t. subst t. split; [|split; [|split]].
  - intros N r. subst r. rewrite (monitor_health_parsed N message s Hv).
    unfold result_of, trace_of, state_of. simpl.
    repeat split. apply get_set_same, String.eqb_refl.
  - intros M r. subst r.
    unfold Monitor.handleMarketStatusUpdate, Monitor.new_Date. step_body.
    rewrite Hv. unfold result_of, trace_of, state_of. simpl.
    repeat split. apply get_set_same, String.eqb_refl.
  - unfold Monitor.handleOrderbookUpdate. step_body. rewrite Hv. reflexivity.
  - unfold Monitor.handleMarketDiscovery. step_body. rewrite Hv. reflexivity.
Qed.

Lemma monitor_null_payload_witness :
  JSON_parse "null" = Some VNull /\
  JsMap.get String.eqb "E1"
    (Monitor.marketStatus
       (state_of (Monitor.handleMarketStatusUpdate "E1" "null"
                    (Monitor.init 0))))
  = Some [("lastUpdate", VDate 1)].
Proof.
  assert (Hv : JSON_parse "null" = Some VNull) by (vm_compute; reflexivity).
  split; [exact Hv|].
  destruct (@monitor_null_payload Sample.runtime "null" (Monitor.init 0) Hv)
    as (_ & Hst & _).
  destruct (Hst "E1") as (_ & _ & Hget & _).
  exact Hget.
Defined.

(** X7.  On the payload [null] the dashboard server caches, for a health
    message, a record with [lastUpdate] as its one field and broadcasts
    a [health_update] event whose [health] is [null]; its other three
    handlers log the error and neither change the server nor broadcast.
    No handler raises. *)
Theorem dashboard_null_payload `{Runtime} (message : string)
    (w : Dashboard.World jsobj jsobj) :
  JSON_parse message = Some VNull ->
  (forall N,
     let r := Dashboard.handleHealthUpdate N message w in
     result_of r = Ret tt /\
     fanouts (trace_of r) =
       [Dashboard.health_update N VNull (elapse (elapse (Dashboard.now w)))] /\
     JsMap.get String.eqb N (Dashboard.healthData (state_of r)) =
     Some [("lastUpdate", VDate (elapse (Dashboard.now w)))]) /\
  (forall M,
     Dashboard.handleMarketStatusUpdate M message w =
     (Ret tt, w,
      [ConsoleError ("Error processing market status for " ++ M)
         (TypeError "status")])) /\
  Dashboard.handleOrderbookUpdate message w =
    (Ret tt, w,
     [ConsoleError "Error processing orderbook update" (TypeError "type")]) /\
  Dashboard.handleMarketDiscovery message w =
    (Ret tt, w,
     [ConsoleError "Error processing market discovery"
        (TypeError "totalMarkets")]).
Proof.
  intros Hv. split; [|split; [|split]].
  - intros N r. subst r. rewrite (dashboard_health_parsed N message w Hv).
    match goal with
    | |- context [Dashboard.broadcast ?d ?w1] =>
        destruct (broadcast_frame d w1) as (Hret & (E1 & _) & _ & Hfan & _)
    end.
    split; [exact Hret|]. split; [exact Hfan|].
    rewrite E1. simpl. apply get_set_same, String.eqb_refl.
  - intros M. unfold Dashboard.handleMarketStatusUpdate. step_body.
    rewrite Hv. reflexivity.
  - unfold Dashboard.handleOrderbookUpdate. step_body. rewrite Hv.
    reflexivity.
  - unfold Dashboard.handleMarketDiscovery. step_body. rewrite Hv.
    reflexivity.
Qed.

Lemma dashboard_null_payload_witness :
  JSON_parse "null" = Some VNull /\
  Dashboard.handleMarketDiscovery "null" Sample.crowd =
  (Ret tt, Sample.crowd,
   [ConsoleError "Error processing market discovery"
      (TypeError "totalMarkets")]).
Proof.
  assert (Hv : JSON_parse "null" = Some VNull) by (vm_compute; reflexivity).
  split; [exact Hv|].
  destruct (@dashboard_null_payload Sample.runtime "null" Sample.crowd Hv)
    as (_ & _ & _ & Hd).
  exact Hd.
Defined.

(** * Further properties of the other handlers *)

(** X8.  A discovery message whose payload is not [null] sets
    [totalMarkets] to the field [totalMarkets] of the payload, whatever
    it is; a payload without the field sets it to [undefined] and so
    erases a total that was known.  The terminal monitor then sets
    [lastUpdateTime] to the next clock reading; the dashboard server
    calls [broadcast] once with the [market_discovery] event of the very
    value it stored. *)
Theorem discovery_sets_total `{Runtime} (message : string) (v total : jsval) :
  JSON_parse message = Some v ->
  get_prop v "totalMarkets" = inr total ->
  (forall s : Monitor.State,
     let r := Monitor.handleMarketDiscovery message s in
     result_of r = Ret tt /\ trace_of r = [] /\
     Monitor.totalMarkets (state_of r) = total /\
     Monitor.lastUpdateTime (state_of r) = elapse (Monitor.now s)) /\
  (forall w : Dashboard.World jsobj jsobj,
     let r := Dashboard.handleMarketDiscovery message w in
     result_of r = Ret tt /\
     Dashboard.totalMarkets (state_of r) = total /\
     fanouts (trace_of r) =
       [Dashboard.market_discovery total (elapse (Dashboard.now w))]).
Proof.
  intros Hv Htotal. split.
  - intros s r. subst r.
    unfold Monitor.handleMarketDiscovery, Monitor.new_Date. step_body.
    rewrite Hv, Htotal. unfold result_of, trace_of, state_of. simpl. auto.
  - intros w r. subst r.
    unfold Dashboard.handleMarketDiscovery, Dashboard.new_Date. step_body.
    rewrite Hv, Htotal. simpl.
    match goal with
    | |- context [Dashboard.broadcast ?d ?w1] =>
        destruct (broadcast_frame d w1) as (Hret & (_ & _ & E3 & _) & _ & Hfan & _);
        destruct (Dashboard.broadcast d w1) as [[r0 w2] t2]
    end.
    unfold result_of, trace_of, state_of in *. simpl in *.
    subst r0. auto.
Qed.

Lemma discovery_sets_total_witness :
  JSON_parse Sample.health_message = Some (VObj Sample.health_props) /\
  Dashboard.totalMarkets Sample.server = VNum 0 /\
  Dashboard.totalMarkets
    (state_of (Dashboard.handleMarketDiscovery Sample.health_message
                 Sample.server)) = VUndefined.
Proof.
  assert (Hv : JSON_parse Sample.health_message =
               Some (VObj Sample.health_props))
    by (vm_compute; reflexivity).
  split; [exact Hv|]. split; [reflexivity|].
  destruct (@discovery_sets_total Sample.runtime Sample.health_message
              (VObj Sample.health_props) VUndefined Hv eq_refl) as [_ Hd].
  destruct (Hd Sample.server) as (_ & Htotal & _). exact Htotal.
Defined.

(** X9.  On a health message that parses the dashboard server calls
    [broadcast] once, after the record is cached.  The event carries the
    payload as it came, while the cached record is the payload's fields
    with [lastUpdate] added: the time stamp of the event is the clock
    reading that follows the one in [lastUpdate] of the record.  Every
    attached client that is OPEN and whose [send] returns gets that one
    message. *)
Theorem health_update_announced `{Runtime} (N message : string) (v : jsval)
    (w : Dashboard.World jsobj jsobj) :
  JSON_parse message = Some v ->
  let r := Dashboard.handleHealthUpdate N message w in
  let t := elapse (Dashboard.now w) in
  let event := Dashboard.health_update N v (elapse t) in
  result_of r = Ret tt /\
  fanouts (trace_of r) = [event] /\
  JsMap.get String.eqb N (Dashboard.healthData (state_of r)) =
    Some (obj_set "lastUpdate" (VDate t) (spread v)) /\
  t <= elapse t /\
  (NoDup (Dashboard.clients w) ->
   forall c, In c (Dashboard.clients w) ->
     Dashboard.delivers (Dashboard.sockets w c) = true ->
     Dashboard.received (Dashboard.sockets (state_of r) c) =
     Dashboard.received (Dashboard.sockets w c) ++ [JSON_stringify event]).
Proof.
  intros Hv r t event. subst r.
  rewrite (dashboard_health_parsed N message w Hv). fold t. fold event.
  set (cached := Dashboard.with_now _ _).
  destruct (broadcast_frame event cached) as (Hret & (E1 & _) & _ & Hfan & _).
  split; [exact Hret|]. split; [exact Hfan|]. split; [|split].
  - rewrite E1. subst cached. simpl. apply get_set_same, String.eqb_refl.
  - apply elapse_mono.
  - intros Hnd c Hin Hd.
    destruct (@broadcast_spec _ _ _ event cached Hnd) as [_ _ Hacc _ _ _ _ _].
    now rewrite (Hacc c Hin Hd).
Qed.

Lemma health_update_announced_witness :
  JSON_parse Sample.health_message = Some (VObj Sample.health_props) /\
  fanouts (trace_of (Dashboard.handleHealthUpdate "10.0.0.1"
                       Sample.health_message Sample.crowd)) =
  [Dashboard.health_update "10.0.0.1" (VObj Sample.health_props) 2].
Proof.
  assert (Hv : JSON_parse Sample.health_message =
               Some (VObj Sample.health_props))
    by (vm_compute; reflexivity).
  split; [exact Hv|].
  destruct (@health_update_announced Sample.runtime "10.0.0.1"
              Sample.health_message (VObj Sample.health_props) Sample.crowd Hv)
    as (_ & Hfan & _).
  exact Hfan.
Defined.

(** * Further properties of the router *)

Lemma split_colon_plain (s : string) :
  has_colon s = false -> split_colon s = [s].
Proof.
  induction s as [|c s IH]; simpl; [reflexivity|].
  destruct (Ascii.eqb c ":"); simpl; [discriminate|].
  intros Hs. now rewrite (IH Hs).
Qed.

Lemma first_segment_plain (s : string) :
  has_colon s = false -> first_segment s = s.
Proof.
  intros Hs. unfold first_segment. now rewrite (split_colon_plain s Hs).
Qed.

Lemma first_segment_cons (c : ascii) (s : string) :
  first_segment (String c s) =
  if Ascii.eqb c ":" then EmptyString else String c (first_segment s).
Proof.
  unfold first_segment. simpl.
  destruct (Ascii.eqb c ":"); [reflexivity|].
  now destruct (split_colon s).
Qed.

Lemma topic_of_metrics (rest : string) :
  topic_of ("metrics:" ++ rest) = HealthTopic (first_segment rest).
Proof.
  unfold topic_of, second_segment, first_segment. simpl.
  replace (String.prefix "" rest) with true by now destruct rest.
  now destruct (split_colon rest).
Qed.

Lemma topic_of_market_status (rest : string) :
  topic_of ("market_status:" ++ rest) = StatusTopic (first_segment rest).
Proof.
  unfold topic_of, second_segment, first_segment. simpl.
  replace (String.prefix "" rest) with true by now destruct rest.
  now destruct (split_colon rest).
Qed.

(** X10.  The id handed to the health handler and to the status handler
    is the second segment of the channel name cut at its colons: what
    follows the prefix [metrics:] or [market_status:] up to the next
    colon.  An id with a colon in it is cut short, and the rest of the
    channel name is ignored. *)
Theorem router_takes_second_segment `{Runtime} (rest message : string) :
  Monitor.on_message ("metrics:" ++ rest) message =
    Monitor.handleHealthUpdate (first_segment rest) message /\
  Monitor.on_message ("market_status:" ++ rest) message =
    Monitor.handleMarketStatusUpdate (first_segment rest) message /\
  Dashboard.on_message ("metrics:" ++ rest) message =
    Dashboard.handleHealthUpdate (first_segment rest) message /\
  Dashboard.on_message ("market_status:" ++ rest) message =
    Dashboard.handleMarketStatusUpdate (first_segment rest) message /\
  (forall id tail,
     first_segment (id ++ ":" ++ tail) = first_segment id).
Proof.
  unfold Monitor.on_message, Dashboard.on_message.
  rewrite topic_of_metrics, topic_of_market_status.
  repeat (split; [reflexivity|]).
  intros id tail. induction id as [|c id IH]; [reflexivity|].
  change ((String c id ++ ":" ++ tail)%string)
    with (String c (id ++ ":" ++ tail)).
  now rewrite !first_segment_cons, IH.
Qed.

(** X11.  For an id without a colon the router is exact: a message on
    [metrics:<id>] reaches the health handler with that id, a message on
    [market_status:<id>] the status handler with that id, in both
    programs. *)
Theorem plain_id_reaches_handler `{Runtime} (id message : string) :
  has_colon id = false ->
  Monitor.on_message ("metrics:" ++ id) message =
    Monitor.handleHealthUpdate id message /\
  Monitor.on_message ("market_status:" ++ id) message =
    Monitor.handleMarketStatusUpdate id message /\
  Dashboard.on_message ("metrics:" ++ id) message =
    Dashboard.handleHealthUpdate id message /\
  Dashboard.on_message ("market_status:" ++ id) message =
    Dashboard.handleMarketStatusUpdate id message.
Proof.
  intros Hplain.
  unfold Monitor.on_message, Dashboard.on_message.
  rewrite topic_of_metrics, topic_of_market_status.
  rewrite (first_segment_plain id Hplain). auto.
Qed.

Lemma plain_id_reaches_handler_witness :
  has_colon "10.0.0.1" = false /\
  Dashboard.on_message "metrics:10.0.0.1" Sample.health_message =
  Dashboard.handleHealthUpdate "10.0.0.1" Sample.health_message.
Proof.
  assert (Hplain : has_colon "10.0.0.1" = false) by reflexivity.
  split; [exact Hplain|].
  destruct (@plain_id_reaches_handler Sample.runtime "10.0.0.1"
              Sample.health_message Hplain) as (_ & _ & Hd & _).
  exact Hd.
Defined.

(** * Further properties of the reconciler *)

(** X12.  A status message for market [M] with status CLOSED or CLEARED
    takes one order book from each node that holds [M] and none from the
    others, when the key of every holder converts to a string (every
    string key does): the number of cached order books drops by the
    number of holders.  No node is removed, a node left without order
    books keeps its empty sub-map in place, and the order books of every
    other market read as before.  This holds in the terminal monitor and
    in the dashboard server. *)
Theorem eviction_accounting `{Runtime} (M message : string)
    (v status : jsval) :
  JSON_parse message = Some v ->
  get_prop v "status" = inr status ->
  is_terminal status = true ->
  (forall s : Monitor.State,
     printable_holders M (Monitor.orderbooksByNode s) ->
     let b := Monitor.orderbooksByNode s in
     let b' := Monitor.orderbooksByNode
                 (state_of (Monitor.handleMarketStatusUpdate M message s)) in
     (book_count b' + holders M b = book_count b)%nat /\
     map fst b' = map fst b /\
     (forall N E, M <> E ->
        lookup_book b' N (VStr E) = lookup_book b N (VStr E))) /\
  (forall w : Dashboard.World jsobj jsobj,
     printable_holders M (Dashboard.orderbooksByNode w) ->
     let b := Dashboard.orderbooksByNode w in
     let b' := Dashboard.orderbooksByNode
                 (state_of (Dashboard.handleMarketStatusUpdate M message w)) in
     (book_count b' + holders M b = book_count b)%nat /\
     map fst b' = map fst b /\
     (forall N E, M <> E ->
        lookup_book b' N (VStr E) = lookup_book b N (VStr E))).
Proof.
  intros Hv Hst Hterm. split.
  - intros s Hp b b'. subst b b'.
    rewrite (monitor_status_terminal M message s Hv Hst Hterm).
    destruct (remove_from_all_evicted Hp) as [Hev _].
    unfold after_removal. rewrite Hev.
    split; [apply book_count_evicted|]. split; [apply evicted_keys|].
    intros N E Hne. now apply lookup_evicted_kept.
  - intros w Hp b b'. subst b b'.
    destruct (remove_from_all_evicted Hp) as [Hev Hnone].
    destruct (dashboard_status_terminal M message w Hv Hst Hterm Hnone)
      as (_ & Hstate & _).
    rewrite Hstate.
    match goal with
    | |- context [Dashboard.broadcast ?d ?w1] =>
        destruct (broadcast_frame d w1) as (_ & (_ & E2 & _) & _)
    end.
    rewrite E2. simpl. unfold after_removal. rewrite Hev.
    split; [apply book_count_evicted|]. split; [apply evicted_keys|].
    intros N E Hne. now apply lookup_evicted_kept.
Qed.

Lemma eviction_accounting_witness :
  JSON_parse (Sample.status_message "CLOSED") =
    Some (VObj [("status", VStr "CLOSED")]) /\
  let w := Dashboard.run [(1, "orderbooks", Sample.orderbook_message)]
             Sample.server in
  let w' := state_of (Dashboard.handleMarketStatusUpdate "E1"
                        (Sample.status_message "CLOSED") w) in
  printable_holders "E1" (Dashboard.orderbooksByNode w) /\
  holders "E1" (Dashboard.orderbooksByNode w) = 1%nat /\
  (book_count (Dashboard.orderbooksByNode w') + 1 =
   book_count (Dashboard.orderbooksByNode w))%nat /\
  map fst (Dashboard.orderbooksByNode w') = [VStr "10.0.0.1"].
Proof.
  assert (Hv : JSON_parse (Sample.status_message "CLOSED") =
               Some (VObj [("status", VStr "CLOSED")]))
    by (vm_compute; reflexivity).
  split; [exact Hv|]. intros w w'.
  assert (Hp : printable_holders "E1" (Dashboard.orderbooksByNode w)).
  { intros nodeId sub Hin _. vm_compute in Hin.
    destruct Hin as [Heq|[]]. injection Heq as <- _. reflexivity. }
  split; [exact Hp|].
  assert (Hholders : holders "E1" (Dashboard.orderbooksByNode w) = 1%nat)
    by (vm_compute; reflexivity).
  split; [exact Hholders|].
  destruct (@eviction_accounting Sample.runtime "E1"
              (Sample.status_message "CLOSED") _ _ Hv eq_refl eq_refl)
    as [_ Hd].
  destruct (Hd w Hp) as (Hcount & Hkeys & _).
  rewrite Hholders in Hcount. split; [exact Hcount|].
  etransitivity; [exact Hkeys|]. vm_compute. reflexivity.
Defined.

(** * Further properties of the cold-start replay *)


(** X13.  Attaching a client never raises and always leaves the client
    attached, whatever its socket does.  The replay hands the entities
    of the store over in order, one message each, up to the first
    [send] that throws: the client has received the first [sent] events
    of the snapshot, where [sent] is what its socket lets through.  A
    replay cut short by a [send] logs that error, and the client stays
    in the client set all the same (while [broadcast] detaches a client
    whose [send] throws).  A replay whose sends all return logs its
    success, unless the test [totalMarkets > 0] throws, as it does for a
    total that is an object with an own [toString]: then that error is
    logged, after the health records and the order books were sent.
    The store and the other sockets are not touched. *)
Theorem replay_outcome {R : Runtime} {H O : Type} {P : Dashboard.Payload H O}
    (ws : nat) (w : Dashboard.World H O) :
  let r := Dashboard.on_connection ws w in
  let sent := quota (entity_count w) (Dashboard.sockets w ws) in
  result_of r = Ret tt /\
  In ws (Dashboard.clients (state_of r)) /\
  (sent <= entity_count w)%nat /\
  Dashboard.received (Dashboard.sockets (state_of r) ws) =
    Dashboard.received (Dashboard.sockets w ws) ++
    map JSON_stringify (firstn sent (stamped (Dashboard.now w) (snapshot w))) /\
  trace_of r =
    ConsoleLog "New client connected" [] ::
    (if Nat.eqb sent (entity_count w)
     then match js_gt0 (Dashboard.totalMarkets w) with
          | inl e => [ConsoleError "Error sending cached data to client" e]
          | inr _ => [ConsoleLog "Sent cached data to new client" []]
          end
     else [ConsoleError "Error sending cached data to client" SendError]) /\
  same_cache w (state_of r) /\
  (forall c, c <> ws ->
     Dashboard.sockets (state_of r) c = Dashboard.sockets w c).
Proof.
  intros r sent.
  set (w1 := Dashboard.with_clients
               (if in_dec Nat.eq_dec ws (Dashboard.clients w)
                then Dashboard.clients w
                else Dashboard.clients w ++ [ws]) w).
  assert (Er : r = (result_of (Dashboard.sendCachedDataToClient ws w1),
                    state_of (Dashboard.sendCachedDataToClient ws w1),
                    ConsoleLog "New client connected" []
                      :: trace_of (Dashboard.sendCachedDataToClient ws w1))).
  { subst r. unfold Dashboard.on_connection. step_body. unfold emit. simpl.
    fold w1. destruct (Dashboard.sendCachedDataToClient ws w1) as [[r0 s0] t0].
    reflexivity. }
  assert (Hin : In ws (Dashboard.clients w1)).
  { subst w1. simpl.
    destruct (in_dec Nat.eq_dec ws (Dashboard.clients w)); [auto|].
    apply in_or_app. right. left. reflexivity. }
  destruct (replay_caught ws w1) as (w2 & trace & Hs & Hatt & Htrace).
  destruct Hatt as [_ _ A3 _ _ A6 A7 A8].
  pose proof (snapshot_length w1) as Hlen.
  unfold state_of in A3, A6, A7, A8. cbn [fst snd] in A3, A6, A7, A8.
  rewrite Hlen in A3.
  rewrite Er, Hs. unfold result_of, state_of, trace_of. cbn [fst snd].
  split; [reflexivity|]. split; [now rewrite A7|].
  split; [apply quota_le|]. split; [exact A3|]. split; [now rewrite Htrace|].
  split; [exact A8 | exact A6].
Qed.

Lemma replay_outcome_witness :
  let r := Dashboard.on_connection 7%nat Sample.cached in
  In 7%nat (Dashboard.clients (state_of r)) /\
  List.length (Dashboard.received (Dashboard.sockets (state_of r) 7%nat))
  = 1%nat /\
  existsb is_error (trace_of r) = true.
Proof.
  intros r.
  destruct (@replay_outcome Sample.runtime jsobj jsobj _ 7%nat Sample.cached)
    as (_ & Hin & _ & Hrecv & Htrace & _).
  fold r in Hin, Hrecv, Htrace.
  split; [exact Hin|]. split.
  - rewrite Hrecv. vm_compute. reflexivity.
  - rewrite Htrace. vm_compute. reflexivity.
Defined.

(** On the reference runtime, a client that attaches to a server whose
    total is an object with a property named [toString] gets the health
    record, and the error of the test [totalMarkets > 0] is logged in
    place of the success of the replay. *)
Example replay_with_unconvertible_total :
  let r := Dashboard.on_connection 5%nat Sample.told_odd in
  Dashboard.totalMarkets Sample.told_odd = VObj [("toString", VNum 1)] /\
  trace_of r =
    [ConsoleLog "New client connected" [];
     ConsoleError "Error sending cached data to client" conversion_error] /\
  List.length (Dashboard.received (Dashboard.sockets (state_of r) 5%nat))
  = 1%nat /\
  In 5%nat (Dashboard.clients (state_of r)).
Proof. vm_compute. repeat split; auto. Qed.

(** * Properties of the terminal display *)

Lemma Qfloor_lt_iff (x : Q) (n : Z) : (Qfloor x < n)%Z <-> (x < inject_Z n)%Q.
Proof.
  split.
  - intros Hlt. apply Qlt_le_trans with (inject_Z (Qfloor x + 1)).
    + apply Qlt_floor.
    + rewrite <- Zle_Qle. lia.
  - intros Hlt. rewrite Zlt_Qlt.
    eapply Qle_lt_trans; [apply Qfloor_le | exact Hlt].
Qed.

Lemma age_below (now T limit : Z) (bound : Q) :
  (bound * 1000 == inject_Z limit)%Q ->
  ((inject_Z now - inject_Z T) / 1000 < bound)%Q <-> now - T < limit.
Proof.
  intros Hbound.
  assert (Hz : now - T < limit <->
               (inject_Z now < inject_Z T + inject_Z limit)%Q).
  { rewrite <- inject_Z_plus, <- Zlt_Qlt. lia. }
  rewrite Hz. set (a := inject_Z now) in *. set (b := inject_Z T) in *.
  assert (Hd : ((a - b) / 1000 == (a - b) * (1 # 1000))%Q) by reflexivity.
  rewrite Hd. split; intros Hlt; lra.
Qed.

Section DisplayFacts.
Context `{Runtime}.
Import Monitor.

Lemma shown_healthy_threshold (now T : Z) (h : jsobj) :
  obj_get "lastUpdate" h = VDate T ->
  shown_healthy now h =
  (now - T <? 59500) && truthy (obj_get "isHealthy" h).
Proof.
  intros HT. unfold shown_healthy, age_of. rewrite HT. cbn [ToNumber].
  unfold Math_round.
  assert (Hiff : (Qfloor ((inject_Z now - inject_Z T) / 1000 + (1 # 2)) < 60)%Z
                 <-> now - T < 59500).
  { rewrite Qfloor_lt_iff.
    rewrite <- (@age_below now T 59500 (inject_Z 60 - (1 # 2)))
      by reflexivity.
    split; intros Hlt; lra. }
  destruct (Z.ltb_spec (now - T) 59500) as [Hlt|Hge].
  - apply Hiff in Hlt. apply Z.ltb_lt in Hlt. now rewrite Hlt.
  - destruct (Z.ltb_spec
                (Qfloor ((inject_Z now - inject_Z T) / 1000 + (1 # 2))) 60)
      as [Hlt|_]; [|reflexivity].
    apply Hiff in Hlt. lia.
Qed.

Lemma counted_healthy_threshold (T : Z) (h : jsobj) (s : State) :
  obj_get "lastUpdate" h = VDate T ->
  counted_healthy h s =
  (Ret ((elapse (Monitor.now s) - T <? 60000)
        && truthy (obj_get "isHealthy" h)),
   with_now (elapse (Monitor.now s)) s, []).
Proof.
  intros HT. unfold counted_healthy, new_Date, bind, ret, age_of.
  rewrite HT. cbn [ToNumber]. simpl. do 2 f_equal. f_equal.
  set (d := elapse (Monitor.now s)).
  assert (Hiff : (~ (60 <= (inject_Z d - inject_Z T) / 1000)%Q)
                 <-> d - T < 60000).
  { rewrite <- (@age_below d T 60000 60) by reflexivity.
    split; [apply Qnot_le_lt | apply Qlt_not_le]. }
  destruct (Z.ltb_spec (d - T) 60000) as [Hlt|Hge].
  - apply Hiff in Hlt.
    destruct (Qle_bool 60 ((inject_Z d - inject_Z T) / 1000)) eqn:E;
      [|reflexivity].
    apply Qle_bool_iff in E. contradiction.
  - destruct (Qle_bool 60 ((inject_Z d - inject_Z T) / 1000)) eqn:E;
      [reflexivity|].
    exfalso. assert (Hn : ~ (60 <= (inject_Z d - inject_Z T) / 1000)%Q).
    { intros Hle. apply Qle_bool_iff in Hle. congruence. }
    apply Hiff in Hn. lia.
Qed.
End DisplayFacts.

Section SummaryFacts.
Context `{Runtime}.
Import Monitor.


End SummaryFacts.

(** X14.  A health record is stored with the clock reading [T] of its
    message, and the two places of the terminal display that judge its
    freshness use different limits.  The node list shows the node as
    HEALTHY when its payload reported [isHealthy] and the rounded age is
    below 60 s, that is up to 59499 ms after [T]; the summary counts it
    as healthy up to 59999 ms after [T].  From 59.5 s to 60 s the node is
    shown as UNHEALTHY and counted as healthy. *)
Theorem staleness_thresholds `{Runtime} (N message : string) (v : jsval)
    (s : Monitor.State) :
  JSON_parse message = Some v ->
  let T := elapse (Monitor.now s) in
  let reported := truthy (obj_get "isHealthy" (spread v)) in
  exists h,
    JsMap.get String.eqb N
      (Monitor.healthData (state_of (Monitor.handleHealthUpdate N message s)))
    = Some h /\
    (forall now,
       Monitor.shown_healthy now h = (now - T <? 59500) && reported) /\
    (forall s1,
       result_of (Monitor.counted_healthy h s1) =
       Ret ((elapse (Monitor.now s1) - T <? 60000) && reported)) /\
    (forall now s1,
       59500 <= now - T -> elapse (Monitor.now s1) - T < 60000 ->
       reported = true ->
       Monitor.shown_healthy now h = false /\
       result_of (Monitor.counted_healthy h s1) = Ret true).
Proof.
  intros Hv T reported.
  exists (obj_set "lastUpdate" (VDate T) (spread v)).
  assert (HT : obj_get "lastUpdate"
                 (obj_set "lastUpdate" (VDate T) (spread v)) = VDate T)
    by now rewrite obj_get_set.
  assert (Hrep : truthy (obj_get "isHealthy"
                   (obj_set "lastUpdate" (VDate T) (spread v))) = reported)
    by now rewrite obj_get_set.
  split; [|split; [|split]].
  - rewrite (monitor_health_parsed N message s Hv). unfold state_of. simpl.
    apply get_set_same, String.eqb_refl.
  - intros now. now rewrite (shown_healthy_threshold now _ HT), Hrep.
  - intros s1. now rewrite (counted_healthy_threshold _ s1 HT), Hrep.
  - intros now s1 Hlate Hearly Hreported.
    rewrite (shown_healthy_threshold now _ HT), Hrep.
    rewrite (counted_healthy_threshold _ s1 HT), Hrep, Hreported.
    unfold result_of. cbn [fst].
    replace (now - T <? 59500) with false by (symmetry; apply Z.ltb_ge; lia).
    replace (elapse (Monitor.now s1) - T <? 60000) with true
      by (symmetry; apply Z.ltb_lt; lia).
    auto.
Qed.

Lemma staleness_thresholds_witness :
  JSON_parse Sample.health_message = Some (VObj Sample.health_props) /\
  exists h,
    JsMap.get String.eqb "10.0.0.1"
      (Monitor.healthData
         (state_of (Monitor.handleHealthUpdate "10.0.0.1"
                      Sample.health_message (Monitor.init 0)))) = Some h /\
    Monitor.shown_healthy 59700 h = false /\
    result_of (Monitor.counted_healthy h
                 (Monitor.with_now 59699 (Monitor.init 0))) = Ret true.
Proof.
  assert (Hv : JSON_parse Sample.health_message =
               Some (VObj Sample.health_props))
    by (vm_compute; reflexivity).
  split; [exact Hv|].
  destruct (@staleness_thresholds Sample.runtime "10.0.0.1"
              Sample.health_message _ (Monitor.init 0) Hv)
    as (h & Hget & _ & _ & Hgap).
  exists h. split; [exact Hget|].
  apply Hgap; [vm_compute; discriminate | reflexivity | reflexivity].
Defined.


(** * Further properties of the degraded-mode generator *)

Lemma entrywise_in {K A B : Type} (rel : A -> B -> Prop)
    (m : list (K * A)) (m' : list (K * B)) (k : K) (v' : B) :
  entrywise rel m m' -> In (k, v') m' ->
  exists v, In (k, v) m /\ rel v v'.
Proof.
  unfold entrywise. intros Hall. induction Hall as [|[k1 v1] [k2 v2] m m' [Hk Hr] _ IH].
  - intros [].
  - simpl in Hk, Hr. subst k2. intros [Heq|Hin].
    + injection Heq as -> ->. exists v1. split; [now left | exact Hr].
    + destruct (IH Hin) as (v & Hv & Hrel). exists v. split; [now right | exact Hrel].
Qed.

Lemma levels_step_agrees (old new : list Demo.Level) (best best' : Z) :
  levels_step old new best best' ->
  match old with
  | top :: _ => True
  | [] => best = best'
  end /\
  match new with
  | top :: _ => best' = Demo.price top
  | [] => old = []
  end.
Proof.
  unfold levels_step. destruct old as [|top rest].
  - intros [-> ->]. auto.
  - intros (top' & -> & _ & _ & _ & ->). auto.
Qed.

Lemma book_step_agrees (old new : Demo.Orderbook) :
  book_step old new ->
  best_agrees (Demo.marketB old) ->
  best_agrees (Demo.marketA new) /\ best_agrees (Demo.marketB new).
Proof.
  intros (HB & _ & _ & _ & _ & Hbids & Hasks) HoldB.
  split; [|now rewrite HB].
  apply levels_step_agrees in Hbids. apply levels_step_agrees in Hasks.
  unfold best_agrees.
  destruct (Demo.bids (Demo.marketA new)), (Demo.asks (Demo.marketA new));
    intuition.
Qed.

Section DemoInvariant.
Context `{Runtime}.
Import Dashboard Demo.
Local Abbreviation World := (World Health Orderbook).

Lemma updateDemoData_agrees (w : World) :
  books_agree (orderbooksByNode w) ->
  books_agree (orderbooksByNode (state_of (updateDemoData w))).
Proof.
  intros Hold. destruct (updateDemoData_step w) as (w' & trace & E & _ & Hb).
  rewrite E. unfold state_of. cbn [fst snd].
  destruct Hb as [-> | Hstep]; [exact Hold|].
  intros nodeId sub' eventId book' Hnode Hbook.
  destruct (@entrywise_in _ _ _ _ _ _ _ _ Hstep Hnode)
    as (sub & Hsub & Hentries).
  destruct (@entrywise_in _ _ _ _ _ _ _ _ Hentries Hbook)
    as (book & Hin & Hbs).
  apply (book_step_agrees Hbs).
  now destruct (Hold nodeId sub eventId book Hsub Hin).
Qed.

Lemma ticks_agree (n : nat) (w : World) :
  books_agree (orderbooksByNode w) ->
  result_of (ticks n w) = Ret tt /\
  books_agree (orderbooksByNode (state_of (ticks n w))).
Proof.
  revert w. induction n as [|n IH]; intros w Hold.
  - split; [reflexivity | exact Hold].
  - cbn [ticks]. unfold bind.
    pose proof (updateDemoData_agrees w Hold) as Hnext.
    destruct (updateDemoData_step w) as (w' & trace & E & _).
    rewrite E in *. unfold state_of in Hnext. cbn [fst snd] in Hnext.
    destruct (IH w' Hnext) as [Hret Hagree].
    destruct (ticks n w') as [[r2 w2] t2].
    unfold result_of, state_of in *. cbn [fst snd] in *. auto.
Qed.
End DemoInvariant.

(** X16.  In demo mode the best bid and the best ask of every market are
    the prices of its first bid level and first ask level: the seed of
    [startDemoMode] has it so, and every run of the timer callback keeps
    it so, since it writes [bestBid] and [bestAsk] of market A from the
    level it has just moved and leaves market B alone.  The callback
    never raises. *)
Theorem demo_best_prices_agree `{Runtime} (n : nat)
    (w : Dashboard.World Demo.Health Demo.Orderbook) :
  Dashboard.orderbooksByNode w = [] ->
  let seeded := state_of (Demo.startDemoMode w) in
  books_agree (Dashboard.orderbooksByNode seeded) /\
  result_of (ticks n seeded) = Ret tt /\
  books_agree (Dashboard.orderbooksByNode (state_of (ticks n seeded))).
Proof.
  intros Hempty seeded.
  assert (Hseed : books_agree (Dashboard.orderbooksByNode seeded)).
  { subst seeded. unfold Demo.startDemoMode, Dashboard.new_Date. step_body.
    unfold emit, state_of. simpl. rewrite Hempty. simpl.
    intros nodeId sub eventId book [Hn|[Hn|[]]]; injection Hn as <- <-;
      (intros [Hb|[]]; injection Hb as <- <-); vm_compute; auto. }
  split; [exact Hseed|]. now apply ticks_agree.
Qed.

Lemma demo_best_prices_agree_witness :
  let w := Dashboard.init Sample.all_open 0 in
  Dashboard.orderbooksByNode w = [] /\
  books_agree
    (Dashboard.orderbooksByNode
       (state_of (ticks 3 (state_of (Demo.startDemoMode w))))).
Proof.
  intros w. split; [reflexivity|].
  destruct (@demo_best_prices_agree Sample.runtime 3%nat w eq_refl)
    as (_ & _ & Hagree).
  exact Hagree.
Defined.

(** X17.  One run of the timer callback of the demo mode calls
    [broadcast] once per health record, and after that either not at
    all or once per cached order book: the order books are stepped and
    announced, all of them, exactly when the draw of [Math.random] that
    follows the two draws per health record is below 0.3; otherwise
    they are neither written nor announced. *)
Theorem demo_tick_fanout `{Runtime}
    (w : Dashboard.World Demo.Health Demo.Orderbook) :
  let r := Demo.updateDemoData w in
  let nodes := List.length (Dashboard.healthData w) in
  let gate :=
    Demo.Qltb (Math_random (Dashboard.draws w + 2 * nodes)%nat) 0.3 in
  List.length (fanouts (trace_of r)) =
    (nodes + if gate then book_count (Dashboard.orderbooksByNode w) else 0)%nat
  /\
  (if gate
   then threaded node_draws node_tick (S (Dashboard.draws w + 2 * nodes))
          (Dashboard.orderbooksByNode w)
          (Dashboard.orderbooksByNode (state_of r))
   else Dashboard.orderbooksByNode (state_of r) =
        Dashboard.orderbooksByNode w).
Proof.
  intros r nodes gate. subst r.
  destruct (updateDemoData_exact w) as (w' & trace & E & _ & Hb & Hcount).
  rewrite E. unfold trace_of, state_of. cbn [fst snd].
  split; [exact Hcount | exact Hb].
Qed.

(** * Further properties of the health cache *)

Section HealthKept.
Context `{Runtime}.


End HealthKept.



(** X19.  A health message for node [N] that parses writes the record of
    [N] and nothing else: the record of every other node reads as
    before, the number of records grows by one when [N] is new and
    stays when it is not, and the order books and the total are left
    alone.  This holds in the terminal monitor and in the dashboard
    server. *)
Theorem health_update_frame `{Runtime} (N message : string) (v : jsval) :
  JSON_parse message = Some v ->
  (forall s : Monitor.State,
     let s' := state_of (Monitor.handleHealthUpdate N message s) in
     (forall N', N' <> N ->
        JsMap.get String.eqb N' (Monitor.healthData s') =
        JsMap.get String.eqb N' (Monitor.healthData s)) /\
     List.length (Monitor.healthData s') =
       (if JsMap.has String.eqb N (Monitor.healthData s)
        then List.length (Monitor.healthData s)
        else S (List.length (Monitor.healthData s))) /\
     Monitor.orderbooksByNode s' = Monitor.orderbooksByNode s /\
     Monitor.totalMarkets s' = Monitor.totalMarkets s) /\
  (forall w : Dashboard.World jsobj jsobj,
     let w' := state_of (Dashboard.handleHealthUpdate N message w) in
     (forall N', N' <> N ->
        JsMap.get String.eqb N' (Dashboard.healthData w') =
        JsMap.get String.eqb N' (Dashboard.healthData w)) /\
     List.length (Dashboard.healthData w') =
       (if JsMap.has String.eqb N (Dashboard.healthData w)
        then List.length (Dashboard.healthData w)
        else S (List.length (Dashboard.healthData w))) /\
     Dashboard.orderbooksByNode w' = Dashboard.orderbooksByNode w /\
     Dashboard.totalMarkets w' = Dashboard.totalMarkets w).
Proof.
  intros Hv.
  assert (Hsep : forall N', N' <> N ->
            forall k1, String.eqb N k1 = true -> String.eqb N' k1 = false).
  { intros N' Hne k1 E. apply String.eqb_eq in E. subst k1.
    now apply String.eqb_neq. }
  split.
  - intros s s'. subst s'.
    rewrite (monitor_health_parsed N message s Hv). unfold state_of. simpl.
    split; [|split; [apply size_set | auto]].
    intros N' Hne. apply get_set_other; [now apply Hsep|].
    now apply String.eqb_neq.
  - intros w w'. subst w'.
    rewrite (dashboard_health_parsed N message w Hv).
    match goal with
    | |- context [Dashboard.broadcast ?d ?w1] =>
        destruct (broadcast_frame d w1) as (_ & (E1 & E2 & E3 & _) & _)
    end.
    rewrite E1, E2, E3. simpl.
    split; [|split; [apply size_set | auto]].
    intros N' Hne. apply get_set_other; [now apply Hsep|].
    now apply String.eqb_neq.
Qed.

Lemma health_update_frame_witness :
  JSON_parse Sample.health_message = Some (VObj Sample.health_props) /\
  List.length
    (Dashboard.healthData
       (state_of (Dashboard.handleHealthUpdate "10.0.0.1"
                    Sample.health_message Sample.cached))) = 1%nat.
Proof.
  assert (Hv : JSON_parse Sample.health_message =
               Some (VObj Sample.health_props))
    by (vm_compute; reflexivity).
  split; [exact Hv|].
  destruct (@health_update_frame Sample.runtime "10.0.0.1"
              Sample.health_message _ Hv) as [_ Hd].
  destruct (Hd Sample.cached) as (_ & Hlen & _).
  rewrite Hlen. vm_compute. reflexivity.
Defined.

(** * The time of the last update *)

Section LastUpdate.
Context `{Runtime}.
Import Monitor.

Lemma on_message_stamps (channel message : string) :
  stamps (on_message channel message).
Proof.
  intros s. unfold on_message.
  pose proof (elapse_mono (Monitor.now s)) as H1.
  pose proof (elapse_mono (elapse (Monitor.now s))) as H2.
  destruct (topic_of channel) as [nodeId| |eventId| |].
  - unfold handleHealthUpdate, new_Date. step_body.
    destruct (JSON_parse message) as [v|]; unfold state_of; simpl;
      split; auto; lia.
  - unfold handleOrderbookUpdate, new_Date. step_body.
    destruct (JSON_parse message) as [v|]; unfold state_of; simpl;
      [|split; auto; lia].
    destruct (get_prop v "type") as [e|type]; simpl; [split; auto; lia|].
    destruct (strict_eq_str type "orderbook_update"); simpl;
      [|split; auto; lia].
    destruct (get_prop v "eventId") as [e|eventId0]; simpl;
      [split; auto; lia|].
    destruct (get_prop v "nodeId") as [e|nodeId0]; simpl; split; auto; lia.
  - unfold handleMarketStatusUpdate, new_Date. step_body.
    destruct (JSON_parse message) as [v|]; unfold state_of; simpl;
      [|split; auto; lia].
    destruct (get_prop v "status") as [e|status]; simpl; [split; auto; lia|].
    destruct (is_terminal status); simpl; [|split; auto; lia].
    destruct (remove_from_all eventId (orderbooksByNode s))
      as [[nodes lines] [thrown|]];
      simpl; rewrite for_each_emit; simpl; split; auto; lia.
  - unfold handleMarketDiscovery, new_Date. step_body.
    destruct (JSON_parse message) as [v|]; unfold state_of; simpl;
      [|split; auto; lia].
    destruct (get_prop v "totalMarkets") as [e|total]; simpl;
      split; auto; lia.
  - unfold ret, state_of. simpl. split; auto; lia.
Qed.

Lemma deliver_last_update (t : Z) (channel message : string) (s : State) :
  lastUpdateTime s <= Monitor.now s ->
  lastUpdateTime s <= lastUpdateTime (deliver t channel message s) /\
  lastUpdateTime (deliver t channel message s)
  <= Monitor.now (deliver t channel message s).
Proof.
  intros Hinv. unfold deliver.
  set (s0 := with_now (Z.max (Monitor.now s) t) s).
  destruct (on_message_stamps channel message s0) as [Hnow [E|E]].
  - rewrite E. subst s0. simpl in *. lia.
  - rewrite E. subst s0. simpl in *. lia.
Qed.
End LastUpdate.

(** X20.  The time shown as last update by the terminal monitor never
    runs ahead of the clock and never goes back: through any sequence
    of bus messages [lastUpdateTime] stays at or below the last clock
    reading and at or above its earlier value.  A message that is
    dropped leaves it as it was. *)
Theorem last_update_never_ahead `{Runtime}
    (events : list (Z * string * string)) (s : Monitor.State) :
  Monitor.lastUpdateTime s <= Monitor.now s ->
  Monitor.lastUpdateTime s <= Monitor.lastUpdateTime (Monitor.run events s) /\
  Monitor.lastUpdateTime (Monitor.run events s)
  <= Monitor.now (Monitor.run events s).
Proof.
  revert s. induction events as [|[[t c] m] events IH]; intros s Hinv; simpl.
  - lia.
  - destruct (deliver_last_update t c m s Hinv) as [Hmono Hnext].
    destruct (IH _ Hnext) as [Hmono' Hinv']. lia.
Qed.

Lemma last_update_never_ahead_witness :
  let traffic := [(5, "metrics:10.0.0.1", Sample.health_message);
                  (9, "orderbooks", "{");
                  (7, "market_discovery", "null")] in
  let s := Monitor.init 3 in
  Monitor.lastUpdateTime s <= Monitor.now s /\
  3 <= Monitor.lastUpdateTime (Monitor.run traffic s) /\
  Monitor.lastUpdateTime (Monitor.run traffic s)
  <= Monitor.now (Monitor.run traffic s).
Proof.
  intros traffic s.
  assert (Hinv : Monitor.lastUpdateTime s <= Monitor.now s)
    by (vm_compute; discriminate).
  split; [exact Hinv|].
  exact (@last_update_never_ahead Sample.runtime traffic s Hinv).
Defined.

(** * From the cache to a late client *)

Lemma get_in_exact {K V : Type} (keq : K -> K -> bool) (k : K) (v : V)
    (m : list (K * V)) :
  JsMap.exact_key keq k -> JsMap.get keq k m = Some v -> In (k, v) m.
Proof.
  intros Hexact. induction m as [|[k1 v1] m IH]; simpl; [discriminate|].
  destruct (keq k k1) eqn:E.
  - apply Hexact in E. subst k1. intros Heq. left. congruence.
  - intros Hget. right. auto.
Qed.

Section LateClient.
Context {R : Runtime} {H O : Type} {P : Dashboard.Payload H O}.
Import Dashboard.
Local Abbreviation World := (World H O).

Lemma stamped_in (x : entity) (xs : list entity) (t0 : Z) :
  In x xs -> exists t, t0 <= t /\ In (event_of x t) (stamped t0 xs).
Proof.
  revert t0. induction xs as [|y xs IH]; intros t0; [intros []|].
  pose proof (elapse_mono t0) as Hmono.
  intros [->|Hin]; cbn [stamped].
  - exists (elapse t0). split; [exact Hmono | now left].
  - destruct (IH (elapse t0) Hin) as (t & Ht & Hev).
    exists t. split; [lia | now right].
Qed.

Lemma lookup_in_snapshot (N E : string) (record : O) (w : World) :
  lookup_book (orderbooksByNode w) (VStr N) (VStr E) = Some record ->
  In (BookOf (VStr N) (VStr E) (marketA_js record) (marketB_js record))
    (snapshot w).
Proof.
  unfold lookup_book. intros Hlook.
  destruct (JsMap.get same_value_zero (VStr N) (orderbooksByNode w))
    as [sub|] eqn:Esub; [|discriminate].
  apply get_in_exact in Esub; [|apply exact_VStr].
  apply get_in_exact in Hlook; [|apply exact_VStr].
  unfold snapshot. apply in_or_app. right. apply in_or_app. left.
  apply in_flat_map. exists (VStr N, sub). split; [exact Esub|].
  unfold node_entities. cbn [fst snd].
  apply in_map_iff. exists (VStr E, record). split; [reflexivity | exact Hlook].
Qed.

Lemma on_connection_replays (ws : nat) (w : World) :
  affords (entity_count w) (sockets w ws) ->
  received (sockets (state_of (on_connection ws w)) ws) =
  received (sockets w ws) ++ map JSON_stringify (stamped (now w) (snapshot w)).
Proof.
  intros Hb.
  set (w1 := with_clients
               (if in_dec Nat.eq_dec ws (clients w) then clients w
                else clients w ++ [ws]) w).
  destruct (replay_complete ws w1 Hb) as [trace [_ _ A3 _ _ _ _ _]].
  unfold on_connection. step_body. unfold emit. simpl. fold w1.
  destruct (sendCachedDataToClient ws w1) as [[r0 s0] t0].
  exact A3.
Qed.
End LateClient.

(** X21.  What the order-book handler of the dashboard server caches is
    what a client that attaches later gets: after an order-book message
    for node [N] and market [E], the replay to a client whose socket
    lets the replay through contains an [orderbook_update] event with
    the ids and the two markets of that message, stamped with a clock
    reading at or after the arrival of the message. *)
Theorem cached_book_replayed `{Runtime} (message N E : string)
    (props : jsobj) (ws : nat) (w : Dashboard.World jsobj jsobj) :
  JSON_parse message = Some (VObj props) ->
  obj_get "type" props = VStr "orderbook_update" ->
  obj_get "nodeId" props = VStr N ->
  obj_get "eventId" props = VStr E ->
  let w1 := state_of (Dashboard.handleOrderbookUpdate message w) in
  affords (entity_count w1) (Dashboard.sockets w1 ws) ->
  exists t,
    Dashboard.now w <= t /\
    In (JSON_stringify
          (Dashboard.orderbook_update (VStr E) (VStr N)
             (obj_get "marketA" props) (obj_get "marketB" props) t))
       (Dashboard.received
          (Dashboard.sockets (state_of (Dashboard.on_connection ws w1)) ws)).
Proof.
  intros Hv Htype HN HE w1 Hb.
  set (record := obj_set "lastUpdate" (VDate (elapse (Dashboard.now w))) props).
  assert (Hlook : lookup_book (Dashboard.orderbooksByNode w1)
                    (VStr N) (VStr E) = Some record).
  { subst w1. rewrite (dashboard_orderbook_parsed message w Hv Htype).
    match goal with
    | |- context [Dashboard.broadcast ?d ?w0] =>
        destruct (broadcast_frame d w0) as (_ & (_ & E2 & _) & _)
    end.
    rewrite E2. simpl. rewrite HN, HE. apply lookup_cache_same. }
  assert (Hnow : Dashboard.now w <= Dashboard.now w1).
  { subst w1. rewrite (dashboard_orderbook_parsed message w Hv Htype).
    match goal with
    | |- context [Dashboard.broadcast ?d ?w0] =>
        destruct (broadcast_frame d w0) as (_ & _ & E3 & _)
    end.
    rewrite E3. simpl.
    pose proof (elapse_mono (Dashboard.now w)).
    pose proof (elapse_mono (elapse (Dashboard.now w))). lia. }
  apply lookup_in_snapshot in Hlook.
  destruct (stamped_in _ _ (Dashboard.now w1) Hlook) as (t & Ht & Hev).
  exists t. split; [lia|].
  rewrite (on_connection_replays ws w1 Hb).
  apply in_or_app. right.
  apply in_map_iff. eexists. split; [|exact Hev].
  cbn [event_of Dashboard.marketA_js Dashboard.marketB_js
       Dashboard.jsobj_payload].
  subst record. now rewrite !obj_get_set.
Qed.

Lemma cached_book_replayed_witness :
  JSON_parse Sample.orderbook_message = Some (VObj Sample.orderbook_props) /\
  let w1 := state_of (Dashboard.handleOrderbookUpdate Sample.orderbook_message
                        Sample.server) in
  affords (entity_count w1) (Dashboard.sockets w1 5%nat) /\
  exists t,
    In (JSON_stringify
          (Dashboard.orderbook_update (VStr "E1") (VStr "10.0.0.1")
             (VObj [("marketId", VStr "YES")])
             (VObj [("marketId", VStr "NO")]) t))
       (Dashboard.received
          (Dashboard.sockets (state_of (Dashboard.on_connection 5%nat w1))
             5%nat)).
Proof.
  assert (Hv : JSON_parse Sample.orderbook_message =
               Some (VObj Sample.orderbook_props))
    by (vm_compute; reflexivity).
  split; [exact Hv|]. intros w1.
  assert (Hb : affords (entity_count w1) (Dashboard.sockets w1 5%nat))
    by (vm_compute; exact I).
  split; [exact Hb|].
  destruct (@cached_book_replayed Sample.runtime Sample.orderbook_message
              "10.0.0.1" "E1" Sample.orderbook_props 5%nat Sample.server
              Hv eq_refl eq_refl eq_refl Hb) as (t & _ & Hin).
  exists t. exact Hin.
Defined.

Lemma health_in_snapshot {R : Runtime} {H O : Type}
    {P : Dashboard.Payload H O} (N : string) (h : H)
    (w : Dashboard.World H O) :
  JsMap.get String.eqb N (Dashboard.healthData w) = Some h ->
  In (HealthOf N (Dashboard.health_js h)) (snapshot w).
Proof.
  intros Hget. apply get_in_exact in Hget; [|apply exact_string].
  unfold snapshot. apply in_or_app. left.
  apply in_map_iff. exists (N, h). split; [reflexivity | exact Hget].
Qed.

(** X22.  A client that attaches after a health message of node [N] gets
    a [health_update] event of [N] whose [health] is the cached record,
    that is the fields of the payload with [lastUpdate] added, while
    the clients attached when the message came got the payload as it
    was.  The replayed event is stamped at or after the record. *)
Theorem cached_health_replayed `{Runtime} (N message : string) (v : jsval)
    (ws : nat) (w : Dashboard.World jsobj jsobj) :
  JSON_parse message = Some v ->
  let T := elapse (Dashboard.now w) in
  let w1 := state_of (Dashboard.handleHealthUpdate N message w) in
  affords (entity_count w1) (Dashboard.sockets w1 ws) ->
  exists t,
    T <= t /\
    In (JSON_stringify
          (Dashboard.health_update N
             (VObj (obj_set "lastUpdate" (VDate T) (spread v))) t))
       (Dashboard.received
          (Dashboard.sockets (state_of (Dashboard.on_connection ws w1)) ws)).
Proof.
  intros Hv T w1 Hb.
  assert (Hw1 : JsMap.get String.eqb N (Dashboard.healthData w1) =
                Some (obj_set "lastUpdate" (VDate T) (spread v)) /\
                T <= Dashboard.now w1).
  { subst w1. rewrite (dashboard_health_parsed N message w Hv).
    match goal with
    | |- context [Dashboard.broadcast ?d ?w0] =>
        destruct (broadcast_frame d w0) as (_ & (E1 & _) & E3 & _)
    end.
    rewrite E1, E3. simpl. split.
    - apply get_set_same, String.eqb_refl.
    - apply elapse_mono. }
  destruct Hw1 as [Hget Hnow].
  apply health_in_snapshot in Hget.
  destruct (stamped_in _ _ (Dashboard.now w1) Hget) as (t & Ht & Hev).
  exists t. split; [lia|].
  rewrite (on_connection_replays ws w1 Hb).
  apply in_or_app. right.
  apply in_map_iff. eexists. split; [|exact Hev]. reflexivity.
Qed.

Lemma cached_health_replayed_witness :
  JSON_parse Sample.health_message = Some (VObj Sample.health_props) /\
  let w1 := state_of (Dashboard.handleHealthUpdate "10.0.0.1"
                        Sample.health_message Sample.server) in
  affords (entity_count w1) (Dashboard.sockets w1 5%nat) /\
  exists t,
    In (JSON_stringify
          (Dashboard.health_update "10.0.0.1"
             (VObj [("cpuUsage", VNum 50); ("isHealthy", VBool true);
                    ("lastUpdate", VDate 1)]) t))
       (Dashboard.received
          (Dashboard.sockets (state_of (Dashboard.on_connection 5%nat w1))
             5%nat)).
Proof.
  assert (Hv : JSON_parse Sample.health_message =
               Some (VObj Sample.health_props))
    by (vm_compute; reflexivity).
  split; [exact Hv|]. intros w1.
  assert (Hb : affords (entity_count w1) (Dashboard.sockets w1 5%nat))
    by (vm_compute; exact I).
  split; [exact Hb|].
  destruct (@cached_health_replayed Sample.runtime "10.0.0.1"
              Sample.health_message _ 5%nat Sample.server Hv Hb)
    as (t & _ & Hin).
  exists t. exact Hin.
Defined.

(** * An eviction that is cut short *)

Lemma remove_from_all_cut {O : Type} (eventId : string)
    (before after : books O) (key : jsval) (sub : list (jsval * O)) :
  printable_holders eventId before ->
  JsMap.has same_value_zero (VStr eventId) sub = true ->
  unconvertible key = true ->
  fst (fst (remove_from_all eventId (before ++ (key, sub) :: after))) =
    evicted eventId before
    ++ (key, JsMap.delete same_value_zero (VStr eventId) sub) :: after /\
  snd (remove_from_all eventId (before ++ (key, sub) :: after)) =
    Some conversion_error.
Proof.
  intros Hp Hheld Hkey. unfold printable_holders in Hp.
  induction before as [|[n s0] before IH]; simpl.
  - rewrite Hheld, Hkey. auto.
  - destruct IH as [IH1 IH2];
      [intros n' s' Hin; apply Hp; right; exact Hin|].
    destruct (remove_from_all eventId (before ++ (key, sub) :: after))
      as [[rest lines] thrown].
    simpl in IH1, IH2. subst thrown.
    destruct (JsMap.has same_value_zero (VStr eventId) s0) eqn:E.
    + rewrite (Hp n s0 (or_introl eq_refl) E). simpl. now rewrite IH1.
    + simpl. rewrite IH1. now rewrite (delete_absent _ _ _ E).
Qed.

Lemma monitor_status_cut `{Runtime} (eventId message : string)
    (v status : jsval) (e : exn) (s : Monitor.State) :
  JSON_parse message = Some v ->
  get_prop v "status" = inr status ->
  is_terminal status = true ->
  snd (remove_from_all eventId (Monitor.orderbooksByNode s)) = Some e ->
  let r := Monitor.handleMarketStatusUpdate eventId message s in
  result_of r = Ret tt /\
  Monitor.lastUpdateTime (state_of r) = Monitor.lastUpdateTime s /\
  trace_of r =
    (ConsoleLog "Removing market" [VStr eventId; status]
       :: snd (fst (remove_from_all eventId (Monitor.orderbooksByNode s))))
    ++ [ConsoleError ("Error processing market status for " ++ eventId) e].
Proof.
  intros Hv Hst Hterm Hcut r. subst r.
  unfold Monitor.handleMarketStatusUpdate, Monitor.new_Date.
  step_body. rewrite Hv. simpl. rewrite Hst. simpl. rewrite Hterm. simpl.
  destruct (remove_from_all eventId (Monitor.orderbooksByNode s))
    as [[nodes lines] thrown].
  simpl in Hcut. subst thrown. simpl. rewrite for_each_emit.
  unfold emit, result_of, state_of, trace_of. simpl.
  now rewrite !app_nil_r.
Qed.

(** X23.  The eviction loop logs each removal with the node key in the
    text of the line, which converts the key to a string.  For a key
    that is an object with a property named [toString], as an order-book
    message with such a [nodeId] leaves in the cache, the conversion
    throws: the nodes before it have lost [M], that node has lost [M]
    too, and every node after it keeps what it had.  The handler
    catches the error and logs it.  The terminal monitor has recorded
    the status but does not refresh [lastUpdateTime]; the dashboard
    server does not call [broadcast], so that no client learns of the
    removal, and leaves the sockets and the client set alone. *)
Theorem eviction_stops_at_unconvertible_key `{Runtime} (M message : string)
    (v status key : jsval) (sub : list (jsval * jsobj))
    (before after : books jsobj) :
  JSON_parse message = Some v ->
  get_prop v "status" = inr status ->
  is_terminal status = true ->
  printable_holders M before ->
  JsMap.has same_value_zero (VStr M) sub = true ->
  unconvertible key = true ->
  let cut := evicted M before
             ++ (key, JsMap.delete same_value_zero (VStr M) sub) :: after in
  (forall s : Monitor.State,
     Monitor.orderbooksByNode s = before ++ (key, sub) :: after ->
     let r := Monitor.handleMarketStatusUpdate M message s in
     result_of r = Ret tt /\
     Monitor.orderbooksByNode (state_of r) = cut /\
     JsMap.has String.eqb M (Monitor.marketStatus (state_of r)) = true /\
     Monitor.lastUpdateTime (state_of r) = Monitor.lastUpdateTime s /\
     existsb is_error (trace_of r) = true) /\
  (forall w : Dashboard.World jsobj jsobj,
     Dashboard.orderbooksByNode w = before ++ (key, sub) :: after ->
     let r := Dashboard.handleMarketStatusUpdate M message w in
     result_of r = Ret tt /\
     Dashboard.orderbooksByNode (state_of r) = cut /\
     fanouts (trace_of r) = [] /\
     existsb is_error (trace_of r) = true /\
     Dashboard.sockets (state_of r) = Dashboard.sockets w /\
     Dashboard.clients (state_of r) = Dashboard.clients w).
Proof.
  intros Hv Hst Hterm Hp Hheld Hkey cut.
  destruct (@remove_from_all_cut _ M before after key sub Hp Hheld Hkey)
    as [Hcut Hthrown].
  split.
  - intros s Hs r.
    rewrite <- Hs in Hcut, Hthrown.
    destruct (monitor_status_cut M message s Hv Hst Hterm Hthrown)
      as (Hret & Hlast & Htrace).
    fold r in Hret, Hlast, Htrace.
    split; [exact Hret|]. split; [|split; [|split; [exact Hlast|]]].
    + subst r. rewrite (monitor_status_terminal M message s Hv Hst Hterm).
      exact Hcut.
    + subst r. rewrite (monitor_status_recorded M message s Hv).
      apply has_set_same, String.eqb_refl.
    + rewrite Htrace, existsb_app. simpl. apply orb_true_r.
  - intros w Hw r. subst r.
    rewrite <- Hw in Hcut, Hthrown.
    rewrite (dashboard_status_cut M message w Hv Hst Hterm Hthrown).
    unfold result_of, state_of, trace_of. cbn [fst snd].
    split; [reflexivity|]. split; [exact Hcut|].
    destruct (remove_from_all_quiet M (Dashboard.orderbooksByNode w))
      as [Hq _].
    split; [|split; [|split; reflexivity]].
    + rewrite fanouts_app. simpl. rewrite Hq. reflexivity.
    + rewrite existsb_app. simpl. apply orb_true_r.
Qed.

Lemma eviction_stops_at_unconvertible_key_witness :
  let key := VObj [("toString", VNum 1)] in
  let w := Sample.odd_store in
  let r := Dashboard.handleMarketStatusUpdate "E1"
             (Sample.status_message "CLOSED") w in
  JSON_parse (Sample.status_message "CLOSED") =
    Some (VObj [("status", VStr "CLOSED")]) /\
  map fst (Dashboard.orderbooksByNode w) = [key; VStr "n2"] /\
  unconvertible key = true /\
  fanouts (trace_of r) = [] /\
  lookup_book (Dashboard.orderbooksByNode (state_of r)) (VStr "n2") (VStr "E1")
  <> None.
Proof.
  intros key w r.
  assert (Hv : JSON_parse (Sample.status_message "CLOSED") =
               Some (VObj [("status", VStr "CLOSED")]))
    by (vm_compute; reflexivity).
  split; [exact Hv|]. split; [vm_compute; reflexivity|].
  split; [reflexivity|].
  set (sub := match Dashboard.orderbooksByNode w with
              | (_, held) :: _ => held
              | [] => []
              end).
  set (after := tl (Dashboard.orderbooksByNode w)).
  assert (Hw : Dashboard.orderbooksByNode w = [] ++ (key, sub) :: after)
    by (vm_compute; reflexivity).
  assert (Hheld : JsMap.has same_value_zero (VStr "E1") sub = true)
    by (vm_compute; reflexivity).
  assert (Hp : printable_holders "E1" (@nil (jsval * list (jsval * jsobj))))
    by (intros n s0 []).
  destruct (@eviction_stops_at_unconvertible_key Sample.runtime "E1"
              (Sample.status_message "CLOSED") _ _ key sub [] after
              Hv eq_refl eq_refl Hp Hheld eq_refl) as [_ Hd].
  destruct (Hd w Hw) as (_ & Hbooks & Hfan & _).
  fold r in Hbooks, Hfan. split; [exact Hfan|].
  rewrite Hbooks. vm_compute. discriminate.
Defined.
